(** * Exam proctoring core: risk fusion, violation classification,
      alert cooldown and report statistics

    A shallow embedding of the four Python modules

    - [src/utils/cheating_probability.py] (module [cheating_probability]),
    - [src/main.py]: the per-frame classification (module [main]), the
      body of the frame loop (module [main_loop]) and the on-screen
      overlay (module [overlay]),
    - [src/utils/alert_system.py] (module [alert_system]),
    - [src/reporting/report_generator.py]: the statistics (module
      [report_generator]), the charts and the document (module
      [report_documents]),

    followed by the properties of the specification, proved on them.

    Conventions.  Python [int] is [Z]; a [float] is an IEEE 754
    binary64 number, [spec_float] of the Standard Library; [dict] with
    string keys is [gmap string _]; a raised exception is the left
    injection of a sum.  Violation types are the strings the code
    uses. *)

From Stdlib Require Import ZArith QArith Qpower Lia Sorted Ascii SpecFloat.
From stdpp Require Import gmap strings list fin_maps pretty.

Local Open Scope string_scope.
Local Open Scope list_scope.
Local Open Scope Z_scope.

(** ** Python exceptions the modelled code can raise *)

Inductive PyError : Type :=
| KeyError (key : string)
| ZeroDivisionError.

Definition result (A : Type) : Type := (PyError + A)%type.

Definition ret {A} (x : A) : result A := inr x.

Definition bind {A B} (m : result A) (k : A -> result B) : result B :=
  match m with
  | inl e => inl e
  | inr x => k x
  end.

Notation "x <- m ;; k" := (bind m (fun x => k))
  (at level 100, m at next level, right associativity).

(** [d[k]] on a dict: [KeyError] when the key is absent. *)
Definition getitem {V} (d : gmap string V) (k : string) : result V :=
  match d !! k with
  | Some v => ret v
  | None => inl (KeyError k)
  end.

(** [d.get(k, dflt)] on a dict. *)
Definition dict_get {V} (d : gmap string V) (k : string) (dflt : V) : V :=
  default dflt (d !! k).

(** [sum] over a sequence of integers. *)
Definition sum (l : list Z) : Z := fold_right Z.add 0 l.

(** ** Python numbers

    A [float] is a binary64 number: 53 bits of precision, exponents
    below 1024. *)

Definition float : Type := spec_float.

Inductive PyNum : Type :=
| PyInt (z : Z)
| PyFloat (f : float).

(** An [int] as the operand of a division: the integer itself, with no
    rounding, whatever its size. *)
Definition of_int (z : Z) : float :=
  match z with
  | Z0 => S754_zero false
  | Zpos p => S754_finite false p 0
  | Zneg p => S754_finite true p 0
  end.

(** [a / b] on two [int]s, for [b] other than 0: the float nearest to
    the exact quotient, ties to even, which is what IEEE division of
    the two integers gives.  Where the result is beyond the range of
    floats Python raises [OverflowError]; here it is then the infinite
    float. *)
Definition int_truediv (a b : Z) : float :=
  SFdiv 53 1024 (of_int a) (of_int b).

(** ** The per-frame detection results

    The [results] dict that [main] fills once per frame.  The float
    [eye_ratio] is read only by the on-screen overlay and is left out. *)

Record Results : Type := {
  face_present : bool;
  gaze_direction : string;
  mouth_moving : bool;
  multiple_faces : bool;
  objects_detected : bool;
  timestamp : string
}.

(** ** [utils/cheating_probability.py] *)

Module cheating_probability.

(** [collections.deque(maxlen=n).append(x)]: the item goes to the right
    end, and when the length then exceeds [maxlen] the leftmost item is
    dropped.  The oldest entry is the head of the list. *)
Definition deque_append (maxlen : nat) (d : list Z) (x : Z) : list Z :=
  let d' := d ++ [x] in
  if (maxlen <? length d')%nat then tail d' else d'.

Record CheatingProbabilityCalculator : Type := {
  window_size : nat;
  history : list Z;
  weights : gmap string Z
}.

Definition default_weights : gmap string Z :=
  <["FACE_DISAPPEARED" := 40]>
  (<["MULTIPLE_FACES" := 50]>
  (<["OBJECT_DETECTED" := 45]>
  (<["MOUTH_MOVING" := 20]>
  (<["GAZE_AWAY" := 15]> ∅)))).

Definition __init__ (window_size : nat) : CheatingProbabilityCalculator :=
  {| window_size := window_size;
     history := [];
     weights := default_weights |}.

(** One [if cond: score += self.weights[key]; reasons.append(reason)]
    block; the weight is looked up only when the condition holds. *)
Definition add_if (self : CheatingProbabilityCalculator) (cond : bool)
    (key reason : string) (acc : Z * list string) : result (Z * list string) :=
  if cond then
    w <- getitem (weights self) key ;;
    ret (fst acc + w, snd acc ++ [reason])
  else ret acc.

Definition compute_frame_score (self : CheatingProbabilityCalculator)
    (results : Results) : result (Z * list string) :=
  a <- add_if self (negb (face_present results))
         "FACE_DISAPPEARED" "Face not visible" (0, []) ;;
  a <- add_if self (multiple_faces results)
         "MULTIPLE_FACES" "Multiple faces detected" a ;;
  a <- add_if self (objects_detected results)
         "OBJECT_DETECTED" "Suspicious object detected" a ;;
  a <- add_if self (mouth_moving results)
         "MOUTH_MOVING" "Mouth movement detected" a ;;
  a <- add_if self (negb (String.eqb (gaze_direction results) "Center"))
         "GAZE_AWAY" "Looking away from screen" a ;;
  ret (Z.min (fst a) 100, snd a).

Definition set_history (self : CheatingProbabilityCalculator) (h : list Z)
    : CheatingProbabilityCalculator :=
  {| window_size := window_size self; history := h; weights := weights self |}.

(** [update] returns the calculator after the call together with what
    the call returned or raised.  [int(sum(h) / len(h))] is the quotient
    truncated toward zero (exact while the sum stays below 2^53, which
    the float division needs); [len(h) = 0] raises. *)
Definition update (self : CheatingProbabilityCalculator) (results : Results)
    : CheatingProbabilityCalculator * result (Z * list string) :=
  match compute_frame_score self results with
  | inl e => (self, inl e)
  | inr (frame_score, reasons) =>
      let self' :=
        set_history self
          (deque_append (window_size self) (history self) frame_score) in
      let n := length (history self') in
      if (n =? 0)%nat then (self', inl ZeroDivisionError)
      else (self', inr (Z.quot (sum (history self')) (Z.of_nat n), reasons))
  end.

(** Feeding a sequence of frames: the calculator after the last call and
    what each call returned, in call order. *)
Fixpoint run (self : CheatingProbabilityCalculator) (frames : list Results)
    : CheatingProbabilityCalculator * list (result (Z * list string)) :=
  match frames with
  | [] => (self, [])
  | r :: frames' =>
      let (self', out) := update self r in
      let (self'', outs) := run self' frames' in
      (self'', out :: outs)
  end.

End cheating_probability.

(** ** [main.py]: the per-frame violation classification *)

Module main.

(** The [if]/[elif] chain that sets [violation_type]; [None] is Python's
    [None], the value it keeps when no branch is taken. *)
Definition violation_type (results : Results) : option string :=
  if negb (face_present results) then Some "FACE_DISAPPEARED"
  else if multiple_faces results then Some "MULTIPLE_FACES"
  else if objects_detected results then Some "OBJECT_DETECTED"
  else if mouth_moving results then Some "MOUTH_MOVING"
  else None.

End main.

(** ** [utils/alert_system.py]

    Instants and durations are integers: the readings of [time.time()]
    and the configured cooldown, counted in ticks of the clock. *)

Module alert_system.

Record AlertSystem : Type := {
  alert_cooldown : Z;
  last_alert_time : gmap string Z;
  audio_enabled : bool;
  alerts : gmap string string
}.

Definition alert_messages : gmap string string :=
  <["FACE_DISAPPEARED" := "Please look at the screen"]>
  (<["FACE_REAPPEARED" := "Thank you for looking at the screen"]>
  (<["MULTIPLE_FACES" := "We detected multiple people"]>
  (<["OBJECT_DETECTED" := "Unauthorized object detected"]>
  (<["GAZE_AWAY" := "Please focus on your screen"]>
  (<["MOUTH_MOVING" := "Please maintain silence during exam"]>
  (<["SPEECH_VIOLATION" := "Speaking during exam is not allowed"]>
  (<["VOICE_DETECTED" :=
      "We detected voice. Please maintain silence during the exam"]>
   ∅))))))).

(** The constructor.  [mixer_ok] tells whether [pygame.mixer.init()]
    returned ([true]) or raised ([false]); the flag is written here and
    nowhere else. *)
Definition __init__ (alert_cooldown : Z) (mixer_ok : bool) : AlertSystem :=
  {| alert_cooldown := alert_cooldown;
     last_alert_time := ∅;
     audio_enabled := if mixer_ok then true else false;
     alerts := alert_messages |}.

(** [current_time] is the reading of [time.time()] the method takes. *)
Definition _can_alert (self : AlertSystem) (alert_type : string)
    (current_time : Z) : bool :=
  let last_time := dict_get (last_alert_time self) alert_type 0 in
  alert_cooldown self <=? current_time - last_time.

Definition set_last_alert_time (self : AlertSystem) (m : gmap string Z)
    : AlertSystem :=
  {| alert_cooldown := alert_cooldown self;
     last_alert_time := m;
     audio_enabled := audio_enabled self;
     alerts := alerts self |}.

(** The loop [while get_busy(): sleep(0.1)] that follows [play()]: it
    ends when playback does, one of its calls raises, or it goes on for
    as long as the thread lives. *)
Inductive WaitOutcome : Type :=
| WaitEnds
| WaitRaises
| WaitForever.

(** What the environment does to one background unit: for each call to
    the outside, in the order of the body, whether it returns ([true])
    or raises an [Exception] ([false]).  A field is read only when the
    body reaches the call; [print] is taken to return. *)
Record AudioEnv : Type := {
  gtts_ok : bool;       (* gTTS(text=..., lang='en') *)
  tempfile_ok : bool;   (* NamedTemporaryFile(suffix='.mp3', delete=False) *)
  save_ok : bool;       (* tts.save(temp_path) and the closing of the file *)
  load_ok : bool;       (* pygame.mixer.music.load(temp_path) *)
  play_ok : bool;       (* pygame.mixer.music.play() *)
  wait : WaitOutcome;   (* the get_busy / sleep loop *)
  file_exists : bool;   (* what os.path.exists(temp_path) returns *)
  remove_ok : bool      (* os.remove(temp_path) *)
}.

(** What a unit does, call by call: the temporary file is created, the
    speech is saved in it, [play()] has returned and the message is on
    the loudspeaker, the warning is printed, [os.remove] has returned,
    [os.remove] has raised. *)
Inductive AudioEvent : Type :=
| TempFileCreated
| SpeechSaved (text : string)
| Played (text : string)
| WarningPrinted
| TempFileRemoved
| RemovalFailed.

#[global] Instance AudioEvent_eq_dec : EqDecision AudioEvent.
Proof. solve_decision. Defined.

(** The [finally] block; [temp_path] tells whether the name of the
    temporary file was assigned.  A failing [os.remove] is passed
    over. *)
Definition cleanup (env : AudioEnv) (temp_path : bool) : list AudioEvent :=
  if temp_path && file_exists env then
    if remove_ok env then [TempFileRemoved] else [RemovalFailed]
  else [].

(** The body of the background unit, as the trace of what it does. *)
Definition _play_audio (self : AlertSystem) (alert_type : string)
    (env : AudioEnv) : list AudioEvent :=
  match alerts self !! alert_type with
  | None => cleanup env false
  | Some text =>
      if negb (gtts_ok env) then [WarningPrinted] ++ cleanup env false
      else if negb (tempfile_ok env) then
        [WarningPrinted] ++ cleanup env false
      else if negb (save_ok env) then
        [TempFileCreated; WarningPrinted] ++ cleanup env true
      else if negb (load_ok env) then
        [TempFileCreated; SpeechSaved text; WarningPrinted]
        ++ cleanup env true
      else if negb (play_ok env) then
        [TempFileCreated; SpeechSaved text; WarningPrinted]
        ++ cleanup env true
      else
        match wait env with
        | WaitEnds =>
            [TempFileCreated; SpeechSaved text; Played text]
            ++ cleanup env true
        | WaitRaises =>
            [TempFileCreated; SpeechSaved text; Played text; WarningPrinted]
            ++ cleanup env true
        | WaitForever =>
            [TempFileCreated; SpeechSaved text; Played text]
        end
  end.

(** [speak_alert] reads the clock twice: [now_check] inside [_can_alert]
    and [now_set] when it records the alert.  It returns the dispatcher
    after the call and the background units the call started, each named
    by the [alert_type] its closure holds. *)
Definition speak_alert (self : AlertSystem) (alert_type : string)
    (now_check now_set : Z) : AlertSystem * list string :=
  if negb (audio_enabled self) then (self, [])
  else if negb (_can_alert self alert_type now_check) then (self, [])
  else
    (set_last_alert_time self
       (<[alert_type := now_set]> (last_alert_time self)),
     [alert_type]).

(** One call of a session: the type and the two clock readings. *)
Record Call : Type := {
  call_type : string;
  call_check : Z;
  call_set : Z
}.

(** A session of calls, in order: the dispatcher at the end and every
    background unit started. *)
Fixpoint session (self : AlertSystem) (calls : list Call)
    : AlertSystem * list string :=
  match calls with
  | [] => (self, [])
  | c :: calls' =>
      let (self', started) :=
        speak_alert self (call_type c) (call_check c) (call_set c) in
      let (self'', started') := session self' calls' in
      (self'', started ++ started')
  end.

End alert_system.

(** ** [reporting/report_generator.py] *)

Module report_generator.

(** A logged violation, with the two keys [_calculate_stats] reads. *)
Record Violation : Type := {
  type : string;
  timestamp : string
}.

Record TimelineEntry : Type := {
  entry_time : string;
  entry_type : string;
  entry_severity : Z
}.

(** [by_type] is the dict as it is read by key; the order of its keys,
    that of their first occurrence, is kept where the same loop feeds
    the heatmap ([heatmap_counts] below).  [average_severity] is the
    [int] 0 the dict starts with or the [float] a division returned. *)
Record Stats : Type := {
  total : Z;
  by_type : gmap string Z;
  timeline : list TimelineEntry;
  severity_score : Z;
  average_severity : PyNum
}.

Record ReportGenerator : Type := {
  severity_map : gmap string Z
}.

Definition default_severity_map : gmap string Z :=
  <["FACE_DISAPPEARED" := 1]>
  (<["GAZE_AWAY" := 2]>
  (<["MOUTH_MOVING" := 3]>
  (<["MULTIPLE_FACES" := 4]>
  (<["OBJECT_DETECTED" := 5]>
  (<["AUDIO_DETECTED" := 3]> ∅))))).

Definition __init__ : ReportGenerator :=
  {| severity_map := default_severity_map |}.

(** The body of the [for v in violations] loop. *)
Definition loop_body (self : ReportGenerator) (stats : Stats) (v : Violation)
    : Stats :=
  let severity := dict_get (severity_map self) (type v) 1 in
  {| total := total stats;
     by_type :=
       <[type v := dict_get (by_type stats) (type v) 0 + 1]> (by_type stats);
     timeline :=
       timeline stats ++
       [{| entry_time := timestamp v;
           entry_type := type v;
           entry_severity := severity |}];
     severity_score := severity_score stats + severity;
     average_severity := average_severity stats |}.

(** [severity_score / total] divides two [int]s and gives a [float];
    it is reached only when [total] is positive.  The quotient leaves
    the range of floats only when a severity weight is itself as large
    as the largest float (with the weights the constructor writes it
    lies between 1 and 5); Python then raises [OverflowError], for
    which the infinite float left in [average_severity] stands. *)
Definition _calculate_stats (self : ReportGenerator)
    (violations : list Violation) : Stats :=
  let stats0 :=
    {| total := Z.of_nat (length violations);
       by_type := ∅;
       timeline := [];
       severity_score := 0;
       average_severity := PyInt 0 |} in
  let stats := fold_left (loop_body self) violations stats0 in
  if 0 <? total stats then
    {| total := total stats;
       by_type := by_type stats;
       timeline := timeline stats;
       severity_score := severity_score stats;
       average_severity :=
         PyFloat (int_truediv (severity_score stats) (total stats)) |}
  else stats.

(** Whether the call of [_calculate_stats] that gave [stats] raised
    [OverflowError]. *)
Definition overflowed (stats : Stats) : bool :=
  match average_severity stats with
  | PyFloat (S754_infinity _) => true
  | _ => false
  end.

End report_generator.

(** ** [main.py]: the body of the frame loop

    The part of the [while] loop between the detector calls and the
    overlay: the calculator is updated, a high risk is logged, the frame
    is classified and a classified violation is announced, captured and
    logged.  The loggers and the capturer are objects of modules outside
    these files; their calls are recorded, in order, as they are made,
    and are taken to return. *)

Module main_loop.

(** The two objects of [main] the loop changes. *)
Record Objects : Type := {
  cheating_calculator : cheating_probability.CheatingProbabilityCalculator;
  dispatcher : alert_system.AlertSystem
}.

(** Calls made on the outside: [alert_logger.log_event], the thread
    started by [speak_alert], [violation_capturer.capture_violation] and
    [violation_logger.log_violation], with their arguments (the image
    apart). *)
Inductive Effect : Type :=
| log_event (event : string) (probability : Z) (reasons : list string)
    (timestamp : string)
| thread_start (alert_type : string)
| capture_violation (violation_type timestamp : string)
| log_violation (violation_type timestamp : string)
    (cheating_probability : Z) (cheating_reasons : list string).

(** What one iteration reads from outside: the [results] the detectors
    filled, the two clock readings of [speak_alert] and the formatted
    [datetime.now()] of the violation. *)
Record Frame : Type := {
  results : Results;
  now_check : Z;
  now_set : Z;
  violation_timestamp : string
}.

Definition loop_body (o : Objects) (f : Frame)
    : Objects * result (list Effect) :=
  let (calculator', out) :=
    cheating_probability.update (cheating_calculator o) (results f) in
  match out with
  | inl e =>
      ({| cheating_calculator := calculator'; dispatcher := dispatcher o |},
       inl e)
  | inr (cheating_probability, reasons) =>
      let high :=
        if 70 <=? cheating_probability then
          [log_event "HIGH_CHEATING_PROBABILITY" cheating_probability
             reasons (timestamp (results f))]
        else [] in
      match main.violation_type (results f) with
      | None =>
          ({| cheating_calculator := calculator';
              dispatcher := dispatcher o |},
           inr high)
      | Some violation_type =>
          let (dispatcher', started) :=
            alert_system.speak_alert (dispatcher o) violation_type
              (now_check f) (now_set f) in
          ({| cheating_calculator := calculator';
              dispatcher := dispatcher' |},
           inr (high ++ map thread_start started ++
                [capture_violation violation_type (violation_timestamp f);
                 log_violation violation_type (violation_timestamp f)
                   cheating_probability reasons]))
      end
  end.

(** The loop over the frames read: the objects at the end, every call
    made, and the exception that ended the loop, if one did. *)
Fixpoint run (o : Objects) (frames : list Frame)
    : Objects * list Effect * option PyError :=
  match frames with
  | [] => (o, [], None)
  | f :: frames' =>
      match loop_body o f with
      | (o', inl e) => (o', [], Some e)
      | (o', inr effects) =>
          let '(o'', effects', err) := run o' frames' in
          (o'', effects ++ effects', err)
      end
  end.

End main_loop.

(** ** [reporting/report_generator.py]: the charts and the document

    The methods that write files.  What the libraries and the file
    system do is read from a [World]: each field tells whether the calls
    it stands for return or one of them raises.  A path is the list
    of its components, [os.path.join] adds one; the two formatted
    [datetime.now()] readings of [generate_report] are arguments. *)

Module report_documents.

Import report_generator.

Definition Path : Type := list string.

Definition os_path_join (p : Path) (name : string) : Path := p ++ [name].

(** The attributes of [self] these methods read. *)
Record Instance : Type := {
  generator : ReportGenerator;
  output_dir : Path
}.

Definition image_dir (self : Instance) : Path :=
  os_path_join (output_dir self) "images".

Record World : Type := {
  strptime_ok : string -> bool;  (* strptime(ts, "%Y%m%d_%H%M%S_%f") returns *)
  timeline_plot_ok : bool;       (* the pyplot calls of the timeline return *)
  heatmap_plot_ok : bool;        (* the pyplot calls of the heatmap return *)
  render_ok : bool;              (* get_template and render return *)
  open_ok : bool;                (* open(html_path, 'w') returns *)
  write_ok : bool;               (* f.write and the closing of the file *)
  pdfkit_available : bool;       (* PDFKIT_AVAILABLE *)
  pdf_ok : bool                  (* the pdfkit calls return *)
}.

Record ReportData : Type := {
  student : gmap string string;
  violations : list Violation;
  generated_at : string;
  stats : Stats;
  timeline_image : option Path;
  heatmap_image : option Path;
  has_images : bool
}.

(** The calls that write files, once they have returned, and the log
    records made, in order: [savefig] is the saving of a chart whose
    method returns its path, [open_html] is [open(html_path, 'w')],
    after which the file exists, [write_html] the writing of the page
    rendered from [report_data], and [write_pdf] is
    [pdfkit.from_string].  What a call that raises leaves on the disk
    is not part of the model. *)
Inductive Effect : Type :=
| savefig (path : Path)
| open_html (path : Path)
| write_html (path : Path) (report_data : ReportData)
| write_pdf (path : Path)
| info_html (path : Path)
| info_pdf (path : Path)
| warning_timeline
| warning_heatmap
| warning_pdf
| error_report.

(** The three lists the timeline plots, point by point. *)
Definition timeline_points (self : Instance) (violations : list Violation)
    : list (string * Z * string) :=
  map (fun v => (timestamp v,
                 dict_get (severity_map (generator self)) (type v) 1,
                 type v)) violations.

Definition _generate_timeline (w : World) (self : Instance)
    (violations : list Violation) (student_id : string)
    : option Path * list Effect :=
  match violations with
  | [] => (None, [])
  | _ =>
      if forallb (fun v => strptime_ok w (timestamp v)) violations
         && timeline_plot_ok w
      then
        let path :=
          os_path_join (image_dir self)
            ("timeline_" +:+ student_id +:+ ".png") in
        (Some path, [savefig path])
      else (None, [warning_timeline])
  end.

(** A dict in insertion order, as [counts] is used: [d.get(k, dflt)]
    and [d[k] = v], which keeps the place of a key already present and
    puts a new key last. *)
Fixpoint od_get (d : list (string * Z)) (k : string) (dflt : Z) : Z :=
  match d with
  | [] => dflt
  | (k', v) :: d' => if decide (k' = k) then v else od_get d' k dflt
  end.

Fixpoint od_set (d : list (string * Z)) (k : string) (v : Z)
    : list (string * Z) :=
  match d with
  | [] => [(k, v)]
  | (k', v') :: d' =>
      if decide (k' = k) then (k', v) :: d' else (k', v') :: od_set d' k v
  end.

(** [counts] after the loop of [_generate_heatmap]. *)
Definition heatmap_counts (violations : list Violation)
    : list (string * Z) :=
  fold_left (fun counts v => od_set counts (type v)
                               (od_get counts (type v) 0 + 1))
    violations [].

(** [sorted(items, key=lambda x: x[1])]: ascending by count, and stable:
    items of equal count keep their order. *)
Fixpoint insert_by_count (x : string * Z) (l : list (string * Z))
    : list (string * Z) :=
  match l with
  | [] => [x]
  | y :: l' =>
      if snd x <=? snd y then x :: y :: l' else y :: insert_by_count x l'
  end.

Definition sorted_by_count (l : list (string * Z)) : list (string * Z) :=
  fold_right insert_by_count [] l.

(** The bars of the heatmap, bottom first: [types] and [values]. *)
Definition heatmap_bars (violations : list Violation)
    : list (string * Z) :=
  sorted_by_count (heatmap_counts violations).

(** The argument of the colour map for each bar: [severity / 5]. *)
Definition heatmap_colors (self : Instance) (violations : list Violation)
    : list Q :=
  map (fun bar =>
         let severity :=
           dict_get (severity_map (generator self)) (fst bar) 1 in
         (inject_Z severity / 5)%Q)
    (heatmap_bars violations).

Definition _generate_heatmap (w : World) (self : Instance)
    (violations : list Violation) (student_id : string)
    : option Path * list Effect :=
  match violations with
  | [] => (None, [])
  | _ =>
      if heatmap_plot_ok w then
        let path :=
          os_path_join (image_dir self)
            ("heatmap_" +:+ student_id +:+ ".png") in
        (Some path, [savefig path])
      else (None, [warning_heatmap])
  end.

(** [str.lower] on the ASCII letters; other characters are kept. *)
Definition ascii_lower (c : Ascii.ascii) : Ascii.ascii :=
  let n := Ascii.nat_of_ascii c in
  if (65 <=? n)%nat && (n <=? 90)%nat then Ascii.ascii_of_nat (n + 32)
  else c.

Fixpoint lower (s : string) : string :=
  match s with
  | EmptyString => EmptyString
  | String c s' => String (ascii_lower c) (lower s')
  end.

(** [now_generated] and [now_stamp] are [datetime.now()] formatted for
    the page and for the file name.  Every exception of the body ends
    in the outer [except]: the one of [_calculate_stats], the missing
    ["id"], and those of the template and of the HTML file. *)
Definition generate_report (w : World) (self : Instance)
    (student_info : gmap string string) (violations : list Violation)
    (output_format : string) (now_generated now_stamp : string)
    : option Path * list Effect :=
  let stats := _calculate_stats (generator self) violations in
  if overflowed stats then (None, [error_report])
  else
  match student_info !! "id" with
  | None => (None, [error_report])
  | Some id =>
      let (timeline_image, effects_t) :=
        _generate_timeline w self violations id in
      let (heatmap_image, effects_h) :=
        _generate_heatmap w self violations id in
      let report_data :=
        {| student := student_info;
           violations := violations;
           generated_at := now_generated;
           stats := stats;
           timeline_image := timeline_image;
           heatmap_image := heatmap_image;
           has_images :=
             match timeline_image, heatmap_image with
             | None, None => false
             | _, _ => true
             end |} in
      let charts := effects_t ++ effects_h in
      if negb (render_ok w) then (None, charts ++ [error_report])
      else
        let base_filename := "report_" +:+ id +:+ "_" +:+ now_stamp in
        let html_path :=
          os_path_join (output_dir self) (base_filename +:+ ".html") in
        if negb (open_ok w) then (None, charts ++ [error_report])
        else if negb (write_ok w) then
          (None, charts ++ [open_html html_path; error_report])
        else
          let written :=
            charts ++ [open_html html_path;
                       write_html html_path report_data;
                       info_html html_path] in
          if String.eqb (lower output_format) "pdf" && pdfkit_available w
          then
            let pdf_path :=
              os_path_join (output_dir self) (base_filename +:+ ".pdf") in
            if pdf_ok w then
              (Some pdf_path, written ++ [write_pdf pdf_path;
                                          info_pdf pdf_path])
            else (Some html_path, written ++ [warning_pdf])
          else (Some html_path, written)
  end.

End report_documents.

(** ** [main.py]: the on-screen overlay

    [display_detection_results] draws on the frame; the model is the
    list of the [cv2] calls it makes, in order, with their arguments
    (the image and the font face, the same in every call, apart).
    A colour is a BGR triple.  [eye_ratio] is a finite float, kept as
    the rational it denotes. *)

Module overlay.

Definition Color : Type := (Z * Z * Z)%type.

Definition Point : Type := (Z * Z)%type.

Inductive Draw : Type :=
| putText (text : string) (org : Point) (fontScale : Q) (color : Color)
    (thickness : Z)
| rectangle (pt1 pt2 : Point) (color : Color) (thickness : Z).

(** The [results] dict as the function reads it: the detector signals,
    [eye_ratio], and the two keys read with [.get]. *)
Record Shown : Type := {
  signals : Results;
  eye_ratio : Q;
  cheating_probability : option Z;
  cheating_reasons : option (list string)
}.

(** [for item in items: putText(item, (10, y_offset), ...);
    y_offset += line_height], returning the final [y_offset] too. *)
Fixpoint put_lines (items : list string) (y_offset line_height : Z)
    (color : Color) : list Draw * Z :=
  match items with
  | [] => ([], y_offset)
  | item :: items' =>
      let (draws, y) :=
        put_lines items' (y_offset + line_height) line_height color in
      (putText item (10, y_offset) 0.7%Q color 2 :: draws, y)
  end.

(** [for reason in ...: y_reason += 22; putText(f"- {reason}", ...)]. *)
Fixpoint put_reasons (reasons : list string) (bar_x y_reason : Z)
    : list Draw :=
  match reasons with
  | [] => []
  | reason :: reasons' =>
      putText ("- " +:+ reason) (bar_x + 10, y_reason + 22) 0.55%Q
        (0, 0, 255) 2
      :: put_reasons reasons' bar_x (y_reason + 22)
  end.

(** [to_pixels prob] stands for [int((prob / 100) * bar_width)], which
    is computed in floating point; [frame_width] is [frame.shape[1]]. *)
Definition display_detection_results (to_pixels : Z -> Z) (frame_width : Z)
    (results : Shown) : list Draw :=
  let y_offset := 30 in
  let line_height := 30 in
  let status_items :=
    [ "Face: " +:+
        (if face_present (signals results) then "Present" else "Absent");
      "Gaze: " +:+ gaze_direction (signals results);
      "Eyes: " +:+
        (if Qle_bool (eye_ratio results) 0.25%Q then "Closed" else "Open");
      "Mouth: " +:+
        (if mouth_moving (signals results) then "Moving" else "Still") ] in
  let alert_items :=
    (if multiple_faces (signals results)
     then ["Multiple Faces Detected!"] else []) ++
    (if objects_detected (signals results)
     then ["Suspicious Object Detected!"] else []) in
  let (status_draws, y_offset) :=
    put_lines status_items y_offset line_height (0, 255, 0) in
  let (alert_draws, y_offset) :=
    put_lines alert_items y_offset line_height (0, 0, 255) in
  let prob := default 0 (cheating_probability results) in
  let bar_x := 10 in
  let bar_y := y_offset + 10 in
  let bar_width := 300 in
  let bar_height := 20 in
  let fill_width := to_pixels prob in
  let color : Color :=
    if prob <? 30 then (0, 255, 0)
    else if prob <? 60 then (0, 255, 255)
    else (0, 0, 255) in
  let reasons := default [] (cheating_reasons results) in
  status_draws ++ alert_draws ++
  [ rectangle (bar_x, bar_y) (bar_x + bar_width, bar_y + bar_height)
      (50, 50, 50) (-1);
    rectangle (bar_x, bar_y) (bar_x + fill_width, bar_y + bar_height)
      color (-1);
    putText ("Cheating Probability: " +:+ pretty prob +:+ "%")
      (bar_x, bar_y - 5) 0.6%Q color 2 ] ++
  (match reasons with
   | [] => []
   | _ :: _ =>
       if 50 <=? prob then
         putText "Why risk is high:" (bar_x, bar_y + bar_height + 25)
           0.6%Q (255, 255, 255) 2
         :: put_reasons (take 3 reasons) bar_x (bar_y + bar_height + 25)
       else []
   end) ++
  [ putText (timestamp (signals results)) (frame_width - 260, 30) 0.7%Q
      (255, 255, 255) 2 ].

End overlay.

(** * Notions the properties are stated with *)

(** A risk score is a percentage. *)
Definition percent (x : Z) : Prop := 0 <= x <= 100.

(** What one scoring condition adds to the score and to the reasons. *)
Definition contributes (cond : bool) (w : Z) : Z := if cond then w else 0.

Definition explains (cond : bool) (reason : string) : list string :=
  if cond then [reason] else [].

Definition gaze_away (r : Results) : bool :=
  negb (String.eqb (gaze_direction r) "Center").

(** The last [n] items of a list. *)
Definition lastn {A} (n : nat) (l : list A) : list A :=
  drop (length l - n) l.

(** The states a calculator built by [__init__] with a positive window
    can be in: the weights of the constructor, a window within its
    capacity, holding percentages. *)
Definition valid (self : cheating_probability.CheatingProbabilityCalculator)
    : Prop :=
  cheating_probability.weights self = cheating_probability.default_weights /\
  (0 < cheating_probability.window_size self)%nat /\
  (length (cheating_probability.history self)
   <= cheating_probability.window_size self)%nat /\
  Forall percent (cheating_probability.history self).

(** A frame whose only violating signal is the missing face. *)
Definition face_absent_only (r : Results) : Prop :=
  face_present r = false /\ multiple_faces r = false /\
  objects_detected r = false /\ mouth_moving r = false /\
  gaze_direction r = "Center".

(** Counting, weighing and listing violations, as the report states
    them. *)
Definition occurrences (t : string) (vs : list report_generator.Violation)
    : Z :=
  Z.of_nat (length (filter (fun v => report_generator.type v = t) vs)).

Definition severity_weight (self : report_generator.ReportGenerator)
    (t : string) : Z :=
  dict_get (report_generator.severity_map self) t 1.

Definition severity_total (self : report_generator.ReportGenerator)
    (vs : list report_generator.Violation) : Z :=
  sum (map (fun v => severity_weight self (report_generator.type v)) vs).

Definition timeline_entry (self : report_generator.ReportGenerator)
    (v : report_generator.Violation) : report_generator.TimelineEntry :=
  {| report_generator.entry_time := report_generator.timestamp v;
     report_generator.entry_type := report_generator.type v;
     report_generator.entry_severity :=
       severity_weight self (report_generator.type v) |}.

(** The rational a finite float denotes, and the value of a number. *)
Definition float_value (f : float) : Q :=
  match f with
  | S754_finite s m e =>
      (inject_Z (if s then Zneg m else Zpos m) * 2 ^ e)%Q
  | _ => 0%Q
  end.

Definition number_value (x : PyNum) : Q :=
  match x with
  | PyInt z => inject_Z z
  | PyFloat f => float_value f
  end.

(** [float(z)]: the float of an integer below 2^53, which is exact. *)
Definition float_of_int (z : Z) : float := binary_normalize 53 1024 z 0 false.

(** The events of a background unit that reach the loudspeaker. *)
Definition audible (e : alert_system.AudioEvent) : bool :=
  match e with
  | alert_system.Played _ => true
  | _ => false
  end.

(** What a background unit for type [t] makes audible. *)
Definition emission (self : alert_system.AlertSystem)
    (env : alert_system.AudioEnv) (t : string)
    : list alert_system.AudioEvent :=
  filter (fun e => audible e) (alert_system._play_audio self t env).

(** What the units started make audible, unit by unit in the order in
    which they were started; [env i] is what the unit started [i]-th
    meets.  Each unit reads [alerts] of [self] when it runs. *)
Definition emissions (self : alert_system.AlertSystem)
    (env : nat -> alert_system.AudioEnv) (started : list string)
    : list alert_system.AudioEvent :=
  concat (imap (fun i t => emission self (env i) t) started).

(** An environment in which a unit gets as far as playing: every call
    up to [play()] returns. *)
Definition starts_playback (env : alert_system.AudioEnv) : bool :=
  alert_system.gtts_ok env && alert_system.tempfile_ok env &&
  alert_system.save_ok env && alert_system.load_ok env &&
  alert_system.play_ok env.

(** An environment in which a unit creates its temporary file. *)
Definition creates_file (env : alert_system.AudioEnv) : bool :=
  alert_system.gtts_ok env && alert_system.tempfile_ok env.

(** A unit that reaches the end of its body, [finally] block
    included. *)
Definition terminates (env : alert_system.AudioEnv) : bool :=
  negb (starts_playback env) ||
  match alert_system.wait env with
  | alert_system.WaitForever => false
  | _ => true
  end.

(** A call of the [try] block raises. *)
Definition raises (env : alert_system.AudioEnv) : bool :=
  negb (starts_playback env) ||
  match alert_system.wait env with
  | alert_system.WaitRaises => true
  | _ => false
  end.

(** An environment in which nothing fails. *)
Definition sample_env : alert_system.AudioEnv :=
  {| alert_system.gtts_ok := true;
     alert_system.tempfile_ok := true;
     alert_system.save_ok := true;
     alert_system.load_ok := true;
     alert_system.play_ok := true;
     alert_system.wait := alert_system.WaitEnds;
     alert_system.file_exists := true;
     alert_system.remove_ok := true |}.

(** The time recorded for a type, as [_can_alert] reads it. *)
Definition last_time (self : alert_system.AlertSystem) (T : string) : Z :=
  dict_get (alert_system.last_alert_time self) T 0.

(** A call whose two clock readings lie in the window that starts at
    [lo] and is one cooldown long. *)
Definition in_window (lo cooldown : Z) (c : alert_system.Call) : Prop :=
  lo <= alert_system.call_set c /\
  alert_system.call_check c < lo + cooldown.

(** How many of the started units are for type [T]. *)
Definition started_for (T : string) (started : list string) : nat :=
  length (filter (fun t => t = T) started).

(** The sum of the values of a dict of counts. *)
Definition values_sum (m : gmap string Z) : Z :=
  sum (map snd (map_to_list m)).

(** Reading the calls of the frame loop: the violation records, the
    captures, the units started and the high-risk events among them. *)
Definition record_of (e : main_loop.Effect)
    : option (string * string * Z * list string) :=
  match e with
  | main_loop.log_violation t ts p rs => Some (t, ts, p, rs)
  | _ => None
  end.

Definition capture_of (e : main_loop.Effect) : option (string * string) :=
  match e with
  | main_loop.capture_violation t ts => Some (t, ts)
  | _ => None
  end.

Definition start_of (e : main_loop.Effect) : option string :=
  match e with
  | main_loop.thread_start t => Some t
  | _ => None
  end.

Definition event_of (e : main_loop.Effect)
    : option (string * Z * list string * string) :=
  match e with
  | main_loop.log_event name p rs ts => Some (name, p, rs, ts)
  | _ => None
  end.

(** What a frame should leave in the violation log and in the event
    log, given what [update] returned for it. *)
Definition expected_record (f : main_loop.Frame)
    (out : result (Z * list string))
    : option (string * string * Z * list string) :=
  match main.violation_type (main_loop.results f), out with
  | Some t, inr (avg, rs) => Some (t, main_loop.violation_timestamp f, avg, rs)
  | _, _ => None
  end.

Definition expected_event (f : main_loop.Frame)
    (out : result (Z * list string))
    : option (string * Z * list string * string) :=
  match out with
  | inr (avg, rs) =>
      if 70 <=? avg then
        Some ("HIGH_CHEATING_PROBABILITY", avg, rs,
              timestamp (main_loop.results f))
      else None
  | inl _ => None
  end.

(** The [speak_alert] call a frame makes, if it is labelled. *)
Definition call_of (f : main_loop.Frame) : option alert_system.Call :=
  match main.violation_type (main_loop.results f) with
  | Some t =>
      Some {| alert_system.call_type := t;
              alert_system.call_check := main_loop.now_check f;
              alert_system.call_set := main_loop.now_set f |}
  | None => None
  end.

(** A sample start of a session: fresh objects with a window of 30, as
    [main] builds them, and three frames read a second apart. *)
Definition sample_objects (mixer_ok : bool) : main_loop.Objects :=
  {| main_loop.cheating_calculator := cheating_probability.__init__ 30;
     main_loop.dispatcher := alert_system.__init__ 5 mixer_ok |}.

Definition sample_frame (face : bool) (now : Z) : main_loop.Frame :=
  {| main_loop.results :=
       {| face_present := face;
          gaze_direction := "Center";
          mouth_moving := false;
          multiple_faces := false;
          objects_detected := false;
          timestamp := "2024-05-06 09:00:00" |};
     main_loop.now_check := now;
     main_loop.now_set := now;
     main_loop.violation_timestamp := "20240506_090000_000000" |}.

(** The types of a log in the order in which they first occur. *)
Definition first_seen (l : list string) : list string :=
  fold_left (fun seen t => if decide (t ∈ seen) then seen else seen ++ [t])
    l [].

(** Bars in ascending order of their counts. *)
Definition ascending (bars : list (string * Z)) : Prop :=
  StronglySorted (fun a b => snd a <= snd b) bars.

(** The file [generate_report] names for a student, a time stamp and
    an extension. *)
Definition report_path (self : report_documents.Instance)
    (id stamp ext : string) : report_documents.Path :=
  report_documents.os_path_join (report_documents.output_dir self)
    (("report_" +:+ id +:+ "_" +:+ stamp) +:+ ext).

(** The effects that write a document, and those that come from the
    charts. *)
Definition is_write (e : report_documents.Effect) : bool :=
  match e with
  | report_documents.write_html _ _ | report_documents.write_pdf _ => true
  | _ => false
  end.

Definition is_chart_effect (e : report_documents.Effect) : bool :=
  match e with
  | report_documents.savefig _ | report_documents.warning_timeline
  | report_documents.warning_heatmap => true
  | _ => false
  end.

(** What the charts of a report leave in the trace, and the data handed
    to the template. *)
Definition chart_effects (w : report_documents.World)
    (self : report_documents.Instance)
    (vs : list report_generator.Violation) (id : string)
    : list report_documents.Effect :=
  snd (report_documents._generate_timeline w self vs id) ++
  snd (report_documents._generate_heatmap w self vs id).

Definition report_data_of (w : report_documents.World)
    (self : report_documents.Instance) (info : gmap string string)
    (vs : list report_generator.Violation) (now_generated id : string)
    : report_documents.ReportData :=
  {| report_documents.student := info;
     report_documents.violations := vs;
     report_documents.generated_at := now_generated;
     report_documents.stats :=
       report_generator._calculate_stats
         (report_documents.generator self) vs;
     report_documents.timeline_image :=
       fst (report_documents._generate_timeline w self vs id);
     report_documents.heatmap_image :=
       fst (report_documents._generate_heatmap w self vs id);
     report_documents.has_images :=
       match fst (report_documents._generate_timeline w self vs id),
             fst (report_documents._generate_heatmap w self vs id) with
       | None, None => false
       | _, _ => true
       end |}.

(** A page without its images, and a trace with the charts left out
    and the images of its pages erased. *)
Definition without_images (data : report_documents.ReportData)
    : report_documents.ReportData :=
  {| report_documents.student := report_documents.student data;
     report_documents.violations := report_documents.violations data;
     report_documents.generated_at := report_documents.generated_at data;
     report_documents.stats := report_documents.stats data;
     report_documents.timeline_image := None;
     report_documents.heatmap_image := None;
     report_documents.has_images := false |}.

Definition erase_images (e : report_documents.Effect)
    : report_documents.Effect :=
  match e with
  | report_documents.write_html path data =>
      report_documents.write_html path (without_images data)
  | _ => e
  end.

Definition outside_charts (effects : list report_documents.Effect)
    : list report_documents.Effect :=
  map erase_images (filter (fun e => is_chart_effect e = false) effects).

(** The three conditions under which the PDF is what is returned. *)
Definition pdf_produced (w : report_documents.World) (fmt : string) : bool :=
  String.eqb (report_documents.lower fmt) "pdf"
  && report_documents.pdfkit_available w
  && report_documents.pdf_ok w.

(** A sample generator, student and worlds. *)
Definition sample_instance : report_documents.Instance :=
  {| report_documents.generator := report_generator.__init__;
     report_documents.output_dir := ["./reports/generated"] |}.

Definition sample_student : gmap string string :=
  <["id" := "STUDENT_001"]> (<["name" := "John Doe"]> ∅).

Definition sample_world (plots pdf : bool) : report_documents.World :=
  {| report_documents.strptime_ok := fun _ => true;
     report_documents.timeline_plot_ok := plots;
     report_documents.heatmap_plot_ok := plots;
     report_documents.render_ok := true;
     report_documents.open_ok := true;
     report_documents.write_ok := true;
     report_documents.pdfkit_available := true;
     report_documents.pdf_ok := pdf |}.

(** Reading the overlay: the texts drawn as reasons (the only ones at
    font scale 0.55), and the heights at which texts are drawn. *)
Definition reason_text (d : overlay.Draw) : option string :=
  match d with
  | overlay.putText text _ fontScale _ _ =>
      if Qeq_bool fontScale 0.55%Q then Some text else None
  | overlay.rectangle _ _ _ _ => None
  end.

Definition reason_texts (draws : list overlay.Draw) : list string :=
  omap reason_text draws.

Definition text_height (d : overlay.Draw) : option Z :=
  match d with
  | overlay.putText _ org _ _ _ => Some (snd org)
  | overlay.rectangle _ _ _ _ => None
  end.

(** The [results] that [main] hands to the overlay for a frame: the
    signals, with the rolling average and the reasons [update]
    returned. *)
Definition shown_by_main (r : Results) (eye : Q) (avg : Z)
    (reasons : list string) : overlay.Shown :=
  {| overlay.signals := r;
     overlay.eye_ratio := eye;
     overlay.cheating_probability := Some avg;
     overlay.cheating_reasons := Some reasons |}.

(** A sample violation log: two of one type, then one of another, and
    one of a type the severity map does not list. *)
Definition sample_log : list report_generator.Violation :=
  [{| report_generator.type := "GAZE_AWAY";
      report_generator.timestamp := "20240506_090001_000000" |};
   {| report_generator.type := "GAZE_AWAY";
      report_generator.timestamp := "20240506_090002_000000" |};
   {| report_generator.type := "OBJECT_DETECTED";
      report_generator.timestamp := "20240506_090003_000000" |}].

Definition unlisted_violation : report_generator.Violation :=
  {| report_generator.type := "SPEECH_VIOLATION";
     report_generator.timestamp := "20240506_090004_000000" |}.

(** Sample frames, for the instances below. *)
Definition frame_face_absent : Results :=
  {| face_present := false;
     gaze_direction := "Center";
     mouth_moving := false;
     multiple_faces := false;
     objects_detected := false;
     timestamp := "2024-05-06 09:00:00" |}.

Definition frame_all_signals : Results :=
  {| face_present := false;
     gaze_direction := "Left";
     mouth_moving := true;
     multiple_faces := true;
     objects_detected := true;
     timestamp := "2024-05-06 09:00:01" |}.

Definition frame_calm : Results :=
  {| face_present := true;
     gaze_direction := "Center";
     mouth_moving := false;
     multiple_faces := false;
     objects_detected := false;
     timestamp := "2024-05-06 09:00:02" |}.

(** * Properties of the risk fusion engine *)

Section Calculator.

Import cheating_probability.

Implicit Types (self : CheatingProbabilityCalculator) (r : Results).

Lemma compute_frame_score_weights self self' r :
  weights self = weights self' ->
  compute_frame_score self r = compute_frame_score self' r.
Proof.
  intros Hw. unfold compute_frame_score, add_if. now rewrite Hw.
Qed.

Lemma compute_frame_score_sum self r (wf wm wo wt wg : Z) :
  weights self !! "FACE_DISAPPEARED" = Some wf ->
  weights self !! "MULTIPLE_FACES" = Some wm ->
  weights self !! "OBJECT_DETECTED" = Some wo ->
  weights self !! "MOUTH_MOVING" = Some wt ->
  weights self !! "GAZE_AWAY" = Some wg ->
  compute_frame_score self r =
  inr (Z.min (contributes (negb (face_present r)) wf +
              contributes (multiple_faces r) wm +
              contributes (objects_detected r) wo +
              contributes (mouth_moving r) wt +
              contributes (gaze_away r) wg) 100,
       explains (negb (face_present r)) "Face not visible" ++
       explains (multiple_faces r) "Multiple faces detected" ++
       explains (objects_detected r) "Suspicious object detected" ++
       explains (mouth_moving r) "Mouth movement detected" ++
       explains (gaze_away r) "Looking away from screen").
Proof.
  intros Hf Hm Ho Ht Hg.
  unfold compute_frame_score, add_if, getitem, gaze_away.
  rewrite Hf, Hm, Ho, Ht, Hg.
  destruct (face_present r), (multiple_faces r), (objects_detected r),
    (mouth_moving r), (String.eqb (gaze_direction r) "Center");
    cbn; do 2 f_equal; lia.
Qed.

Lemma default_weights_lookup :
  default_weights !! "FACE_DISAPPEARED" = Some 40 /\
  default_weights !! "MULTIPLE_FACES" = Some 50 /\
  default_weights !! "OBJECT_DETECTED" = Some 45 /\
  default_weights !! "MOUTH_MOVING" = Some 20 /\
  default_weights !! "GAZE_AWAY" = Some 15.
Proof. repeat split; vm_compute; reflexivity. Qed.

Lemma compute_frame_score_default self r :
  weights self = default_weights ->
  exists score reasons,
    compute_frame_score self r = inr (score, reasons) /\ percent score.
Proof.
  intros Hw.
  destruct default_weights_lookup as (Hf & Hm & Ho & Ht & Hg).
  rewrite <- Hw in Hf, Hm, Ho, Ht, Hg.
  rewrite (compute_frame_score_sum self r _ _ _ _ _ Hf Hm Ho Ht Hg).
  eexists _, _. split; [reflexivity |].
  unfold percent, contributes.
  destruct (negb (face_present r)), (multiple_faces r), (objects_detected r),
    (mouth_moving r), (gaze_away r); lia.
Qed.

(** *** Sums and means of windows *)

Lemma sum_app (l l' : list Z) : sum (l ++ l') = sum l + sum l'.
Proof.
  unfold sum. induction l as [|x l IH]; cbn; [reflexivity | rewrite IH; lia].
Qed.

Lemma sum_replicate (n : nat) (s : Z) : sum (replicate n s) = Z.of_nat n * s.
Proof.
  unfold sum. induction n as [|n IH]; cbn [replicate fold_right]; lia.
Qed.

Lemma sum_percent (l : list Z) :
  Forall percent l -> 0 <= sum l <= 100 * Z.of_nat (length l).
Proof.
  unfold sum, percent.
  induction 1 as [|x l Hx _ IH]; cbn [fold_right length]; lia.
Qed.

Lemma quot_mean_bounds (a n : Z) :
  0 <= a -> 0 < n -> n * Z.quot a n <= a < n * (Z.quot a n + 1).
Proof.
  intros Ha Hn. rewrite Z.quot_div_nonneg by lia.
  pose proof (Z.mul_div_le a n Hn).
  pose proof (Z.mul_succ_div_gt a n Hn). lia.
Qed.

Lemma mean_percent (l : list Z) :
  Forall percent l -> l <> [] ->
  percent (Z.quot (sum l) (Z.of_nat (length l))).
Proof.
  intros Hl Hne. pose proof (sum_percent l Hl) as Hs.
  assert (0 < Z.of_nat (length l)) as Hn
    by (destruct l; [congruence | cbn; lia]).
  pose proof (quot_mean_bounds _ _ (proj1 Hs) Hn). unfold percent. nia.
Qed.

(** *** The bounded window *)

Lemma deque_append_cases (n : nat) (d : list Z) (x : Z) :
  (0 < n)%nat -> (length d <= n)%nat ->
  deque_append n d x =
  if decide (length d < n)%nat then d ++ [x] else tail d ++ [x].
Proof.
  intros Hn Hd. unfold deque_append. rewrite length_app. cbn [length].
  case_decide as Hlt.
  - destruct (Nat.ltb_spec n (length d + 1)); [lia | reflexivity].
  - destruct (Nat.ltb_spec n (length d + 1)); [| lia].
    destruct d as [|y d]; [cbn in *; lia | reflexivity].
Qed.

Lemma deque_append_lastn (n : nat) (d : list Z) (x : Z) :
  (length d <= n)%nat -> deque_append n d x = lastn n (d ++ [x]).
Proof.
  intros Hd. unfold deque_append, lastn. rewrite length_app. cbn [length].
  destruct (Nat.ltb_spec n (length d + 1)).
  - replace (length d + 1 - n)%nat with 1%nat by lia.
    now destruct (d ++ [x]).
  - now replace (length d + 1 - n)%nat with 0%nat by lia.
Qed.

Lemma lastn_length {A} (n : nat) (l : list A) :
  length (lastn n l) = Nat.min n (length l).
Proof. unfold lastn. rewrite length_drop. lia. Qed.

Lemma lastn_app_lastn {A} (n : nat) (l l' : list A) :
  lastn n (lastn n l ++ l') = lastn n (l ++ l').
Proof.
  unfold lastn at 1 3. rewrite !length_app, lastn_length. unfold lastn.
  destruct (Nat.le_gt_cases (length l) n) as [Hle | Hgt].
  - replace (length l - n)%nat with 0%nat by lia. cbn [drop].
    f_equal. lia.
  - replace (Nat.min n (length l) + length l' - n)%nat with (length l') by lia.
    replace (length l + length l' - n)%nat
      with (length l - n + length l')%nat by lia.
    rewrite <- drop_drop.
    rewrite (drop_app_le l l' (length l - n)) by lia. reflexivity.
Qed.

Lemma deque_append_length (n : nat) (d : list Z) (x : Z) :
  length (deque_append n d x) =
  if (n <? length d + 1)%nat then length d else (length d + 1)%nat.
Proof.
  unfold deque_append. rewrite length_app. cbn [length].
  destruct (n <? length d + 1)%nat; [| now rewrite length_app].
  destruct d as [|y d]; [reflexivity |].
  cbn [app tail length]. rewrite length_app. cbn [length]. lia.
Qed.

Lemma deque_append_forall (P : Z -> Prop) (n : nat) (d : list Z) (x : Z) :
  Forall P d -> P x -> Forall P (deque_append n d x).
Proof.
  intros Hd Hx. unfold deque_append.
  assert (Forall P (d ++ [x])) as H by (apply Forall_app; auto).
  destruct (n <? length (d ++ [x]))%nat; [| exact H].
  destruct (d ++ [x]); [exact H | now inversion H].
Qed.

(** *** One call of [update] *)

Lemma update_returns self r (score : Z) (reasons : list string) :
  (0 < window_size self)%nat ->
  compute_frame_score self r = inr (score, reasons) ->
  let h' := deque_append (window_size self) (history self) score in
  update self r =
  (set_history self h',
   inr (Z.quot (sum h') (Z.of_nat (length h')), reasons)).
Proof.
  intros Hn Hc h'. unfold update. rewrite Hc. cbn [history set_history].
  fold h'. destruct (Nat.eqb_spec (length h') 0) as [H0 | _]; [| reflexivity].
  exfalso. unfold h' in H0. rewrite deque_append_length in H0.
  destruct (Nat.ltb_spec (window_size self) (length (history self) + 1)); lia.
Qed.

Lemma update_valid self r :
  valid self ->
  valid (fst (update self r)) /\
  exists avg reasons, snd (update self r) = inr (avg, reasons) /\ percent avg.
Proof.
  intros (Hw & Hn & Hlen & Hall).
  destruct (compute_frame_score_default self r Hw)
    as (score & reasons & Hc & Hscore).
  rewrite (update_returns self r score reasons Hn Hc). cbn [fst snd].
  set (h' := deque_append (window_size self) (history self) score).
  assert (Forall percent h') as Hall'
    by (apply deque_append_forall; assumption).
  assert ((length h' <= window_size self)%nat /\ h' <> []) as [Hlen' Hne].
  { assert (length h' <= window_size self /\ 0 < length h')%nat as [? ?].
    { unfold h'. rewrite deque_append_length.
      destruct (Nat.ltb_spec (window_size self) (length (history self) + 1));
        lia. }
    split; [assumption |]. intros E. rewrite E in *. cbn in *. lia. }
  split.
  - repeat split; cbn [weights window_size history set_history]; assumption.
  - eexists _, _. split; [reflexivity |]. now apply mean_percent.
Qed.

Lemma init_valid (n : nat) : (0 < n)%nat -> valid (__init__ n).
Proof. intros Hn. repeat split; cbn; [lia .. | constructor]. Qed.

(** *** Sequences of calls *)

Lemma run_cons self r (frames : list Results) :
  run self (r :: frames) =
  (fst (run (fst (update self r)) frames),
   snd (update self r) :: snd (run (fst (update self r)) frames)).
Proof.
  cbn [run]. destruct (update self r) as [self' out].
  cbn [fst snd]. now destruct (run self' frames).
Qed.

Lemma run_app self (frames frames' : list Results) :
  run self (frames ++ frames') =
  (fst (run (fst (run self frames)) frames'),
   snd (run self frames) ++ snd (run (fst (run self frames)) frames')).
Proof.
  revert self. induction frames as [|r frames IH]; intros self.
  - cbn. now destruct (run self frames').
  - rewrite <- app_comm_cons, !run_cons, IH. reflexivity.
Qed.

Lemma run_length self (frames : list Results) :
  length (snd (run self frames)) = length frames.
Proof.
  revert self. induction frames as [|r frames IH]; intros self;
    [reflexivity |].
  rewrite run_cons. cbn. now rewrite IH.
Qed.

Lemma run_valid self (frames : list Results) :
  valid self ->
  valid (fst (run self frames)) /\
  Forall (fun out => exists avg reasons, out = inr (avg, reasons) /\ percent avg)
    (snd (run self frames)).
Proof.
  revert self. induction frames as [|r frames IH]; intros self Hv.
  - cbn. split; [assumption | constructor].
  - rewrite run_cons. cbn [fst snd].
    destruct (update_valid self r Hv) as [Hv' Hout].
    destruct (IH _ Hv') as [Hv'' Houts].
    split; [assumption | now constructor].
Qed.

Lemma update_weights self r : weights (fst (update self r)) = weights self.
Proof.
  unfold update. destruct (compute_frame_score self r) as [e | [s rs]];
    [reflexivity |].
  now destruct (_ =? _)%nat.
Qed.

Lemma update_window_size self r :
  window_size (fst (update self r)) = window_size self.
Proof.
  unfold update. destruct (compute_frame_score self r) as [e | [s rs]];
    [reflexivity |].
  now destruct (_ =? _)%nat.
Qed.

(** After a run the window holds the last [window_size] of the scores
    ever pushed. *)
Lemma run_history_from self0 self (frames : list Results) (scores : list Z) :
  weights self = weights self0 ->
  (0 < window_size self)%nat ->
  (length (history self) <= window_size self)%nat ->
  Forall2 (fun r s => exists reasons,
             compute_frame_score self0 r = inr (s, reasons)) frames scores ->
  history (fst (run self frames)) =
  lastn (window_size self) (history self ++ scores).
Proof.
  intros Hw Hn Hlen HF. revert self Hw Hn Hlen.
  induction HF as [|r s frames scores [rs Hc] HF IH]; intros self Hw Hn Hlen.
  - cbn. rewrite app_nil_r. unfold lastn.
    now replace (length (history self) - window_size self)%nat
      with 0%nat by lia.
  - rewrite run_cons. cbn [fst].
    rewrite <- (compute_frame_score_weights self self0 r Hw) in Hc.
    pose proof (update_returns self r s rs Hn Hc) as Hu. cbn zeta in Hu.
    rewrite Hu. cbn [fst].
    rewrite IH; cbn [weights window_size history set_history].
    + rewrite deque_append_lastn by assumption.
      rewrite lastn_app_lastn, <- app_assoc. reflexivity.
    + assumption.
    + assumption.
    + rewrite deque_append_length.
      destruct (Nat.ltb_spec (window_size self) (length (history self) + 1));
        lia.
Qed.

Lemma run_history self (frames : list Results) (scores : list Z) :
  (0 < window_size self)%nat ->
  (length (history self) <= window_size self)%nat ->
  Forall2 (fun r s => exists reasons,
             compute_frame_score self r = inr (s, reasons)) frames scores ->
  history (fst (run self frames)) =
  lastn (window_size self) (history self ++ scores).
Proof. now apply run_history_from. Qed.

(** A window of copies of [s] fed frames of score [s] keeps returning
    [s]. *)
Lemma run_constant self0 self (frames : list Results) (s : Z)
    (rs : list string) (k : nat) :
  weights self = weights self0 ->
  (0 < window_size self)%nat ->
  history self = replicate k s ->
  (k <= window_size self)%nat ->
  Forall (fun r => compute_frame_score self0 r = inr (s, rs)) frames ->
  snd (run self frames) = replicate (length frames) (inr (s, rs)).
Proof.
  intros Hw Hn Hh Hk HF. revert self k Hw Hn Hh Hk.
  induction HF as [|r frames Hc HF IH]; intros self k Hw Hn Hh Hk;
    [reflexivity |].
  rewrite run_cons. cbn [snd length replicate].
  rewrite <- (compute_frame_score_weights self self0 r Hw) in Hc.
  pose proof (update_returns self r s rs Hn Hc) as Hu. cbn zeta in Hu.
  assert (exists k', (0 < k' <= window_size self)%nat /\
            deque_append (window_size self) (history self) s = replicate k' s)
    as (k' & Hk' & Hd).
  { rewrite deque_append_cases by (rewrite ?Hh, ?length_replicate; lia).
    rewrite Hh, length_replicate. case_decide.
    - exists (S k). split; [lia |]. now rewrite replicate_S_end.
    - exists k. split; [lia |]. destruct k as [|k]; [lia |].
      cbn [replicate tail]. now rewrite <- replicate_S_end. }
  rewrite Hd in Hu. rewrite Hu. cbn [fst snd]. f_equal.
  - rewrite sum_replicate, length_replicate, Z.mul_comm, Z.quot_mul by lia.
    reflexivity.
  - apply (IH _ k'); cbn [weights window_size history set_history];
      [assumption | assumption | reflexivity | lia].
Qed.

(** *** The claims *)

(** C4: [compute_frame_score] goes through the five conditions in the
    order face absence, multiple faces, object detected, mouth movement,
    gaze away from ["Center"]; each condition that holds adds the weight
    configured for it and appends its fixed reason, in that order, and
    the score returned is the minimum of the sum and 100.  The weights a
    constructed calculator carries are 40, 50, 45, 20 and 15. *)
Theorem compute_frame_score_additive self r (wf wm wo wt wg : Z) :
  weights self !! "FACE_DISAPPEARED" = Some wf ->
  weights self !! "MULTIPLE_FACES" = Some wm ->
  weights self !! "OBJECT_DETECTED" = Some wo ->
  weights self !! "MOUTH_MOVING" = Some wt ->
  weights self !! "GAZE_AWAY" = Some wg ->
  compute_frame_score self r =
  inr (Z.min (contributes (negb (face_present r)) wf +
              contributes (multiple_faces r) wm +
              contributes (objects_detected r) wo +
              contributes (mouth_moving r) wt +
              contributes (gaze_away r) wg) 100,
       explains (negb (face_present r)) "Face not visible" ++
       explains (multiple_faces r) "Multiple faces detected" ++
       explains (objects_detected r) "Suspicious object detected" ++
       explains (mouth_moving r) "Mouth movement detected" ++
       explains (gaze_away r) "Looking away from screen") /\
  (forall n : nat,
     weights (__init__ n) !! "FACE_DISAPPEARED" = Some 40 /\
     weights (__init__ n) !! "MULTIPLE_FACES" = Some 50 /\
     weights (__init__ n) !! "OBJECT_DETECTED" = Some 45 /\
     weights (__init__ n) !! "MOUTH_MOVING" = Some 20 /\
     weights (__init__ n) !! "GAZE_AWAY" = Some 15).
Proof.
  intros Hf Hm Ho Ht Hg. split.
  - now apply compute_frame_score_sum.
  - intros n. exact default_weights_lookup.
Qed.

Lemma compute_frame_score_additive_witness :
  compute_frame_score (__init__ 30) frame_all_signals =
  inr (100, ["Face not visible"; "Multiple faces detected";
             "Suspicious object detected"; "Mouth movement detected";
             "Looking away from screen"]).
Proof.
  refine (proj1 (compute_frame_score_additive (__init__ 30) frame_all_signals
                   40 50 45 20 15 _ _ _ _ _)); reflexivity.
Defined.

(** C3: for every frame and in every state of a calculator built with
    a positive [window_size] (the states [valid] describes), [update]
    pushes the score of the current frame on the window, dropping the
    oldest entry when the window already holds [window_size] entries; it
    returns the mean of the new window truncated to an integer, together
    with the reasons of the current frame, which do not depend on the
    window; on an empty window, as at the very first call, the mean
    returned is the score of that frame. *)
Theorem update_window_mean self r :
  valid self ->
  exists (score : Z) (reasons : list string),
    compute_frame_score self r = inr (score, reasons) /\
    (forall h, compute_frame_score (set_history self h) r
               = inr (score, reasons)) /\
    let h' := if decide (length (history self) < window_size self)%nat
              then history self ++ [score]
              else tail (history self) ++ [score] in
    let avg := Z.quot (sum h') (Z.of_nat (length h')) in
    update self r = (set_history self h', inr (avg, reasons)) /\
    Z.of_nat (length h') * avg <= sum h' < Z.of_nat (length h') * (avg + 1) /\
    (history self = [] -> avg = score).
Proof.
  intros Hv. pose proof Hv as (Hw & Hn & Hlen & Hall).
  destruct (compute_frame_score_default self r Hw)
    as (score & reasons & Hc & Hscore).
  exists score, reasons. split; [exact Hc |]. split.
  { intros h. now rewrite <- Hc; apply compute_frame_score_weights. }
  pose proof (update_returns self r score reasons Hn Hc) as Hu.
  cbn zeta in Hu. rewrite (deque_append_cases _ _ _ Hn Hlen) in Hu.
  cbn zeta. split; [exact Hu |].
  destruct (update_valid self r Hv) as [(_ & _ & _ & Hall') _].
  rewrite Hu in Hall'. cbn [fst history set_history] in Hall'.
  split.
  - apply quot_mean_bounds; [apply sum_percent; assumption |].
    case_decide; rewrite length_app; cbn [length]; lia.
  - intros He. rewrite He.
    destruct (decide (length [] < window_size self)%nat) as [_ | Hlt];
      [| cbn in Hlt; lia].
    cbn. rewrite Z.add_0_r. apply Z.quot_1_r.
Qed.

Lemma update_window_mean_witness :
  valid (__init__ 30) /\
  update (__init__ 30) frame_all_signals =
  (set_history (__init__ 30) [100],
   inr (100, ["Face not visible"; "Multiple faces detected";
              "Suspicious object detected"; "Mouth movement detected";
              "Looking away from screen"])).
Proof.
  assert (valid (__init__ 30)) as Hv
    by (repeat split; [cbn; lia | cbn; lia | constructor]).
  split; [exact Hv |].
  destruct (update_window_mean (__init__ 30) frame_all_signals Hv)
    as (score & reasons & Hc & _ & Hu & _).
  vm_compute in Hc. injection Hc as <- <-. exact Hu.
Defined.

Lemma run_window_size self (frames : list Results) :
  window_size (fst (run self frames)) = window_size self.
Proof.
  revert self. induction frames as [|r frames IH]; intros self;
    [reflexivity |].
  now rewrite run_cons; cbn [fst]; rewrite IH, update_window_size.
Qed.

Lemma run_weights self (frames : list Results) :
  weights (fst (run self frames)) = weights self.
Proof.
  revert self. induction frames as [|r frames IH]; intros self;
    [reflexivity |].
  now rewrite run_cons; cbn [fst]; rewrite IH, update_weights.
Qed.

(** C6: on a calculator constructed with a positive [window_size],
    after any sequence of [update] calls the window holds at most
    [window_size] entries, every rolling average returned lies in
    [0,100], and so does the frame score of any frame. *)
Theorem window_and_scores_bounded (n : nat) (frames : list Results) :
  (0 < n)%nat ->
  (length (history (fst (run (__init__ n) frames))) <= n)%nat /\
  Forall (fun out => exists avg reasons,
            out = inr (avg, reasons) /\ percent avg)
    (snd (run (__init__ n) frames)) /\
  (forall r, exists score reasons,
     compute_frame_score (fst (run (__init__ n) frames)) r
     = inr (score, reasons) /\ percent score).
Proof.
  intros Hn.
  destruct (run_valid (__init__ n) frames (init_valid n Hn))
    as [(Hw & _ & Hlen & _) Houts].
  rewrite run_window_size in Hlen. cbn [window_size __init__] in Hlen.
  split; [exact Hlen |]. split; [exact Houts |].
  intros r. now apply compute_frame_score_default.
Qed.

Lemma window_and_scores_bounded_witness :
  (0 < 2)%nat /\
  (length (history (fst (run (__init__ 2)
     [frame_all_signals; frame_calm; frame_face_absent]))) <= 2)%nat.
Proof.
  split; [lia |].
  apply (window_and_scores_bounded 2
           [frame_all_signals; frame_calm; frame_face_absent]). lia.
Defined.

(** The positive window is needed: with [window_size = 0] the deque
    stays empty and the mean divides by zero. *)
Remark update_zero_window r :
  update (__init__ 0) r = (__init__ 0, inl ZeroDivisionError).
Proof.
  destruct (compute_frame_score_default (__init__ 0) r eq_refl)
    as (score & reasons & Hc & _).
  unfold update. rewrite Hc. reflexivity.
Qed.

Lemma face_absent_only_score self r :
  weights self = default_weights ->
  face_absent_only r ->
  compute_frame_score self r = inr (40, ["Face not visible"]).
Proof.
  intros Hw (Hf & Hm & Ho & Ht & Hg).
  destruct default_weights_lookup as (Lf & Lm & Lo & Lt & Lg).
  rewrite <- Hw in Lf, Lm, Lo, Lt, Lg.
  rewrite (compute_frame_score_sum self r _ _ _ _ _ Lf Lm Lo Lt Lg).
  unfold gaze_away. rewrite Hf, Hm, Ho, Ht, Hg. reflexivity.
Qed.

(** C8: feeding [window_size] consecutive frames that each have frame
    score [s] leaves the window filled with [s] and the last rolling
    average returned is exactly [s].  In particular 30 frames whose only
    violating signal is the missing face, on a fresh calculator of
    window 30 with the constructor's weights, return the average 40 and
    the reasons ["Face not visible"] on every frame. *)
Theorem identical_scores_average self (frames : list Results) (s : Z) :
  valid self ->
  length frames = window_size self ->
  Forall (fun r => exists reasons,
            compute_frame_score self r = inr (s, reasons)) frames ->
  (history (fst (run self frames)) = replicate (window_size self) s /\
   exists reasons, last (snd (run self frames)) = Some (inr (s, reasons))) /\
  (forall frames30 : list Results,
     length frames30 = 30%nat ->
     Forall face_absent_only frames30 ->
     snd (run (__init__ 30) frames30)
     = replicate 30 (inr (40, ["Face not visible"]))).
Proof.
  intros Hv Hlen HF. split.
  - pose proof Hv as (Hw & Hn & Hh & Hall).
    assert (history (fst (run self frames)) = replicate (window_size self) s)
      as Hfull.
    { rewrite (run_history self frames (replicate (window_size self) s) Hn Hh).
      - unfold lastn. rewrite length_app, length_replicate.
        replace (length (history self) + window_size self - window_size self)%nat
          with (length (history self)) by lia.
        apply drop_app_length.
      - apply Forall2_replicate_r; assumption. }
    split; [exact Hfull |].
    destruct frames as [|r0 frames0 _] using rev_ind; [cbn in Hlen; lia |].
    rewrite Forall_app, Forall_singleton in HF.
    destruct HF as [_ [reasons Hc]]. exists reasons.
    rewrite run_app in Hfull |- *. cbn [fst snd] in Hfull |- *.
    set (self1 := fst (run self frames0)) in *.
    assert (valid self1) as Hv1 by (apply run_valid; assumption).
    rewrite <- (compute_frame_score_weights self1 self r0) in Hc
      by apply run_weights.
    pose proof (update_returns self1 r0 s reasons (proj1 (proj2 Hv1)) Hc) as Hu.
    cbn zeta in Hu. rewrite run_cons in Hfull |- *.
    cbn [run fst snd] in Hfull |- *. rewrite last_snoc.
    rewrite Hu in Hfull |- *. cbn [fst snd history set_history] in Hfull |- *.
    rewrite Hfull, sum_replicate, length_replicate, Z.mul_comm, Z.quot_mul
      by lia.
    reflexivity.
  - intros frames30 H30 Hall.
    pose proof (run_constant (__init__ 30) (__init__ 30) frames30 40
                  ["Face not visible"] 0) as Hrun.
    rewrite H30 in Hrun.
    apply Hrun; [reflexivity | cbn; lia | reflexivity | cbn; lia |].
    eapply Forall_impl; [exact Hall |].
    intros r Hr. now apply face_absent_only_score.
Qed.

Lemma identical_scores_average_witness :
  valid (__init__ 30) /\
  history (fst (run (__init__ 30) (replicate 30 frame_face_absent)))
  = replicate 30 40 /\
  snd (run (__init__ 30) (replicate 30 frame_face_absent))
  = replicate 30 (inr (40, ["Face not visible"])).
Proof.
  assert (valid (__init__ 30)) as Hv
    by (repeat split; [cbn; lia | cbn; lia | constructor]).
  split; [exact Hv |].
  destruct (identical_scores_average (__init__ 30)
              (replicate 30 frame_face_absent) 40 Hv eq_refl)
    as [[Hfull _] Hscenario].
  - apply Forall_replicate. eexists. vm_compute. reflexivity.
  - split; [exact Hfull |].
    apply Hscenario; [reflexivity |].
    apply Forall_replicate. repeat split.
Defined.

End Calculator.

(** * Properties of the violation classifier *)

Section Classifier.

Import main.

(** C2: the classifier returns no label or exactly one, chosen by the
    precedence FACE_DISAPPEARED, MULTIPLE_FACES, OBJECT_DETECTED,
    MOUTH_MOVING: each label is returned exactly when its condition holds
    and no condition before it does, and nothing is returned exactly
    when none of the four holds.  With the face absent and several faces
    reported at once the label is FACE_DISAPPEARED, not MULTIPLE_FACES. *)
Theorem violation_type_precedence (r : Results) :
  (violation_type r = Some "FACE_DISAPPEARED" <-> face_present r = false) /\
  (violation_type r = Some "MULTIPLE_FACES" <->
     face_present r = true /\ multiple_faces r = true) /\
  (violation_type r = Some "OBJECT_DETECTED" <->
     face_present r = true /\ multiple_faces r = false /\
     objects_detected r = true) /\
  (violation_type r = Some "MOUTH_MOVING" <->
     face_present r = true /\ multiple_faces r = false /\
     objects_detected r = false /\ mouth_moving r = true) /\
  (violation_type r = None <->
     face_present r = true /\ multiple_faces r = false /\
     objects_detected r = false /\ mouth_moving r = false) /\
  (violation_type r = None \/
   violation_type r = Some "FACE_DISAPPEARED" \/
   violation_type r = Some "MULTIPLE_FACES" \/
   violation_type r = Some "OBJECT_DETECTED" \/
   violation_type r = Some "MOUTH_MOVING") /\
  (face_present r = false /\ multiple_faces r = true ->
     violation_type r = Some "FACE_DISAPPEARED" /\
     violation_type r <> Some "MULTIPLE_FACES").
Proof.
  unfold violation_type.
  destruct (face_present r), (multiple_faces r), (objects_detected r),
    (mouth_moving r); cbn; repeat split; intros; try tauto;
    try discriminate; try (destruct_and?; discriminate).
Qed.

Lemma violation_type_precedence_witness :
  (face_present frame_all_signals = false /\
   multiple_faces frame_all_signals = true) /\
  violation_type frame_all_signals = Some "FACE_DISAPPEARED" /\
  violation_type frame_all_signals <> Some "MULTIPLE_FACES".
Proof.
  split; [split; reflexivity |].
  apply (violation_type_precedence frame_all_signals).
  split; reflexivity.
Defined.

End Classifier.

(** * Properties of the alert dispatcher *)

Section Dispatcher.

Import alert_system.

Implicit Types (self : AlertSystem) (T : string).

Lemma can_alert_iff self T (now : Z) :
  _can_alert self T now = true <->
  alert_cooldown self <= now - dict_get (last_alert_time self) T 0.
Proof. unfold _can_alert. cbn zeta. apply Z.leb_le. Qed.

Lemma speak_alert_disabled self T (now_check now_set : Z) :
  audio_enabled self = false ->
  speak_alert self T now_check now_set = (self, []).
Proof. intros H. unfold speak_alert. now rewrite H. Qed.

Lemma speak_alert_due self T (now_check now_set : Z) :
  audio_enabled self = true ->
  _can_alert self T now_check = true ->
  speak_alert self T now_check now_set =
  (set_last_alert_time self (<[T := now_set]> (last_alert_time self)), [T]).
Proof. intros Ha Hc. unfold speak_alert. now rewrite Ha, Hc. Qed.

Lemma speak_alert_cooling self T (now_check now_set : Z) :
  _can_alert self T now_check = false ->
  speak_alert self T now_check now_set = (self, []).
Proof.
  intros Hc. unfold speak_alert. rewrite Hc.
  now destruct (audio_enabled self).
Qed.

(** Right after an emission recorded at [t], the type is cooling until
    [t + alert_cooldown]. *)
Lemma can_alert_after_emission self T (t now : Z) :
  _can_alert
    (set_last_alert_time self (<[T := t]> (last_alert_time self))) T now
  = (alert_cooldown self <=? now - t).
Proof.
  unfold _can_alert, dict_get. cbn [last_alert_time alert_cooldown
    set_last_alert_time]. now rewrite lookup_insert_eq.
Qed.

Lemma session_disabled self (calls : list Call) :
  audio_enabled self = false -> session self calls = (self, []).
Proof.
  intros H. induction calls as [|c calls IH]; [reflexivity |].
  cbn [session]. rewrite speak_alert_disabled by assumption.
  now rewrite IH.
Qed.

(** What a unit makes audible: nothing for a type without a message,
    the message once when every call up to [play()] returns, nothing
    when one of them raises. *)
Lemma play_audio_unknown self T (env : AudioEnv) :
  alerts self !! T = None -> _play_audio self T env = [].
Proof. intros H. unfold _play_audio. now rewrite H. Qed.

Lemma emission_unknown self T (env : AudioEnv) :
  alerts self !! T = None -> emission self env T = [].
Proof. intros H. unfold emission. now rewrite play_audio_unknown. Qed.

Lemma emission_plays self T (text : string) (env : AudioEnv) :
  alerts self !! T = Some text -> starts_playback env = true ->
  emission self env T = [Played text].
Proof.
  intros H. unfold emission, _play_audio, starts_playback, cleanup.
  rewrite H.
  destruct env as [g t sv l p w f r]. cbn [gtts_ok tempfile_ok save_ok
    load_ok play_ok wait file_exists remove_ok].
  destruct g, t, sv, l, p; cbn [andb negb]; try discriminate.
  intros _. destruct w, f, r; reflexivity.
Qed.

Lemma emission_fails self T (env : AudioEnv) :
  starts_playback env = false -> emission self env T = [].
Proof.
  unfold emission, _play_audio, starts_playback, cleanup.
  destruct (alerts self !! T) as [text |]; [| reflexivity].
  destruct env as [g t sv l p w f r]. cbn [gtts_ok tempfile_ok save_ok
    load_ok play_ok wait file_exists remove_ok].
  destruct g, t, sv, l, p; cbn [andb negb]; try discriminate;
    intros _; destruct f, r; reflexivity.
Qed.

Lemma emission_at_most_one self T (env : AudioEnv) :
  (length (emission self env T) <= 1)%nat.
Proof.
  destruct (starts_playback env) eqn:Hs.
  - destruct (alerts self !! T) as [text |] eqn:Hm.
    + now rewrite (emission_plays self T text env Hm Hs).
    + rewrite emission_unknown by assumption. cbn. lia.
  - rewrite emission_fails by assumption. cbn. lia.
Qed.

Lemma emission_alerts self self' T (env : AudioEnv) :
  alerts self' = alerts self -> emission self' env T = emission self env T.
Proof. intros H. unfold emission, _play_audio. now rewrite H. Qed.

(** C1: for every type [T], when a first [speak_alert T] is due and a
    second one comes within the cooldown of the time the first recorded,
    the two calls start exactly one background unit: the second one
    changes nothing, because [_can_alert] holds exactly when the clock
    is at least [alert_cooldown] past the recorded time, and that time
    is recorded by the first call itself.  A third call once the
    cooldown has elapsed starts a unit again.  What is emitted is what
    the units make audible: whatever the units meet, the first two
    calls make at most one message audible; for a type with a message,
    when the calls up to [play()] return, the first two calls make the
    message audible exactly once, and the three calls twice; for a type
    without a message nothing is audible.  Every violation type, that
    is every type with a risk weight, has a message in the table of the
    constructor. *)
Theorem cooldown_debounces self T (a1 a2 b1 b2 c1 c2 : Z) :
  audio_enabled self = true ->
  _can_alert self T a1 = true ->
  b1 - a2 < alert_cooldown self ->
  alert_cooldown self <= c1 - a2 ->
  let first := speak_alert self T a1 a2 in
  let second := speak_alert (fst first) T b1 b2 in
  let third := speak_alert (fst second) T c1 c2 in
  let three :=
    session self
      [{| call_type := T; call_check := a1; call_set := a2 |};
       {| call_type := T; call_check := b1; call_set := b2 |};
       {| call_type := T; call_check := c1; call_set := c2 |}] in
  (forall s now, _can_alert s T now = true <->
     alert_cooldown s <= now - dict_get (last_alert_time s) T 0) /\
  snd first = [T] /\
  last_alert_time (fst first) !! T = Some a2 /\
  second = (fst first, []) /\
  snd third = [T] /\
  last_alert_time (fst third) !! T = Some c2 /\
  three = (fst third, [T; T]) /\
  (forall env : nat -> AudioEnv,
     (length (emissions (fst second) env (snd first ++ snd second)) <= 1)%nat
     /\
     (forall text : string,
        alerts self !! T = Some text ->
        (forall i, starts_playback (env i) = true) ->
        emissions (fst second) env (snd first ++ snd second)
        = [Played text] /\
        emissions (fst third) env (snd third) = [Played text] /\
        emissions (fst three) env (snd three)
        = [Played text; Played text]) /\
     (alerts self !! T = None ->
      emissions (fst three) env (snd three) = [])) /\
  (forall T' : string,
     is_Some (cheating_probability.default_weights !! T') ->
     is_Some (alert_messages !! T')).
Proof.
  intros Ha H1 H2 H3. cbn zeta.
  rewrite (speak_alert_due self T a1 a2 Ha H1). cbn [fst snd].
  set (s1 := set_last_alert_time self (<[T := a2]> (last_alert_time self))).
  assert (speak_alert s1 T b1 b2 = (s1, [])) as E2.
  { apply speak_alert_cooling. unfold s1. rewrite can_alert_after_emission.
    apply Z.leb_gt. exact H2. }
  assert (speak_alert s1 T c1 c2 =
          (set_last_alert_time s1 (<[T := c2]> (last_alert_time s1)), [T]))
    as E3.
  { apply speak_alert_due; [exact Ha |].
    unfold s1. rewrite can_alert_after_emission. apply Z.leb_le. exact H3. }
  rewrite E2. cbn [fst snd]. rewrite E3. cbn [fst snd].
  set (s3 := set_last_alert_time s1 (<[T := c2]> (last_alert_time s1))).
  assert (session self
            [{| call_type := T; call_check := a1; call_set := a2 |};
             {| call_type := T; call_check := b1; call_set := b2 |};
             {| call_type := T; call_check := c1; call_set := c2 |}]
          = (s3, [T; T])) as E.
  { cbn [session call_type call_check call_set].
    rewrite (speak_alert_due self T a1 a2 Ha H1). fold s1.
    rewrite E2, E3. reflexivity. }
  rewrite E. cbn [fst snd].
  assert (alerts s1 = alerts self) as Hal1 by reflexivity.
  assert (alerts s3 = alerts self) as Hal3 by reflexivity.
  split; [intros s now; apply can_alert_iff |].
  split; [reflexivity |].
  split; [cbn; apply lookup_insert_eq |].
  split; [reflexivity |].
  split; [reflexivity |].
  split; [cbn; apply lookup_insert_eq |].
  split; [reflexivity |].
  split.
  - intros env. unfold emissions. cbn [app imap concat]. unfold compose.
    rewrite !app_nil_r. split; [apply emission_at_most_one |]. split.
    + intros text Hm Hplay.
      assert (alerts s1 !! T = Some text) as Hm1 by now rewrite Hal1.
      assert (alerts s3 !! T = Some text) as Hm3 by now rewrite Hal3.
      rewrite (emission_plays s1 T text _ Hm1 (Hplay 0%nat)).
      rewrite (emission_plays s3 T text _ Hm3 (Hplay 0%nat)).
      rewrite (emission_plays s3 T text _ Hm3 (Hplay 1%nat)).
      repeat split.
    + intros Hm.
      assert (alerts s3 !! T = None) as Hm3 by now rewrite Hal3.
      now rewrite !emission_unknown by exact Hm3.
  - intros T' [w Hw]. unfold cheating_probability.default_weights in Hw.
    rewrite !lookup_insert, lookup_empty in Hw.
    repeat case_decide; subst; try discriminate; eexists; reflexivity.
Qed.

Lemma cooldown_debounces_witness :
  emissions
    (fst (session (__init__ 5 true)
            [{| call_type := "FACE_DISAPPEARED";
                call_check := 1000; call_set := 1001 |};
             {| call_type := "FACE_DISAPPEARED";
                call_check := 1003; call_set := 1004 |};
             {| call_type := "FACE_DISAPPEARED";
                call_check := 1006; call_set := 1007 |}]))
    (fun _ => sample_env)
    (snd (session (__init__ 5 true)
            [{| call_type := "FACE_DISAPPEARED";
                call_check := 1000; call_set := 1001 |};
             {| call_type := "FACE_DISAPPEARED";
                call_check := 1003; call_set := 1004 |};
             {| call_type := "FACE_DISAPPEARED";
                call_check := 1006; call_set := 1007 |}]))
  = [Played "Please look at the screen"; Played "Please look at the screen"].
Proof.
  pose proof (cooldown_debounces (__init__ 5 true) "FACE_DISAPPEARED"
                1000 1001 1003 1004 1006 1007
                eq_refl eq_refl ltac:(cbn; lia) ltac:(cbn; lia))
    as H.
  cbn zeta in H. destruct H as (_ & _ & _ & _ & _ & _ & _ & H & _).
  destruct (H (fun _ => sample_env)) as (_ & H' & _).
  exact (proj2 (proj2 (H' "Please look at the screen" eq_refl
                         (fun _ => eq_refl)))).
Defined.

(** C7: when the audio device cannot be initialised the constructor
    leaves [audio_enabled] false, and from then on any session of
    [speak_alert] calls, of any types at any times, returns normally,
    starts no background unit, and leaves the dispatcher as constructed,
    its flag still false. *)
Theorem degraded_mode_is_permanent (cooldown : Z) (calls : list Call) :
  audio_enabled (__init__ cooldown false) = false /\
  session (__init__ cooldown false) calls = (__init__ cooldown false, []) /\
  audio_enabled (fst (session (__init__ cooldown false) calls)) = false /\
  (forall T now_check now_set,
     speak_alert (fst (session (__init__ cooldown false) calls))
       T now_check now_set
     = (__init__ cooldown false, [])).
Proof.
  assert (session (__init__ cooldown false) calls
          = (__init__ cooldown false, [])) as E
    by now apply session_disabled.
  rewrite E. cbn [fst]. repeat split.
Qed.

(** C9: for a type without an entry in [alerts], a call made with audio
    enabled and the cooldown elapsed records the time of the call and
    starts the background unit; the unit finds no message and returns
    with no effect at all, whatever the environment; and until the
    cooldown has elapsed again further calls for the type do nothing. *)
Theorem unknown_type_consumes_cooldown self T (now_check now_set : Z) :
  alerts self !! T = None ->
  audio_enabled self = true ->
  _can_alert self T now_check = true ->
  let self' := fst (speak_alert self T now_check now_set) in
  last_alert_time self' !! T = Some now_set /\
  snd (speak_alert self T now_check now_set) = [T] /\
  (forall env, _play_audio self' T env = []) /\
  (forall now now', now - now_set < alert_cooldown self ->
     speak_alert self' T now now' = (self', [])).
Proof.
  intros Hm Ha Hc. cbn zeta.
  rewrite (speak_alert_due self T now_check now_set Ha Hc). cbn [fst snd].
  repeat split.
  - cbn. apply lookup_insert_eq.
  - intros env. now apply play_audio_unknown.
  - intros now now' Hlt. apply speak_alert_cooling.
    rewrite can_alert_after_emission. apply Z.leb_gt. exact Hlt.
Qed.

Lemma unknown_type_consumes_cooldown_witness :
  alerts (__init__ 5 true) !! "AUDIO_DETECTED" = None /\
  last_alert_time
    (fst (speak_alert (__init__ 5 true) "AUDIO_DETECTED" 1000 1001))
    !! "AUDIO_DETECTED" = Some 1001.
Proof.
  split; [reflexivity |].
  apply (unknown_type_consumes_cooldown (__init__ 5 true) "AUDIO_DETECTED"
           1000 1001); reflexivity.
Defined.

End Dispatcher.

(** * Properties of the division of integers

    What is needed of [int_truediv]: a quotient that lies between two
    integers is a finite float between them. *)

Section Floats.

Lemma digits2_bounds (p : positive) :
  2 ^ (Zpos (digits2_pos p) - 1) <= Zpos p < 2 ^ Zpos (digits2_pos p).
Proof.
  induction p as [p IH | p IH |]; cbn [digits2_pos].
  - rewrite Pos2Z.inj_succ.
    replace (Z.succ (Zpos (digits2_pos p)) - 1) with
      (Z.succ (Zpos (digits2_pos p) - 1)) by lia.
    rewrite !Z.pow_succ_r by lia. lia.
  - rewrite Pos2Z.inj_succ.
    replace (Z.succ (Zpos (digits2_pos p)) - 1) with
      (Z.succ (Zpos (digits2_pos p) - 1)) by lia.
    rewrite !Z.pow_succ_r by lia. lia.
  - cbn. lia.
Qed.

Lemma digits2_unique (p : positive) (d : Z) :
  2 ^ (d - 1) <= Zpos p < 2 ^ d -> 0 < d -> Zpos (digits2_pos p) = d.
Proof.
  intros [Hlo Hhi] Hd. pose proof (digits2_bounds p) as [Hlo' Hhi'].
  assert (d - 1 < Zpos (digits2_pos p)).
  { apply (Z.pow_lt_mono_r_iff 2); lia. }
  assert (Zpos (digits2_pos p) - 1 < d).
  { apply (Z.pow_lt_mono_r_iff 2); lia. }
  lia.
Qed.

Lemma loc_of_shr_record_of_loc (m : Z) (l : location) :
  loc_of_shr_record (shr_record_of_loc m l) = l.
Proof. now destruct l as [|[]]. Qed.

Lemma shr_m_of_loc (m : Z) (l : location) :
  shr_m (shr_record_of_loc m l) = m.
Proof. now destruct l as [|[]]. Qed.

Lemma shr_fexp_53 (m e : Z) (l : location) :
  2 ^ 52 <= m < 2 ^ 53 -> -1074 <= e ->
  shr_fexp 53 1024 m e l = (shr_record_of_loc m l, e).
Proof.
  intros Hm He. destruct m as [|p|p]; try lia.
  unfold shr_fexp, Zdigits2. rewrite (digits2_unique p 53) by lia.
  unfold fexp, emin.
  replace (Z.max (53 + e - 53) (3 - 1024 - 53) - e) with 0 by lia.
  reflexivity.
Qed.

Lemma shr_fexp_54 (m e : Z) (l : location) :
  2 ^ 53 <= m < 2 ^ 54 -> -1075 <= e ->
  shr_fexp 53 1024 m e l = (shr_1 (shr_record_of_loc m l), e + 1).
Proof.
  intros Hm He. destruct m as [|p|p]; try lia.
  unfold shr_fexp, Zdigits2. rewrite (digits2_unique p 54) by lia.
  unfold fexp, emin.
  replace (Z.max (54 + e - 53) (3 - 1024 - 53) - e) with 1 by lia.
  reflexivity.
Qed.

Lemma shr_1_of_loc (m : Z) (l : location) :
  1 < m ->
  shr_m (shr_1 (shr_record_of_loc m l)) = m / 2 /\
  (Z.even m = true -> l = loc_Exact ->
   loc_of_shr_record (shr_1 (shr_record_of_loc m l)) = loc_Exact).
Proof.
  intros Hm. destruct m as [|[p|p|]|p]; try lia.
  - split.
    + destruct l as [|[]]; cbn [shr_record_of_loc shr_1 shr_m];
        rewrite Pos2Z.inj_xI; apply Z.div_unique with 1; lia.
    + cbn. discriminate.
  - split.
    + destruct l as [|[]]; cbn [shr_record_of_loc shr_1 shr_m];
        rewrite (Pos2Z.inj_xO p); apply Z.div_unique with 0; lia.
    + intros _ ->. reflexivity.
Qed.

Lemma round_nearest_even_spec (m : Z) (l : location) :
  m <= round_nearest_even m l <= m + 1 /\
  (l = loc_Exact -> round_nearest_even m l = m).
Proof.
  split; [| now intros ->].
  destruct l as [|[]]; cbn [round_nearest_even]; try lia.
  destruct (Z.even m); lia.
Qed.

(** Rounding a quotient of 53 or 54 bits: the result is a finite float
    of mantissa [mf] at most two binades up, and rounding never crosses
    an even multiple of the unit. *)
Lemma binary_round_aux_spec (q e : Z) (l : location) :
  2 ^ 52 <= q < 2 ^ 54 -> -1074 <= e <= 969 ->
  exists (mf : positive) (n : Z),
    binary_round_aux 53 1024 false q e l = S754_finite false mf (e + n) /\
    0 <= n <= 2 /\
    (forall L, Z.even L = true -> L <= q -> L <= Zpos mf * 2 ^ n) /\
    (forall U, Z.even U = true -> q <= U -> (q = U -> l = loc_Exact) ->
       Zpos mf * 2 ^ n <= U).
Proof.
  intros Hq He.
  assert (forall m1 e1, 2 ^ 52 <= m1 <= 2 ^ 53 -> -1074 <= e1 <= 970 ->
          exists (mf : positive) (k : Z),
            (let '(mrs, e2) := shr_fexp 53 1024 m1 e1 loc_Exact in
             match shr_m mrs with
             | Z0 => S754_zero false
             | Zpos m => if e2 <=? 1024 - 53 then S754_finite false m e2
                         else S754_infinity false
             | Zneg _ => S754_nan
             end) = S754_finite false mf (e1 + k) /\
            0 <= k <= 1 /\ Zpos mf * 2 ^ k = m1) as Hfinal.
  { intros m1 e1 Hm1 He1.
    destruct (Z.eq_dec m1 (2 ^ 53)) as [-> | Hne].
    - exists (2 ^ 52)%positive, 1.
      rewrite shr_fexp_54 by lia. cbn [shr_record_of_loc].
      cbn [shr_1 shr_m Z.pow Z.pow_pos Pos.iter Z.mul Pos.mul].
      replace (e1 + 1 <=? 1024 - 53) with true
        by (symmetry; apply Z.leb_le; lia).
      split; [reflexivity |]. split; [lia | reflexivity].
    - rewrite shr_fexp_53 by lia. cbn [shr_record_of_loc shr_m].
      destruct m1 as [|p|p]; try lia.
      exists p, 0.
      replace (e1 <=? 1024 - 53) with true
        by (symmetry; apply Z.leb_le; lia).
      rewrite Z.add_0_r. split; [reflexivity |]. split; lia. }
  unfold binary_round_aux.
  destruct (Z.lt_ge_cases q (2 ^ 53)) as [Hlt | Hge].
  - rewrite shr_fexp_53 by lia.
    rewrite shr_m_of_loc, loc_of_shr_record_of_loc.
    pose proof (round_nearest_even_spec q l) as [Hr Hex].
    destruct (Hfinal (round_nearest_even q l) e) as (mf & k & -> & Hk & Hv);
      [lia | lia |].
    exists mf, k. split; [reflexivity |]. split; [lia |]. split.
    + intros L _ HL. lia.
    + intros U _ HU Hexact.
      destruct (Z.eq_dec q U) as [Heq | Hne]; [| lia].
      rewrite Hv, (Hex (Hexact Heq)). lia.
  - rewrite shr_fexp_54 by lia.
    pose proof (shr_1_of_loc q l ltac:(lia)) as [Hm Hloc].
    rewrite Hm.
    set (l' := loc_of_shr_record (shr_1 (shr_record_of_loc q l))) in *.
    pose proof (round_nearest_even_spec (q / 2) l') as [Hr Hex].
    assert (2 ^ 52 <= q / 2 < 2 ^ 53) as Hq2.
    { change (2 ^ 53) with (2 * 2 ^ 52) in *.
      change (2 ^ 54) with (2 * (2 * 2 ^ 52)) in *.
      Z.to_euclidean_division_equations; lia. }
    destruct (Hfinal (round_nearest_even (q / 2) l') (e + 1))
      as (mf & k & -> & Hk & Hv); [lia | lia |].
    exists mf, (1 + k). split; [f_equal; lia |]. split; [lia |].
    rewrite Z.pow_add_r by lia.
    replace (Zpos mf * (2 ^ 1 * 2 ^ k)) with (2 * (Zpos mf * 2 ^ k)) by lia.
    rewrite Hv. split.
    + intros L HL HLq. apply Z.even_spec in HL as [c ->].
      Z.to_euclidean_division_equations; lia.
    + intros U HU HUq Hexact. apply Z.even_spec in HU as [c ->].
      destruct (Z.eq_dec q (2 * c)) as [Heq | Hne].
      * rewrite Hex.
        -- Z.to_euclidean_division_equations; lia.
        -- apply Hloc; [| now apply Hexact].
           rewrite Heq. apply Z.even_spec. now exists c.
      * Z.to_euclidean_division_equations; lia.
Qed.

Lemma new_location_exact (b r : Z) : r = 0 -> new_location b r = loc_Exact.
Proof.
  intros ->. unfold new_location, new_location_even, new_location_odd.
  now destruct (Z.even b).
Qed.

Lemma float_value_scaled (m : positive) (n s : Z) :
  0 <= n -> 0 <= s ->
  (float_value (S754_finite false m (n - s))
   == inject_Z (Zpos m * 2 ^ n) / inject_Z (2 ^ s))%Q.
Proof.
  intros Hn Hs. cbn [float_value].
  replace (n - s) with (n + - s) by lia.
  rewrite Qpower_plus by discriminate.
  rewrite Qpower_opp.
  rewrite inject_Z_mult.
  rewrite (Zpower_Qpower 2 n Hn), (Zpower_Qpower 2 s Hs).
  unfold Qdiv. change (inject_Z 2) with 2%Q. apply Qmult_assoc.
Qed.

Lemma int_truediv_between (a b lo hi : Z) :
  0 < b -> 1 <= lo -> hi < 2 ^ 52 -> lo * b <= a <= hi * b ->
  exists (m : positive) (e : Z),
    int_truediv a b = S754_finite false m e /\
    (inject_Z lo <= float_value (S754_finite false m e))%Q /\
    (float_value (S754_finite false m e) <= inject_Z hi)%Q.
Proof.
  intros Hb Hlo Hhi [Hla Hah].
  destruct b as [|pb|pb]; try lia.
  destruct a as [|pa|pa]; try nia.
  pose proof (digits2_bounds pa) as [Ha1 Ha2].
  pose proof (digits2_bounds pb) as [Hb1 Hb2].
  set (d1 := Zpos (digits2_pos pa)) in *.
  set (d2 := Zpos (digits2_pos pb)) in *.
  assert (0 < d1) as Hd1 by (unfold d1; lia).
  assert (0 < d2) as Hd2 by (unfold d2; lia).
  assert (0 <= d1 - d2) as Hdlo.
  { assert (d2 - 1 < d1); [| lia].
    apply (Z.pow_lt_mono_r_iff 2); [lia | lia |]. nia. }
  assert (d1 - d2 <= 52) as Hdhi.
  { assert (d1 - 1 < 52 + d2); [| lia].
    apply (Z.pow_lt_mono_r_iff 2); [lia | lia |].
    rewrite Z.pow_add_r by lia.
    assert (hi * Zpos pb < 2 ^ 52 * 2 ^ d2) by nia. lia. }
  set (s := 53 - (d1 - d2)).
  assert (1 <= s <= 53) as Hs by (unfold s; lia).
  unfold int_truediv, of_int, SFdiv, SFdiv_core_binary, Zdigits2.
  fold d1 d2.
  replace (Z.min (fexp 53 1024 (d1 + 0 - (d2 + 0))) (0 - 0)) with (- s)
    by (unfold fexp, emin, s; lia).
  replace (0 - 0 - - s) with s by lia.
  destruct s as [|ps|ps] eqn:Es; try lia. rewrite <- Es in *.
  rewrite Z.shiftl_mul_pow2 by lia.
  pose proof (Z_div_mod (Zpos pa * 2 ^ s) (Zpos pb) ltac:(lia)) as Hdiv.
  destruct (Z.div_eucl (Zpos pa * 2 ^ s) (Zpos pb)) as [q r].
  destruct Hdiv as [Hqr Hr].
  assert (0 < 2 ^ s) as HP by (apply Z.pow_pos_nonneg; lia).
  assert (2 ^ (d1 - 1) * 2 ^ s = 2 ^ (d2 + 52)) as E1
    by (rewrite <- Z.pow_add_r by lia; f_equal; unfold s in Es |- *; lia).
  assert (2 ^ d1 * 2 ^ s = 2 ^ (d2 + 53)) as E2
    by (rewrite <- Z.pow_add_r by lia; f_equal; lia).
  assert (2 ^ d2 * 2 ^ 52 = 2 ^ (d2 + 52)) as E3
    by (rewrite <- Z.pow_add_r by lia; reflexivity).
  assert (2 ^ (d2 - 1) * 2 ^ 54 = 2 ^ (d2 + 53)) as E4
    by (rewrite <- Z.pow_add_r by lia; f_equal; lia).
  assert (2 ^ 52 <= q < 2 ^ 54) as Hq.
  { split.
    - destruct (Z.lt_ge_cases q (2 ^ 52)) as [Hlt | Hge]; [| exact Hge].
      exfalso.
      assert (Zpos pb * (q + 1) <= Zpos pb * 2 ^ 52)
        by (apply Z.mul_le_mono_nonneg_l; lia).
      assert (Zpos pb * 2 ^ 52 < 2 ^ d2 * 2 ^ 52)
        by (apply Z.mul_lt_mono_pos_r; lia).
      assert (2 ^ (d1 - 1) * 2 ^ s <= Zpos pa * 2 ^ s)
        by (apply Z.mul_le_mono_nonneg_r; lia).
      lia.
    - destruct (Z.lt_ge_cases q (2 ^ 54)) as [Hlt | Hge]; [exact Hlt |].
      exfalso.
      assert (Zpos pb * 2 ^ 54 <= Zpos pb * q)
        by (apply Z.mul_le_mono_nonneg_l; lia).
      assert (2 ^ (d2 - 1) * 2 ^ 54 <= Zpos pb * 2 ^ 54)
        by (apply Z.mul_le_mono_nonneg_r; lia).
      assert (Zpos pa * 2 ^ s < 2 ^ d1 * 2 ^ s)
        by (apply Z.mul_lt_mono_pos_r; lia).
      lia. }
  destruct (binary_round_aux_spec q (- s) (new_location (Zpos pb) r) Hq
              ltac:(lia))
    as (mf & n & Hres & Hn & Hlow & Hupp).
  cbn [xorb]. rewrite Hres.
  exists mf, (- s + n). split; [reflexivity |].
  assert (Z.even (2 ^ s) = true) as Heven.
  { replace s with (Z.succ (s - 1)) by lia.
    rewrite Z.pow_succ_r by lia. apply Z.even_spec. now exists (2 ^ (s - 1)). }
  assert (lo * 2 ^ s <= Zpos mf * 2 ^ n) as HL.
  { apply Hlow.
    - rewrite Z.even_mul, Heven. apply orb_true_r.
    - assert (lo * Zpos pb * 2 ^ s <= Zpos pa * 2 ^ s)
        by (apply Z.mul_le_mono_nonneg_r; lia).
      assert (Zpos pb * (lo * 2 ^ s) < Zpos pb * (q + 1)) by lia.
      assert (lo * 2 ^ s < q + 1)
        by (apply (Z.mul_lt_mono_pos_l (Zpos pb)); lia).
      lia. }
  assert (Zpos pa * 2 ^ s <= hi * Zpos pb * 2 ^ s) as Hhs
    by (apply Z.mul_le_mono_nonneg_r; lia).
  assert (Zpos mf * 2 ^ n <= hi * 2 ^ s) as HU.
  { apply Hupp.
    - rewrite Z.even_mul, Heven. apply orb_true_r.
    - assert (Zpos pb * q <= Zpos pb * (hi * 2 ^ s)) by lia.
      apply (Z.mul_le_mono_pos_l _ _ (Zpos pb)); lia.
    - intros ->. apply new_location_exact. lia. }
  replace (- s + n) with (n - s) by lia.
  rewrite float_value_scaled by lia.
  assert (0 < inject_Z (2 ^ s))%Q as HPQ by (rewrite <- (Zlt_Qlt 0); exact HP).
  split.
  - apply Qle_shift_div_l; [exact HPQ |].
    rewrite <- inject_Z_mult, <- Zle_Qle. exact HL.
  - apply Qle_shift_div_r; [exact HPQ |].
    rewrite <- inject_Z_mult, <- Zle_Qle. exact HU.
Qed.

(** The division on a few operands: 7 / 3 is 2.3333333333333335 and
    5 / 3 is 1.6666666666666667; operands beyond 53 bits are divided as
    they are, not after rounding each to a float. *)
Example int_truediv_7_3 :
  int_truediv 7 3 = S754_finite false 5254199565265579 (-51).
Proof. reflexivity. Qed.

Example int_truediv_5_3 :
  int_truediv 5 3 = S754_finite false 7505999378950827 (-52).
Proof. reflexivity. Qed.

Example int_truediv_beyond_53_bits :
  int_truediv (2 ^ 64 + 2 ^ 11 + 1) (2 ^ 10 + 1)
  = S754_finite false 8998411743272953 1 /\
  SFdiv 53 1024 (float_of_int (2 ^ 64 + 2 ^ 11 + 1))
    (float_of_int (2 ^ 10 + 1))
  = S754_finite false 8998411743272954 1.
Proof. split; vm_compute; reflexivity. Qed.

End Floats.

(** * Properties of the report aggregator *)

Section Aggregator.

Import report_generator.

Implicit Types (self : ReportGenerator) (vs : list Violation) (st : Stats).

Lemma occurrences_cons (t : string) (v : Violation) vs :
  occurrences t (v :: vs) =
  (if decide (type v = t) then 1 else 0) + occurrences t vs.
Proof.
  unfold occurrences. rewrite filter_cons.
  case_decide; cbn [length]; lia.
Qed.

Lemma occurrences_app (t : string) vs vs' :
  occurrences t (vs ++ vs') = occurrences t vs + occurrences t vs'.
Proof.
  unfold occurrences. rewrite filter_app, length_app. lia.
Qed.

Lemma occurrences_nonneg (t : string) vs : 0 <= occurrences t vs.
Proof. unfold occurrences. lia. Qed.

Lemma severity_total_cons self (v : Violation) vs :
  severity_total self (v :: vs) =
  severity_weight self (type v) + severity_total self vs.
Proof. reflexivity. Qed.

Lemma severity_total_app self vs vs' :
  severity_total self (vs ++ vs') =
  severity_total self vs + severity_total self vs'.
Proof. unfold severity_total. now rewrite map_app, sum_app. Qed.

(** *** The loop, from any accumulator *)

Lemma loop_total self vs st :
  total (fold_left (loop_body self) vs st) = total st.
Proof.
  revert st. induction vs as [|v vs IH]; intros st; [reflexivity |].
  cbn [fold_left]. now rewrite IH.
Qed.

Lemma loop_average self vs st :
  average_severity (fold_left (loop_body self) vs st) = average_severity st.
Proof.
  revert st. induction vs as [|v vs IH]; intros st; [reflexivity |].
  cbn [fold_left]. now rewrite IH.
Qed.

Lemma loop_severity self vs st :
  severity_score (fold_left (loop_body self) vs st) =
  severity_score st + severity_total self vs.
Proof.
  revert st. induction vs as [|v vs IH]; intros st.
  - cbn. unfold severity_total. cbn. lia.
  - cbn [fold_left]. rewrite IH, severity_total_cons.
    cbn [severity_score loop_body]. unfold severity_weight. lia.
Qed.

Lemma loop_timeline self vs st :
  timeline (fold_left (loop_body self) vs st) =
  timeline st ++ map (timeline_entry self) vs.
Proof.
  revert st. induction vs as [|v vs IH]; intros st.
  - cbn. now rewrite app_nil_r.
  - cbn [fold_left]. rewrite IH. cbn [timeline loop_body map].
    now rewrite <- app_assoc.
Qed.

Lemma loop_by_type self vs st (t : string) :
  by_type (fold_left (loop_body self) vs st) !! t =
  if decide (occurrences t vs = 0) then by_type st !! t
  else Some (dict_get (by_type st) t 0 + occurrences t vs).
Proof.
  revert st. induction vs as [|v vs IH]; intros st; [reflexivity |].
  cbn [fold_left]. rewrite IH, occurrences_cons.
  pose proof (occurrences_nonneg t vs) as Hpos.
  cbn [by_type loop_body]. unfold dict_get.
  destruct (decide (type v = t)) as [-> | Hne].
  - rewrite lookup_insert_eq. cbn [default].
    repeat case_decide; try lia; f_equal; unfold id; lia.
  - rewrite lookup_insert_ne by assumption.
    repeat case_decide; try lia; reflexivity.
Qed.

(** *** The whole function *)

Lemma calculate_stats_fields self vs :
  total (_calculate_stats self vs) = Z.of_nat (length vs) /\
  by_type (_calculate_stats self vs) =
    by_type (fold_left (loop_body self) vs
      {| total := Z.of_nat (length vs); by_type := ∅; timeline := [];
         severity_score := 0; average_severity := PyInt 0 |}) /\
  severity_score (_calculate_stats self vs) = severity_total self vs /\
  timeline (_calculate_stats self vs) = map (timeline_entry self) vs /\
  average_severity (_calculate_stats self vs) =
    if decide (Z.of_nat (length vs) = 0) then PyInt 0
    else PyFloat (int_truediv (severity_total self vs)
                    (Z.of_nat (length vs))).
Proof.
  unfold _calculate_stats. cbn zeta. rewrite loop_total. cbn [total].
  destruct (Z.ltb_spec 0 (Z.of_nat (length vs))) as [Hpos | Hzero];
    cbn [total by_type severity_score timeline average_severity];
    rewrite ?loop_total, ?loop_severity, ?loop_timeline, ?loop_average;
    cbn [total by_type severity_score timeline average_severity];
    rewrite ?Z.add_0_l; case_decide; try lia; repeat split; reflexivity.
Qed.

Lemma calculate_stats_by_type self vs (t : string) :
  by_type (_calculate_stats self vs) !! t =
  if decide (occurrences t vs = 0) then None else Some (occurrences t vs).
Proof.
  destruct (calculate_stats_fields self vs) as (_ & Hb & _).
  rewrite Hb, loop_by_type. cbn [by_type].
  destruct (decide (occurrences t vs = 0)); [apply lookup_empty |].
  unfold dict_get. rewrite lookup_empty. reflexivity.
Qed.

(** A log that is not empty and whose exact average lies between two
    integers has a finite float for average, between the two. *)
Lemma average_severity_between self vs (lo hi : Z) :
  vs <> [] -> 1 <= lo -> hi < 2 ^ 52 ->
  lo * Z.of_nat (length vs) <= severity_total self vs
  <= hi * Z.of_nat (length vs) ->
  exists (m : positive) (e : Z),
    average_severity (_calculate_stats self vs)
    = PyFloat (S754_finite false m e) /\
    (inject_Z lo
     <= number_value (average_severity (_calculate_stats self vs)))%Q /\
    (number_value (average_severity (_calculate_stats self vs))
     <= inject_Z hi)%Q.
Proof.
  intros Hne Hlo Hhi Hb.
  destruct (calculate_stats_fields self vs) as (_ & _ & _ & _ & Ha).
  assert (0 < Z.of_nat (length vs)) as Hpos
    by (destruct vs; [congruence | cbn [length]; lia]).
  rewrite decide_False in Ha by lia.
  destruct (int_truediv_between (severity_total self vs)
              (Z.of_nat (length vs)) lo hi Hpos Hlo Hhi Hb)
    as (m & e & Hdiv & Hl & Hu).
  exists m, e. rewrite Ha, Hdiv. cbn [number_value]. now repeat split.
Qed.

(** C5: for every list of violations, also the empty one,
    [_calculate_stats] returns [total] equal to the number of
    violations, [by_type] mapping each type that occurs to the number of
    its occurrences and no other type, [severity_score] equal to the sum
    of the severity weights of the violations' types, [average_severity]
    equal to 0 when [total] is 0 and otherwise, unless the division
    overflows, to the float [severity_score / total], and a [timeline]
    with one entry per violation in input order.  The float lies
    between any two integers, from 1 to 2^52, that the exact quotient
    lies between, so it is the exact quotient whenever that is such an
    integer.  For the log
    [A, A, B] with severity weights 2 for [A] and 5 for [B] it returns
    total 3, by_type [{A: 2, B: 1}], severity score 9 and average
    severity 3.0. *)
Theorem calculate_stats_spec self vs :
  total (_calculate_stats self vs) = Z.of_nat (length vs) /\
  (forall t : string,
     by_type (_calculate_stats self vs) !! t =
     if decide (occurrences t vs = 0) then None
     else Some (occurrences t vs)) /\
  severity_score (_calculate_stats self vs) = severity_total self vs /\
  (total (_calculate_stats self vs) = 0 ->
   average_severity (_calculate_stats self vs) = PyInt 0) /\
  (total (_calculate_stats self vs) <> 0 ->
   overflowed (_calculate_stats self vs) = false ->
   average_severity (_calculate_stats self vs) =
   PyFloat (int_truediv (severity_score (_calculate_stats self vs))
              (total (_calculate_stats self vs)))) /\
  (forall lo hi : Z,
     total (_calculate_stats self vs) <> 0 -> 1 <= lo -> hi < 2 ^ 52 ->
     lo * total (_calculate_stats self vs)
     <= severity_score (_calculate_stats self vs)
     <= hi * total (_calculate_stats self vs) ->
     overflowed (_calculate_stats self vs) = false /\
     (inject_Z lo
      <= number_value (average_severity (_calculate_stats self vs)))%Q /\
     (number_value (average_severity (_calculate_stats self vs))
      <= inject_Z hi)%Q) /\
  timeline (_calculate_stats self vs) = map (timeline_entry self) vs /\
  (forall A B t1 t2 t3 : string,
     A <> B ->
     severity_map self !! A = Some 2 ->
     severity_map self !! B = Some 5 ->
     let stats :=
       _calculate_stats self
         [{| type := A; timestamp := t1 |};
          {| type := A; timestamp := t2 |};
          {| type := B; timestamp := t3 |}] in
     total stats = 3 /\
     by_type stats = <[A := 2]> (<[B := 1]> ∅) /\
     severity_score stats = 9 /\
     average_severity stats = PyFloat (float_of_int 3) /\
     (number_value (average_severity stats) == 3)%Q).
Proof.
  destruct (calculate_stats_fields self vs) as (Ht & Hb & Hs & Hl & Ha).
  split; [exact Ht |]. split.
  { intros t. rewrite Hb, loop_by_type. cbn [by_type].
    destruct (decide (occurrences t vs = 0)); [apply lookup_empty |].
    unfold dict_get. rewrite lookup_empty. cbn. reflexivity. }
  split; [exact Hs |].
  split.
  { intros H0. rewrite Ha. rewrite Ht in H0. now rewrite decide_True. }
  split.
  { intros H0 _. rewrite Ha, Ht, Hs. rewrite Ht in H0.
    now rewrite decide_False. }
  split.
  { intros lo hi H0 Hlo Hhi Hbounds. rewrite Ht, Hs in *.
    assert (vs <> []) as Hne by (intros ->; now apply H0).
    destruct (average_severity_between self vs lo hi Hne Hlo Hhi Hbounds)
      as (m & e & Hm & Hle & Hge).
    split; [| now split].
    unfold overflowed. now rewrite Hm. }
  split; [exact Hl |].
  intros A B t1 t2 t3 Hne HA HB stats.
  destruct (calculate_stats_fields self
              [{| type := A; timestamp := t1 |};
               {| type := A; timestamp := t2 |};
               {| type := B; timestamp := t3 |}])
    as (Ht' & Hb' & Hs' & _ & Ha').
  fold stats in Ht', Hb', Hs', Ha'.
  assert (severity_total self
            [{| type := A; timestamp := t1 |};
             {| type := A; timestamp := t2 |};
             {| type := B; timestamp := t3 |}] = 9) as H9.
  { unfold severity_total, severity_weight, dict_get. cbn [map type].
    rewrite HA, HB. reflexivity. }
  rewrite H9 in Hs', Ha'.
  split; [exact Ht' |]. split; [| split; [exact Hs' |]].
  - rewrite Hb'. cbn [fold_left loop_body by_type type].
    unfold dict_get. rewrite lookup_empty. cbn [default].
    rewrite lookup_insert_eq. cbn [default id].
    rewrite insert_insert_eq.
    rewrite lookup_insert_ne, lookup_empty by congruence. cbn [default].
    apply insert_insert_ne. congruence.
  - rewrite Ha'. split; vm_compute; reflexivity.
Qed.

Lemma calculate_stats_spec_witness :
  total (_calculate_stats __init__ sample_log) = 3 /\
  by_type (_calculate_stats __init__ sample_log)
  = <["GAZE_AWAY" := 2]> (<["OBJECT_DETECTED" := 1]> ∅) /\
  severity_score (_calculate_stats __init__ sample_log) = 9 /\
  average_severity (_calculate_stats __init__ sample_log)
  = PyFloat (float_of_int 3) /\
  (number_value (average_severity (_calculate_stats __init__ sample_log))
   == 3)%Q.
Proof.
  apply (proj2 (proj2 (proj2 (proj2 (proj2 (proj2 (proj2
           (calculate_stats_spec __init__ sample_log)))))))
           "GAZE_AWAY" "OBJECT_DETECTED");
    [discriminate | reflexivity | reflexivity].
Defined.

(** C10: a violation whose type the severity map does not list is kept:
    it counts in [total] and in [by_type] under its own type, it adds
    the default weight 1 to [severity_score] and so to
    [average_severity], the float quotient of the score by the count
    unless the division overflows, and its timeline entry, at its place
    in the input order, carries severity 1. *)
Theorem unlisted_type_default_severity self vs (v : Violation) vs' :
  severity_map self !! type v = None ->
  let stats := _calculate_stats self (vs ++ v :: vs') in
  let score := severity_total self vs + 1 + severity_total self vs' in
  let count := Z.of_nat (length vs) + 1 + Z.of_nat (length vs') in
  total stats = count /\
  by_type stats !! type v =
    Some (occurrences (type v) vs + 1 + occurrences (type v) vs') /\
  severity_score stats = score /\
  (overflowed stats = false ->
   average_severity stats = PyFloat (int_truediv score count)) /\
  (forall lo hi : Z,
     1 <= lo -> hi < 2 ^ 52 -> lo * count <= score <= hi * count ->
     overflowed stats = false /\
     (inject_Z lo <= number_value (average_severity stats))%Q /\
     (number_value (average_severity stats) <= inject_Z hi)%Q) /\
  timeline stats !! length vs =
    Some {| entry_time := timestamp v;
            entry_type := type v;
            entry_severity := 1 |}.
Proof.
  intros Hnone stats score count.
  destruct (calculate_stats_fields self (vs ++ v :: vs'))
    as (Ht & _ & Hs & Hl & Ha).
  pose proof (calculate_stats_by_type self (vs ++ v :: vs')) as Hb.
  fold stats in Ht, Hb, Hs, Ha, Hl.
  assert (severity_weight self (type v) = 1) as Hw
    by (unfold severity_weight, dict_get; now rewrite Hnone).
  assert (Z.of_nat (length (vs ++ v :: vs')) = count) as Hlen
    by (unfold count; rewrite length_app; cbn [length]; lia).
  assert (severity_total self (vs ++ v :: vs') = score) as Hsev
    by (unfold score; rewrite severity_total_app, severity_total_cons, Hw;
        lia).
  assert (0 < count) as Hpos by (unfold count; lia).
  rewrite Hlen in Ht, Ha. rewrite Hsev in Hs, Ha.
  rewrite decide_False in Ha by lia.
  split; [exact Ht |]. split; [| split; [exact Hs |]; split; [| split]].
  - rewrite Hb, occurrences_app, occurrences_cons.
    pose proof (occurrences_nonneg (type v) vs).
    pose proof (occurrences_nonneg (type v) vs').
    destruct (decide (type v = type v)) as [_ | Hne]; [| congruence].
    rewrite decide_False by lia. f_equal. lia.
  - intros _. exact Ha.
  - intros lo hi Hlo Hhi Hbounds.
    destruct (int_truediv_between score count lo hi Hpos Hlo Hhi Hbounds)
      as (m & e & Hdiv & Hle & Hge).
    unfold overflowed. rewrite Ha, Hdiv. cbn [number_value].
    now repeat split.
  - rewrite Hl, list_lookup_fmap, list_lookup_middle by reflexivity.
    cbn [fmap option_fmap option_map]. unfold timeline_entry.
    now rewrite Hw.
Qed.

Lemma unlisted_type_default_severity_witness :
  severity_map __init__ !! type unlisted_violation = None /\
  severity_score
    (_calculate_stats __init__ (sample_log ++ unlisted_violation :: []))
  = 10 /\
  average_severity
    (_calculate_stats __init__ (sample_log ++ unlisted_violation :: []))
  = PyFloat (int_truediv 10 4).
Proof.
  split; [reflexivity |].
  destruct (unlisted_type_default_severity __init__ sample_log
              unlisted_violation [] eq_refl)
    as (_ & _ & Hs & Ha & _).
  split; [exact Hs |]. apply Ha. reflexivity.
Defined.

End Aggregator.

(** * Further properties of the alert dispatcher *)

Section DispatcherSessions.

Import alert_system.

Implicit Types (self : AlertSystem) (T : string) (calls : list Call).

Lemma session_cons self (c : Call) calls :
  session self (c :: calls) =
  (fst (session
          (fst (speak_alert self (call_type c) (call_check c) (call_set c)))
          calls),
   snd (speak_alert self (call_type c) (call_check c) (call_set c)) ++
   snd (session
          (fst (speak_alert self (call_type c) (call_check c) (call_set c)))
          calls)).
Proof.
  cbn [session].
  destruct (speak_alert self (call_type c) (call_check c) (call_set c))
    as [self' started].
  cbn [fst snd]. now destruct (session self' calls).
Qed.

(** What one call does, in either of its two outcomes. *)
Lemma speak_alert_outcome self T (now_check now_set : Z) :
  speak_alert self T now_check now_set = (self, []) \/
  (audio_enabled self = true /\ _can_alert self T now_check = true /\
   speak_alert self T now_check now_set =
   (set_last_alert_time self (<[T := now_set]> (last_alert_time self)), [T])).
Proof.
  unfold speak_alert.
  destruct (audio_enabled self); [| now left].
  destruct (_can_alert self T now_check); [right | left]; auto.
Qed.

Lemma last_time_other self T T' (t : Z) :
  T <> T' ->
  last_time (set_last_alert_time self (<[T := t]> (last_alert_time self))) T'
  = last_time self T'.
Proof.
  intros Hne. unfold last_time, dict_get. cbn [last_alert_time
    set_last_alert_time]. now rewrite lookup_insert_ne.
Qed.

Lemma last_time_same self T (t : Z) :
  last_time (set_last_alert_time self (<[T := t]> (last_alert_time self))) T
  = t.
Proof.
  unfold last_time, dict_get. cbn [last_alert_time set_last_alert_time].
  now rewrite lookup_insert_eq.
Qed.

(** X1: the cooldown is kept per type.  A session of calls none of
    which is for [T'] leaves the time recorded for [T'] as it was, so
    whether an alert for [T'] is due at a given time is not affected by
    alerts for other types. *)
Theorem session_other_types self calls T' :
  Forall (fun c => call_type c <> T') calls ->
  last_alert_time (fst (session self calls)) !! T'
  = last_alert_time self !! T' /\
  (forall now, _can_alert (fst (session self calls)) T' now
               = _can_alert self T' now).
Proof.
  intros HF. revert self.
  induction HF as [|c calls Hc HF IH]; intros self; [now split |].
  rewrite session_cons. cbn [fst].
  destruct (IH (fst (speak_alert self (call_type c) (call_check c)
                       (call_set c)))) as [IH1 IH2].
  assert (last_alert_time
            (fst (speak_alert self (call_type c) (call_check c) (call_set c)))
            !! T' = last_alert_time self !! T') as Hstep.
  { destruct (speak_alert_outcome self (call_type c) (call_check c)
                (call_set c)) as [-> | (_ & _ & ->)]; [reflexivity |].
    cbn [fst last_alert_time set_last_alert_time].
    now apply lookup_insert_ne. }
  split.
  - now rewrite IH1.
  - intros now. rewrite IH2. unfold _can_alert, dict_get.
    rewrite Hstep.
    destruct (speak_alert_outcome self (call_type c) (call_check c)
                (call_set c)) as [-> | (_ & _ & ->)]; reflexivity.
Qed.

Lemma session_other_types_witness :
  last_alert_time
    (fst (session (__init__ 5 true)
            [{| call_type := "FACE_DISAPPEARED";
                call_check := 1000; call_set := 1001 |};
             {| call_type := "MOUTH_MOVING";
                call_check := 1002; call_set := 1003 |}]))
    !! "OBJECT_DETECTED" = None.
Proof.
  apply (session_other_types (__init__ 5 true)
           [{| call_type := "FACE_DISAPPEARED";
               call_check := 1000; call_set := 1001 |};
            {| call_type := "MOUTH_MOVING";
               call_check := 1002; call_set := 1003 |}] "OBJECT_DETECTED").
  repeat constructor; discriminate.
Defined.

Lemma speak_alert_config self T (now_check now_set : Z) :
  alert_cooldown (fst (speak_alert self T now_check now_set))
  = alert_cooldown self /\
  audio_enabled (fst (speak_alert self T now_check now_set))
  = audio_enabled self /\
  alerts (fst (speak_alert self T now_check now_set)) = alerts self.
Proof.
  destruct (speak_alert_outcome self T now_check now_set)
    as [-> | (_ & _ & ->)]; repeat split.
Qed.

Lemma session_config self calls :
  alert_cooldown (fst (session self calls)) = alert_cooldown self /\
  audio_enabled (fst (session self calls)) = audio_enabled self /\
  alerts (fst (session self calls)) = alerts self.
Proof.
  revert self. induction calls as [|c calls IH]; intros self;
    [repeat split |].
  rewrite session_cons. cbn [fst].
  destruct (IH (fst (speak_alert self (call_type c) (call_check c)
                       (call_set c)))) as (-> & -> & ->).
  apply speak_alert_config.
Qed.

(** X2: a session starts units only for types that were requested, in
    the order of the requests and at most one per call, and it never
    changes the cooldown, the audio flag or the table of messages. *)
Theorem session_starts_requested self calls :
  snd (session self calls) `sublist_of` map call_type calls /\
  alert_cooldown (fst (session self calls)) = alert_cooldown self /\
  audio_enabled (fst (session self calls)) = audio_enabled self /\
  alerts (fst (session self calls)) = alerts self.
Proof.
  split; [| apply session_config].
  revert self. induction calls as [|c calls IH]; intros self;
    [constructor |].
  rewrite session_cons. cbn [snd map].
  destruct (speak_alert_outcome self (call_type c) (call_check c)
              (call_set c)) as [-> | (_ & _ & ->)]; cbn [fst snd app].
  - apply sublist_cons, IH.
  - apply sublist_skip, IH.
Qed.

Lemma speak_alert_time_monotone self T T' (now_check now_set : Z) :
  0 <= alert_cooldown self ->
  now_check <= now_set ->
  last_time self T' <= last_time (fst (speak_alert self T now_check now_set)) T'.
Proof.
  intros Hcd Hclock.
  destruct (speak_alert_outcome self T now_check now_set)
    as [-> | (_ & Hdue & ->)]; cbn [fst]; [lia |].
  destruct (decide (T = T')) as [<- | Hne].
  - rewrite last_time_same. unfold _can_alert in Hdue. cbn zeta in Hdue.
    apply Z.leb_le in Hdue. unfold last_time. lia.
  - rewrite last_time_other by assumption. lia.
Qed.

(** X3: with a cooldown that is not negative and a clock that does not
    run backwards between the two readings of a call, the time recorded
    for a type never decreases along a session. *)
Theorem session_times_monotone self calls T :
  0 <= alert_cooldown self ->
  Forall (fun c => call_check c <= call_set c) calls ->
  last_time self T <= last_time (fst (session self calls)) T.
Proof.
  intros Hcd HF. revert self Hcd.
  induction HF as [|c calls Hc HF IH]; intros self Hcd; [cbn; lia |].
  rewrite session_cons. cbn [fst].
  pose proof (speak_alert_time_monotone self (call_type c) T
                (call_check c) (call_set c) Hcd Hc) as Hstep.
  etransitivity; [exact Hstep |]. apply IH.
  now rewrite (proj1 (speak_alert_config self (call_type c) (call_check c)
                        (call_set c))).
Qed.

Lemma session_times_monotone_witness :
  last_time (__init__ 5 true) "FACE_DISAPPEARED" <=
  last_time
    (fst (session (__init__ 5 true)
            [{| call_type := "FACE_DISAPPEARED";
                call_check := 1000; call_set := 1001 |};
             {| call_type := "FACE_DISAPPEARED";
                call_check := 1010; call_set := 1011 |}]))
    "FACE_DISAPPEARED".
Proof.
  apply (session_times_monotone (__init__ 5 true)
           [{| call_type := "FACE_DISAPPEARED";
               call_check := 1000; call_set := 1001 |};
            {| call_type := "FACE_DISAPPEARED";
               call_check := 1010; call_set := 1011 |}] "FACE_DISAPPEARED").
  - cbn. lia.
  - repeat constructor; cbn; lia.
Defined.

Lemma started_for_app T (l l' : list string) :
  started_for T (l ++ l') = (started_for T l + started_for T l')%nat.
Proof. unfold started_for. now rewrite filter_app, length_app. Qed.

Lemma started_for_singleton T (t : string) :
  started_for T [t] = if decide (t = T) then 1%nat else 0%nat.
Proof.
  unfold started_for. rewrite filter_cons. now case_decide.
Qed.

(** Once a time inside the window is recorded for [T], no call of the
    window starts a unit for [T]. *)
Lemma session_window_silent self calls (lo : Z) T :
  lo <= last_time self T ->
  Forall (in_window lo (alert_cooldown self)) calls ->
  started_for T (snd (session self calls)) = 0%nat.
Proof.
  intros Hlast HF. revert self Hlast HF.
  induction calls as [|c calls IH]; intros self Hlast HF; [reflexivity |].
  apply Forall_cons in HF as [[Hset Hcheck] HF].
  rewrite session_cons. cbn [snd]. rewrite started_for_app.
  destruct (speak_alert_outcome self (call_type c) (call_check c)
              (call_set c)) as [E | (_ & Hdue & E)]; rewrite E; cbn [fst snd].
  - rewrite (IH self Hlast HF). reflexivity.
  - destruct (decide (call_type c = T)) as [Heq | Hne].
    + exfalso. rewrite Heq in Hdue. unfold _can_alert in Hdue.
      cbn zeta in Hdue. apply Z.leb_le in Hdue. unfold last_time in Hlast.
      lia.
    + rewrite started_for_singleton, decide_False by assumption.
      apply IH; [now rewrite last_time_other | exact HF].
Qed.

(** X4: in any session whose clock readings all lie in one window
    shorter than the cooldown, at most one unit is started for each
    type, however many calls are made. *)
Theorem session_window_at_most_one self calls (lo : Z) T :
  Forall (in_window lo (alert_cooldown self)) calls ->
  (started_for T (snd (session self calls)) <= 1)%nat.
Proof.
  intros HF. revert self HF.
  induction calls as [|c calls IH]; intros self HF; [cbn; lia |].
  apply Forall_cons in HF as [[Hset Hcheck] HF].
  rewrite session_cons. cbn [snd]. rewrite started_for_app.
  destruct (speak_alert_outcome self (call_type c) (call_check c)
              (call_set c)) as [E | (_ & Hdue & E)]; rewrite E; cbn [fst snd].
  - apply (IH self HF).
  - rewrite started_for_singleton.
    destruct (decide (call_type c = T)) as [Heq | Hne].
    + rewrite (session_window_silent _ calls lo T); [lia | | exact HF].
      rewrite Heq, last_time_same. exact Hset.
    + cbn [Nat.add]. apply IH. exact HF.
Qed.

Lemma session_window_at_most_one_witness :
  (started_for "FACE_DISAPPEARED"
     (snd (session (__init__ 5 true)
             [{| call_type := "FACE_DISAPPEARED";
                 call_check := 1000; call_set := 1001 |};
              {| call_type := "FACE_DISAPPEARED";
                 call_check := 1002; call_set := 1002 |};
              {| call_type := "FACE_DISAPPEARED";
                 call_check := 1004; call_set := 1004 |}])) <= 1)%nat.
Proof.
  apply (session_window_at_most_one (__init__ 5 true)
           [{| call_type := "FACE_DISAPPEARED";
               call_check := 1000; call_set := 1001 |};
            {| call_type := "FACE_DISAPPEARED";
               call_check := 1002; call_set := 1002 |};
            {| call_type := "FACE_DISAPPEARED";
               call_check := 1004; call_set := 1004 |}] 1000).
  repeat constructor; cbn; lia.
Defined.

End DispatcherSessions.

(** * Further properties of the risk fusion engine *)

Section CalculatorWindow.

Import cheating_probability.

Implicit Types (self : CheatingProbabilityCalculator) (r : Results).

Lemma lastn_app_long {A} (n : nat) (l l' : list A) :
  (n <= length l')%nat -> lastn n (l ++ l') = lastn n l'.
Proof.
  intros Hn. unfold lastn. rewrite length_app.
  rewrite drop_app_ge by lia. f_equal. lia.
Qed.

(** X5: the window is a FIFO of the frame scores: after any run of
    [update] calls it holds, oldest first, the last [window_size] items
    of what it held before followed by the scores of the frames fed; so
    once [window_size] frames or more have been fed nothing of the
    earlier content is left, and the window is the last [window_size]
    scores alone. *)
Theorem window_holds_last_scores self (frames : list Results)
    (scores : list Z) :
  (0 < window_size self)%nat ->
  (length (history self) <= window_size self)%nat ->
  Forall2 (fun r s => exists reasons,
             compute_frame_score self r = inr (s, reasons)) frames scores ->
  history (fst (run self frames))
  = lastn (window_size self) (history self ++ scores) /\
  ((window_size self <= length frames)%nat ->
   history (fst (run self frames)) = lastn (window_size self) scores).
Proof.
  intros Hn Hlen HF.
  pose proof (run_history self frames scores Hn Hlen HF) as Hh.
  split; [exact Hh |].
  intros Hlong. rewrite Hh. apply lastn_app_long.
  apply Forall2_length in HF. lia.
Qed.

Lemma window_holds_last_scores_witness :
  history (fst (run (__init__ 2)
                  [frame_all_signals; frame_calm; frame_face_absent]))
  = [0; 40].
Proof.
  refine (proj1 (window_holds_last_scores (__init__ 2)
                   [frame_all_signals; frame_calm; frame_face_absent]
                   [100; 0; 40] _ _ _)).
  - cbn. lia.
  - cbn. lia.
  - repeat constructor; eexists; vm_compute; reflexivity.
Defined.

(** X6: with the constructor's weights the frame score and the
    classifier agree: a frame is given a violation label exactly when
    its score is at least 20 and none exactly when it is at most 15;
    the reasons are empty exactly when the score is 0; and the score 15
    is the frame whose only signal is a gaze away from the centre, which
    is scored and explained but never labelled. *)
Theorem score_and_label_agree self r (score : Z) (reasons : list string) :
  weights self = default_weights ->
  compute_frame_score self r = inr (score, reasons) ->
  (main.violation_type r = None <-> score <= 15) /\
  (is_Some (main.violation_type r) <-> 20 <= score) /\
  (reasons = [] <-> score = 0) /\
  (score = 15 <->
   main.violation_type r = None /\ gaze_direction r <> "Center").
Proof.
  intros Hw Hc.
  destruct default_weights_lookup as (Lf & Lm & Lo & Lt & Lg).
  rewrite <- Hw in Lf, Lm, Lo, Lt, Lg.
  rewrite (compute_frame_score_sum self r _ _ _ _ _ Lf Lm Lo Lt Lg) in Hc.
  injection Hc as <- <-.
  unfold main.violation_type, gaze_away, contributes, explains.
  destruct (String.eqb_spec (gaze_direction r) "Center") as [Hg | Hg];
    destruct (face_present r), (multiple_faces r), (objects_detected r),
      (mouth_moving r); cbn;
    repeat split; intros; destruct_and?;
    try discriminate; try lia; try congruence; try (eexists; reflexivity);
    try match goal with H : is_Some None |- _ => destruct H; discriminate end.
Qed.

Lemma score_and_label_agree_witness :
  main.violation_type frame_calm = None <-> 0 <= 15.
Proof.
  apply (score_and_label_agree (__init__ 30) frame_calm 0 []);
    reflexivity.
Defined.

Lemma sum_le_nonzero (l : list Z) :
  Forall percent l ->
  sum l <= 100 * Z.of_nat (length (filter (fun x => x <> 0) l)).
Proof.
  unfold sum, percent.
  induction 1 as [|x l Hx _ IH]; [cbn; lia |].
  rewrite filter_cons. cbn [fold_right].
  case_decide; cbn [length]; lia.
Qed.

(** X7: the rolling average smooths single frames away: whenever
    [update] returns an average of at least 70, at least 70 percent of
    the scores in the window are non-zero (21 of 30 for a full window of
    the size [main] uses). *)
Theorem high_average_needs_many_frames self r (avg : Z)
    (reasons : list string) :
  valid self ->
  snd (update self r) = inr (avg, reasons) ->
  70 <= avg ->
  70 * Z.of_nat (length (history (fst (update self r)))) <=
  100 * Z.of_nat (length (filter (fun x => x <> 0)
                            (history (fst (update self r))))).
Proof.
  intros Hv Hout Havg.
  destruct (update_valid self r Hv) as [(_ & _ & _ & Hall) _].
  pose proof Hv as (Hw & Hn & _ & _).
  destruct (compute_frame_score_default self r Hw)
    as (score & rs & Hc & _).
  pose proof (update_returns self r score rs Hn Hc) as Hu. cbn zeta in Hu.
  rewrite Hu in Hout, Hall |- *. cbn [fst snd history set_history] in *.
  injection Hout as <- _.
  set (h' := deque_append (window_size self) (history self) score) in *.
  pose proof (sum_le_nonzero h' Hall) as Hnz.
  pose proof (sum_percent h' Hall) as [Hpos _].
  destruct (decide (length h' = 0%nat)) as [E | Hlen].
  { rewrite E. cbn. lia. }
  pose proof (quot_mean_bounds (sum h') (Z.of_nat (length h')) Hpos
                ltac:(lia)) as [Hlo _].
  nia.
Qed.

Lemma high_average_needs_many_frames_witness :
  70 * Z.of_nat (length (history
                   (fst (update (__init__ 30) frame_all_signals)))) <=
  100 * Z.of_nat (length (filter (fun x => x <> 0)
                            (history
                               (fst (update (__init__ 30)
                                       frame_all_signals))))).
Proof.
  apply (high_average_needs_many_frames (__init__ 30) frame_all_signals
           100 ["Face not visible"; "Multiple faces detected";
                "Suspicious object detected"; "Mouth movement detected";
                "Looking away from screen"]).
  - repeat split; [cbn; lia | cbn; lia | constructor].
  - reflexivity.
  - lia.
Defined.

End CalculatorWindow.

(** * Further properties of the report aggregator *)

Section AggregatorAlgebra.

Import report_generator.

Implicit Types (self : ReportGenerator) (vs : list Violation).

Lemma sum_Permutation (l l' : list Z) : l ≡ₚ l' -> sum l = sum l'.
Proof.
  unfold sum. induction 1; cbn [fold_right]; lia.
Qed.

Lemma values_sum_empty : values_sum ∅ = 0.
Proof. unfold values_sum. now rewrite map_to_list_empty. Qed.

Lemma values_sum_insert_fresh (m : gmap string Z) (k : string) (x : Z) :
  m !! k = None -> values_sum (<[k := x]> m) = x + values_sum m.
Proof.
  intros Hk. unfold values_sum.
  rewrite (sum_Permutation _ (map snd ((k, x) :: map_to_list m))).
  - reflexivity.
  - apply Permutation_map, map_to_list_insert, Hk.
Qed.

(** Counting one more occurrence of [k] adds one to the sum. *)
Lemma values_sum_count (m : gmap string Z) (k : string) :
  values_sum (<[k := dict_get m k 0 + 1]> m) = values_sum m + 1.
Proof.
  unfold dict_get. destruct (m !! k) as [c |] eqn:Hk; cbn [default].
  - rewrite <- (insert_delete_id m k c Hk) at 2.
    rewrite <- insert_delete_eq.
    rewrite !values_sum_insert_fresh by apply lookup_delete_eq.
    unfold id. lia.
  - rewrite values_sum_insert_fresh by assumption. lia.
Qed.

Lemma loop_values_sum self vs (st : Stats) :
  values_sum (by_type (fold_left (loop_body self) vs st)) =
  values_sum (by_type st) + Z.of_nat (length vs).
Proof.
  revert st. induction vs as [|v vs IH]; intros st; [cbn; lia |].
  cbn [fold_left]. rewrite IH. cbn [by_type loop_body length].
  rewrite values_sum_count. lia.
Qed.

(** X8: every violation is counted under exactly one type: the counts
    of [by_type] add up to [total]. *)
Theorem by_type_counts_add_up self vs :
  values_sum (by_type (_calculate_stats self vs))
  = total (_calculate_stats self vs).
Proof.
  destruct (calculate_stats_fields self vs) as (-> & -> & _).
  rewrite loop_values_sum. cbn [by_type]. rewrite values_sum_empty. lia.
Qed.

Lemma occurrences_Permutation (t : string) vs vs' :
  vs ≡ₚ vs' -> occurrences t vs = occurrences t vs'.
Proof. intros H. unfold occurrences. now rewrite H. Qed.

Lemma severity_total_Permutation self vs vs' :
  vs ≡ₚ vs' -> severity_total self vs = severity_total self vs'.
Proof.
  intros H. unfold severity_total. apply sum_Permutation.
  now apply Permutation_map.
Qed.

(** X9: what does not depend on the order of the log.  Two logs that
    are permutations of each other give the same [total],
    [severity_score] and [average_severity], and the same count, or
    none, for every type in [by_type]; each timeline follows the order
    of its own log, so the two are permutations of each other. *)
Theorem stats_order_independent self vs vs' :
  vs ≡ₚ vs' ->
  total (_calculate_stats self vs) = total (_calculate_stats self vs') /\
  (forall t : string,
     by_type (_calculate_stats self vs) !! t
     = by_type (_calculate_stats self vs') !! t) /\
  severity_score (_calculate_stats self vs)
  = severity_score (_calculate_stats self vs') /\
  average_severity (_calculate_stats self vs)
  = average_severity (_calculate_stats self vs') /\
  timeline (_calculate_stats self vs) = map (timeline_entry self) vs /\
  timeline (_calculate_stats self vs') = map (timeline_entry self) vs' /\
  timeline (_calculate_stats self vs) ≡ₚ timeline (_calculate_stats self vs').
Proof.
  intros HP.
  destruct (calculate_stats_fields self vs) as (Ht & _ & Hs & Hl & Ha).
  destruct (calculate_stats_fields self vs') as (Ht' & _ & Hs' & Hl' & Ha').
  assert (length vs = length vs') as Hlen by now apply Permutation_length.
  pose proof (severity_total_Permutation self vs vs' HP) as Hsev.
  repeat split.
  - now rewrite Ht, Ht', Hlen.
  - intros t. rewrite !calculate_stats_by_type.
    now rewrite (occurrences_Permutation t vs vs' HP).
  - now rewrite Hs, Hs'.
  - now rewrite Ha, Ha', Hlen, Hsev.
  - exact Hl.
  - exact Hl'.
  - rewrite Hl, Hl'. now apply Permutation_map.
Qed.

Lemma stats_order_independent_witness :
  average_severity
    (_calculate_stats __init__ (unlisted_violation :: sample_log))
  = average_severity
      (_calculate_stats __init__ (sample_log ++ [unlisted_violation])).
Proof.
  apply (stats_order_independent __init__
           (unlisted_violation :: sample_log)
           (sample_log ++ [unlisted_violation])).
  apply Permutation_cons_append.
Defined.

Lemma by_type_default self vs (t : string) :
  dict_get (by_type (_calculate_stats self vs)) t 0 = occurrences t vs.
Proof.
  unfold dict_get. rewrite calculate_stats_by_type.
  case_decide as H; cbn [default]; [now rewrite H | reflexivity].
Qed.

(** X10: the statistics of a log cut in two add up: [total],
    [severity_score] and every count of [by_type] are the sums of those
    of the two parts, and the timeline is the two timelines one after
    the other. *)
Theorem stats_of_concatenation self vs vs' :
  total (_calculate_stats self (vs ++ vs'))
  = total (_calculate_stats self vs) + total (_calculate_stats self vs') /\
  severity_score (_calculate_stats self (vs ++ vs'))
  = severity_score (_calculate_stats self vs)
    + severity_score (_calculate_stats self vs') /\
  (forall t : string,
     dict_get (by_type (_calculate_stats self (vs ++ vs'))) t 0
     = dict_get (by_type (_calculate_stats self vs)) t 0
       + dict_get (by_type (_calculate_stats self vs')) t 0) /\
  timeline (_calculate_stats self (vs ++ vs'))
  = timeline (_calculate_stats self vs)
    ++ timeline (_calculate_stats self vs').
Proof.
  destruct (calculate_stats_fields self vs) as (Ht & _ & Hs & Hl & _).
  destruct (calculate_stats_fields self vs') as (Ht' & _ & Hs' & Hl' & _).
  destruct (calculate_stats_fields self (vs ++ vs'))
    as (Ht'' & _ & Hs'' & Hl'' & _).
  repeat split.
  - rewrite Ht, Ht', Ht'', length_app. lia.
  - now rewrite Hs, Hs', Hs'', severity_total_app.
  - intros t. now rewrite !by_type_default, occurrences_app.
  - now rewrite Hl, Hl', Hl'', map_app.
Qed.

Lemma default_severity_bounds (t : string) :
  1 <= severity_weight __init__ t <= 5.
Proof.
  unfold severity_weight, dict_get, __init__, default_severity_map.
  cbn [severity_map].
  rewrite !lookup_insert, lookup_empty.
  repeat case_decide; cbn; lia.
Qed.

Lemma default_severity_total_bounds vs :
  Z.of_nat (length vs) <= severity_total __init__ vs
  <= 5 * Z.of_nat (length vs).
Proof.
  induction vs as [|v vs IH]; [cbn; lia |].
  rewrite severity_total_cons.
  pose proof (default_severity_bounds (type v)).
  cbn [length]. lia.
Qed.

(** X11: with the severity map of the constructor every violation
    weighs between 1 and 5, the unlisted types included, so for a log
    that is not empty [severity_score] lies between [total] and five
    times [total] and [average_severity] is a finite float between 1
    and 5: the division never leaves the range of floats. *)
Theorem default_average_severity_bounds vs :
  vs <> [] ->
  total (_calculate_stats __init__ vs)
  <= severity_score (_calculate_stats __init__ vs)
  <= 5 * total (_calculate_stats __init__ vs) /\
  (exists (m : positive) (e : Z),
     average_severity (_calculate_stats __init__ vs)
     = PyFloat (S754_finite false m e)) /\
  (1 <= number_value (average_severity (_calculate_stats __init__ vs)))%Q /\
  (number_value (average_severity (_calculate_stats __init__ vs)) <= 5)%Q.
Proof.
  intros Hne.
  destruct (calculate_stats_fields __init__ vs) as (Ht & _ & Hs & _ & _).
  pose proof (default_severity_total_bounds vs) as Hb.
  rewrite Ht, Hs. split; [exact Hb |].
  destruct (average_severity_between __init__ vs 1 5 Hne
              ltac:(lia) ltac:(lia) ltac:(lia))
    as (m & e & Hm & Hlo & Hhi).
  split; [now exists m, e |]. split; assumption.
Qed.

Lemma default_average_severity_bounds_witness :
  sample_log <> [] /\
  (1 <= number_value
          (average_severity (_calculate_stats __init__ sample_log)))%Q.
Proof.
  split; [discriminate |].
  apply (default_average_severity_bounds sample_log). discriminate.
Defined.

End AggregatorAlgebra.

(** * Properties across the modules *)

Section Labels.

(** X12: the four labels the classifier can return are the only types
    [main] ever dispatches and logs, and each of them has a risk weight,
    an alert message and a severity weight; the other entries of these
    tables, GAZE_AWAY among them, are never returned by the classifier. *)
Theorem labels_are_listed (r : Results) (t : string) :
  main.violation_type r = Some t ->
  (t = "FACE_DISAPPEARED" \/ t = "MULTIPLE_FACES" \/
   t = "OBJECT_DETECTED" \/ t = "MOUTH_MOVING") /\
  is_Some (cheating_probability.default_weights !! t) /\
  is_Some (alert_system.alert_messages !! t) /\
  is_Some (report_generator.default_severity_map !! t) /\
  t <> "GAZE_AWAY" /\ t <> "FACE_REAPPEARED" /\ t <> "SPEECH_VIOLATION" /\
  t <> "VOICE_DETECTED" /\ t <> "AUDIO_DETECTED".
Proof.
  unfold main.violation_type.
  destruct (face_present r), (multiple_faces r), (objects_detected r),
    (mouth_moving r); cbn; intros H; try discriminate;
    injection H as <-;
    (split; [tauto |]);
    repeat split; try discriminate; eexists; vm_compute; reflexivity.
Qed.

Lemma labels_are_listed_witness :
  is_Some (alert_system.alert_messages !! "FACE_DISAPPEARED").
Proof.
  apply (labels_are_listed frame_face_absent "FACE_DISAPPEARED").
  reflexivity.
Defined.

End Labels.

(** * Properties of the frame loop *)

Section FrameLoop.

Import main_loop.

Implicit Types (o : Objects) (f : Frame) (frames : list Frame).

Lemma omap_cons_list {A B} (g : A -> option B) (x : A) (l : list A) :
  omap g (x :: l) = option_list (g x) ++ omap g l.
Proof. cbn [omap list_omap]. now destruct (g x). Qed.

Lemma session_app (d : alert_system.AlertSystem)
    (calls calls' : list alert_system.Call) :
  alert_system.session d (calls ++ calls') =
  (fst (alert_system.session (fst (alert_system.session d calls)) calls'),
   snd (alert_system.session d calls) ++
   snd (alert_system.session (fst (alert_system.session d calls)) calls')).
Proof.
  revert d. induction calls as [|c calls IH]; intros d.
  - cbn. now destruct (alert_system.session d calls').
  - rewrite <- app_comm_cons, !session_cons, IH. cbn [fst snd].
    now rewrite app_assoc.
Qed.

Lemma omap_thread_start (l : list string) :
  omap start_of (map thread_start l) = l /\
  omap record_of (map thread_start l) = [] /\
  omap capture_of (map thread_start l) = [] /\
  omap event_of (map thread_start l) = [].
Proof.
  induction l as [|t l (IH1 & IH2 & IH3 & IH4)]; [repeat split |].
  repeat split; [| assumption ..].
  change (t :: omap start_of (map thread_start l) = t :: l).
  now rewrite IH1.
Qed.

(** One iteration on a calculator that cannot raise: the objects it
    leaves and its calls, read through the four projections. *)
Lemma loop_body_valid o f :
  valid (cheating_calculator o) ->
  exists (avg : Z) (reasons : list string) (effects : list Effect),
    cheating_probability.update (cheating_calculator o) (results f)
    = (fst (cheating_probability.update (cheating_calculator o) (results f)),
       inr (avg, reasons)) /\
    loop_body o f =
    ({| cheating_calculator :=
          fst (cheating_probability.update (cheating_calculator o)
                 (results f));
        dispatcher :=
          fst (alert_system.session (dispatcher o)
                 (option_list (call_of f))) |},
     inr effects) /\
    omap start_of effects
    = snd (alert_system.session (dispatcher o) (option_list (call_of f))) /\
    omap record_of effects
    = option_list (expected_record f (inr (avg, reasons))) /\
    omap capture_of effects
    = option_list ((fun t => (t, violation_timestamp f))
                     <$> main.violation_type (results f)) /\
    omap event_of effects
    = option_list (expected_event f (inr (avg, reasons))).
Proof.
  intros Hv.
  destruct (update_valid (cheating_calculator o) (results f) Hv)
    as [_ (avg & reasons & Hout & _)].
  exists avg, reasons. unfold loop_body, call_of, expected_record,
    expected_event.
  destruct (cheating_probability.update (cheating_calculator o) (results f))
    as [calculator' out] eqn:Hu.
  cbn [fst snd] in Hout |- *. subst out.
  destruct (main.violation_type (results f)) as [t |].
  - cbn [option_list option_rect alert_system.session
         alert_system.call_type alert_system.call_check
         alert_system.call_set fmap option_fmap option_map].
    destruct (alert_system.speak_alert (dispatcher o) t (now_check f)
                (now_set f)) as [dispatcher' started].
    cbn [fst snd]. eexists. split; [reflexivity |].
    split; [reflexivity |].
    destruct (omap_thread_start started) as (S1 & S2 & S3 & S4).
    rewrite !omap_app, S1, S2, S3, S4, app_nil_r.
    destruct (70 <=? avg); repeat split;
      cbn [omap list_omap start_of app]; now rewrite ?app_nil_r.
  - cbn [option_list option_rect alert_system.session fst snd fmap
         option_fmap option_map].
    eexists. split; [reflexivity |]. split; [reflexivity |].
    destruct (70 <=? avg); repeat split.
Qed.

Lemma run_cons_valid o f frames :
  valid (cheating_calculator o) ->
  exists effects,
    snd (loop_body o f) = inr effects /\
    run o (f :: frames) =
    (fst (fst (run (fst (loop_body o f)) frames)),
     effects ++ snd (fst (run (fst (loop_body o f)) frames)),
     snd (run (fst (loop_body o f)) frames)).
Proof.
  intros Hv.
  destruct (loop_body_valid o f Hv) as (avg & rs & effects & _ & Hl & _).
  exists effects. rewrite Hl. cbn [fst snd run]. split; [reflexivity |].
  rewrite Hl.
  now destruct (run _ frames) as [[o'' effects'] err].
Qed.

(** The whole loop on a calculator that cannot raise. *)
Lemma run_projections o frames :
  valid (cheating_calculator o) ->
  snd (run o frames) = None /\
  cheating_calculator (fst (fst (run o frames)))
  = fst (cheating_probability.run (cheating_calculator o)
           (map results frames)) /\
  dispatcher (fst (fst (run o frames)))
  = fst (alert_system.session (dispatcher o) (omap call_of frames)) /\
  omap start_of (snd (fst (run o frames)))
  = snd (alert_system.session (dispatcher o) (omap call_of frames)) /\
  omap record_of (snd (fst (run o frames)))
  = omap (uncurry expected_record)
      (zip frames
         (snd (cheating_probability.run (cheating_calculator o)
                 (map results frames)))) /\
  omap capture_of (snd (fst (run o frames)))
  = omap (fun f => (fun t => (t, violation_timestamp f))
                     <$> main.violation_type (results f)) frames /\
  omap event_of (snd (fst (run o frames)))
  = omap (uncurry expected_event)
      (zip frames
         (snd (cheating_probability.run (cheating_calculator o)
                 (map results frames)))).
Proof.
  intros Hv. revert o Hv.
  induction frames as [|f frames IH]; intros o Hv; [repeat split |].
  destruct (run_cons_valid o f frames Hv) as (effects & Heff & ->).
  destruct (loop_body_valid o f Hv)
    as (avg & rs & effects' & Hu & Hl & P1 & P2 & P3 & P4).
  rewrite Hl in Heff |- *. cbn [fst snd] in Heff |- *.
  injection Heff as <-.
  match goal with
  | |- context [run ?o' frames] => set (o1 := o') in *
  end.
  assert (valid (cheating_calculator o1)) as Hv1
    by (apply update_valid; exact Hv).
  destruct (IH o1 Hv1) as (I0 & I1 & I2 & I3 & I4 & I5 & I6).
  cbn [map]. rewrite run_cons, Hu. cbn [fst snd zip zip_with].
  rewrite !omap_app, !omap_cons_list, session_app.
  rewrite P1, P2, P3, P4, I3, I4, I5, I6. cbn [uncurry fst snd].
  repeat split; assumption.
Qed.

(** X13: on the objects [main] builds, whatever the state of the
    dispatcher (audio disabled, type cooling down), the loop raises
    nothing and feeds every frame to the calculator; it captures and
    logs one violation for each labelled frame and for no other, in
    frame order, with the label, the rolling average [update] returned
    for that frame and that frame's reasons; and it logs a
    HIGH_CHEATING_PROBABILITY event for exactly the frames whose rolling
    average is at least 70, labelled or not. *)
Theorem loop_records_every_violation o frames :
  valid (cheating_calculator o) ->
  snd (run o frames) = None /\
  cheating_calculator (fst (fst (run o frames)))
  = fst (cheating_probability.run (cheating_calculator o)
           (map results frames)) /\
  omap record_of (snd (fst (run o frames)))
  = omap (uncurry expected_record)
      (zip frames
         (snd (cheating_probability.run (cheating_calculator o)
                 (map results frames)))) /\
  omap capture_of (snd (fst (run o frames)))
  = omap (fun f => (fun t => (t, violation_timestamp f))
                     <$> main.violation_type (results f)) frames /\
  omap event_of (snd (fst (run o frames)))
  = omap (uncurry expected_event)
      (zip frames
         (snd (cheating_probability.run (cheating_calculator o)
                 (map results frames)))).
Proof.
  intros Hv.
  destruct (run_projections o frames Hv) as (H0 & H1 & _ & _ & H4 & H5 & H6).
  repeat split; assumption.
Qed.

Lemma loop_records_every_violation_witness :
  omap record_of
    (snd (fst (run (sample_objects false)
                 [sample_frame false 1000; sample_frame true 1001;
                  sample_frame false 1002])))
  = [("FACE_DISAPPEARED", "20240506_090000_000000", 40,
      ["Face not visible"]);
     ("FACE_DISAPPEARED", "20240506_090000_000000", 26,
      ["Face not visible"])].
Proof.
  refine (eq_trans
            (proj1 (proj2 (proj2
               (loop_records_every_violation (sample_objects false)
                  [sample_frame false 1000; sample_frame true 1001;
                   sample_frame false 1002] _)))) _).
  - repeat split; [cbn; lia | cbn; lia | constructor].
  - vm_compute. reflexivity.
Defined.

(** X14: the alerts of the loop are a dispatcher session over the
    labelled frames: the units started and the dispatcher left at the
    end are those of [speak_alert] called, in frame order, once for each
    labelled frame with its label and clock readings, and never for an
    unlabelled frame; with audio disabled no unit is started at all. *)
Theorem loop_alerts_are_a_session o frames :
  valid (cheating_calculator o) ->
  omap start_of (snd (fst (run o frames)))
  = snd (alert_system.session (dispatcher o) (omap call_of frames)) /\
  dispatcher (fst (fst (run o frames)))
  = fst (alert_system.session (dispatcher o) (omap call_of frames)) /\
  (alert_system.audio_enabled (dispatcher o) = false ->
   omap start_of (snd (fst (run o frames))) = []).
Proof.
  intros Hv.
  destruct (run_projections o frames Hv) as (_ & _ & H2 & H3 & _).
  repeat split; try assumption.
  intros Hoff. rewrite H3. now rewrite session_disabled.
Qed.

Lemma loop_alerts_are_a_session_witness :
  omap start_of
    (snd (fst (run (sample_objects true)
                 [sample_frame false 1000; sample_frame true 1001;
                  sample_frame false 1002; sample_frame false 1006])))
  = ["FACE_DISAPPEARED"; "FACE_DISAPPEARED"].
Proof.
  refine (eq_trans
            (proj1 (loop_alerts_are_a_session (sample_objects true)
                      [sample_frame false 1000; sample_frame true 1001;
                       sample_frame false 1002; sample_frame false 1006] _))
            _).
  - repeat split; [cbn; lia | cbn; lia | constructor].
  - vm_compute. reflexivity.
Defined.

End FrameLoop.

(** * Properties of the charts and of the document *)

Section ReportCharts.

Import report_generator report_documents.

Implicit Types (d : list (string * Z)) (vs : list Violation).

(** *** The insertion-ordered dict *)

Lemma od_get_to_map d (k : string) (dflt : Z) :
  od_get d k dflt = dict_get (list_to_map d : gmap string Z) k dflt.
Proof.
  unfold dict_get. induction d as [|[k' v] d IH]; [reflexivity |].
  cbn [od_get]. rewrite list_to_map_cons. case_decide as Hk.
  - subst. now rewrite lookup_insert_eq.
  - now rewrite lookup_insert_ne.
Qed.

Lemma od_set_to_map d (k : string) (v : Z) :
  (list_to_map (od_set d k v) : gmap string Z) = <[k := v]> (list_to_map d).
Proof.
  induction d as [|[k' v'] d IH]; [reflexivity |].
  cbn [od_set]. case_decide as Hk.
  - subst. rewrite !list_to_map_cons. now rewrite insert_insert_eq.
  - rewrite !list_to_map_cons, IH. now apply insert_insert_ne.
Qed.

Lemma od_set_keys d (k : string) (v : Z) :
  map fst (od_set d k v) =
  if decide (k ∈ map fst d) then map fst d else map fst d ++ [k].
Proof.
  induction d as [|[k' v'] d IH].
  - cbn. rewrite decide_False; [reflexivity | apply not_elem_of_nil].
  - cbn [od_set map fst]. destruct (decide (k' = k)) as [-> | Hne].
    + cbn [map fst]. rewrite decide_True; [reflexivity | left].
    + cbn [map fst]. rewrite IH.
      destruct (decide (k ∈ map fst d)) as [Hin | Hnin].
      * rewrite decide_True; [reflexivity | now right].
      * rewrite decide_False; [reflexivity |].
        intros Hin. apply elem_of_cons in Hin as [-> | Hin]; tauto.
Qed.

Lemma od_set_NoDup d (k : string) (v : Z) :
  NoDup (map fst d) -> NoDup (map fst (od_set d k v)).
Proof.
  intros Hd. rewrite od_set_keys. case_decide as Hin; [assumption |].
  apply NoDup_app. split; [assumption |]. split.
  - intros x Hx Hk. apply list_elem_of_singleton in Hk. now subst.
  - apply NoDup_singleton.
Qed.

(** *** The counting loop of the heatmap *)

Lemma heatmap_loop self vs d (st : Stats) :
  (list_to_map d : gmap string Z) = by_type st ->
  NoDup (map fst d) ->
  (list_to_map
     (fold_left (fun counts v => od_set counts (type v)
                                   (od_get counts (type v) 0 + 1)) vs d)
   : gmap string Z)
  = by_type (fold_left (loop_body self) vs st) /\
  NoDup (map fst
           (fold_left (fun counts v => od_set counts (type v)
                                         (od_get counts (type v) 0 + 1))
              vs d)).
Proof.
  revert d st. induction vs as [|v vs IH]; intros d st Hd Hnd;
    [now split |].
  cbn [fold_left]. apply IH.
  - rewrite od_set_to_map, od_get_to_map, Hd. reflexivity.
  - now apply od_set_NoDup.
Qed.

Lemma heatmap_counts_to_map self vs :
  (list_to_map (heatmap_counts vs) : gmap string Z)
  = by_type (_calculate_stats self vs) /\
  NoDup (map fst (heatmap_counts vs)).
Proof.
  destruct (calculate_stats_fields self vs) as (_ & -> & _).
  apply heatmap_loop; [reflexivity | constructor].
Qed.

(** *** The stable sort *)

Lemma insert_by_count_Permutation (x : string * Z) d :
  insert_by_count x d ≡ₚ x :: d.
Proof.
  induction d as [|y d IH]; [reflexivity |].
  cbn [insert_by_count]. destruct (snd x <=? snd y); [reflexivity |].
  rewrite IH. apply Permutation_swap.
Qed.

Lemma sorted_by_count_Permutation d : sorted_by_count d ≡ₚ d.
Proof.
  induction d as [|x d IH]; [reflexivity |].
  cbn [sorted_by_count fold_right]. fold (sorted_by_count d).
  now rewrite insert_by_count_Permutation, IH.
Qed.

Lemma insert_by_count_ascending (x : string * Z) d :
  ascending d -> ascending (insert_by_count x d).
Proof.
  unfold ascending. induction 1 as [|y d Hd IH Hy].
  - repeat constructor.
  - cbn [insert_by_count]. destruct (Z.leb_spec (snd x) (snd y)) as [Hle | Hgt].
    + constructor; [now constructor |].
      constructor; [exact Hle |].
      eapply Forall_impl; [exact Hy |]. cbn. intros z Hz. lia.
    + constructor; [exact IH |].
      rewrite insert_by_count_Permutation.
      constructor; [lia | exact Hy].
Qed.

Lemma sorted_by_count_ascending d : ascending (sorted_by_count d).
Proof.
  induction d as [|x d IH]; [constructor |].
  cbn [sorted_by_count fold_right]. now apply insert_by_count_ascending.
Qed.

Lemma insert_by_count_filter (c : Z) (x : string * Z) d :
  filter (fun b => snd b = c) (insert_by_count x d)
  = filter (fun b => snd b = c) (x :: d).
Proof.
  induction d as [|y d IH]; [reflexivity |].
  cbn [insert_by_count]. destruct (Z.leb_spec (snd x) (snd y)) as [Hle | Hgt];
    [reflexivity |].
  rewrite (filter_cons _ y), IH, !(filter_cons _ x), !(filter_cons _ y).
  repeat case_decide; try reflexivity; lia.
Qed.

Lemma sorted_by_count_filter (c : Z) d :
  filter (fun b => snd b = c) (sorted_by_count d)
  = filter (fun b => snd b = c) d.
Proof.
  induction d as [|x d IH]; [reflexivity |].
  cbn [sorted_by_count fold_right]. fold (sorted_by_count d).
  rewrite insert_by_count_filter, !(filter_cons _ x), IH. reflexivity.
Qed.

(** X15: the bars of the heatmap are the entries of [by_type]: one bar
    for each type of the log, with the count the statistics give it,
    drawn in ascending order of the counts. *)
Theorem heatmap_bars_are_by_type self vs :
  ascending (heatmap_bars vs) /\
  NoDup (map fst (heatmap_bars vs)) /\
  (list_to_map (heatmap_bars vs) : gmap string Z)
  = by_type (_calculate_stats self vs) /\
  (forall (t : string) (n : Z),
     (t, n) ∈ heatmap_bars vs <->
     by_type (_calculate_stats self vs) !! t = Some n).
Proof.
  destruct (heatmap_counts_to_map self vs) as [Hmap Hnd].
  pose proof (sorted_by_count_Permutation (heatmap_counts vs)) as HP.
  assert (NoDup (map fst (heatmap_bars vs))) as Hnd'.
  { assert (map fst (heatmap_bars vs) ≡ₚ map fst (heatmap_counts vs))
      as HPk by now apply Permutation_map.
    rewrite HPk. exact Hnd. }
  assert ((list_to_map (heatmap_bars vs) : gmap string Z)
          = by_type (_calculate_stats self vs)) as Hmap'.
  { rewrite <- Hmap. unfold heatmap_bars.
    apply list_to_map_proper; [exact Hnd' | exact HP]. }
  split; [apply sorted_by_count_ascending |].
  split; [exact Hnd' |]. split; [exact Hmap' |].
  intros t n. rewrite <- Hmap'. now apply elem_of_list_to_map.
Qed.

Lemma first_seen_loop vs d :
  map fst (fold_left (fun counts v => od_set counts (type v)
                                        (od_get counts (type v) 0 + 1))
             vs d)
  = fold_left (fun seen t => if decide (t ∈ seen) then seen else seen ++ [t])
      (map type vs) (map fst d).
Proof.
  revert d. induction vs as [|v vs IH]; intros d; [reflexivity |].
  cbn [fold_left map]. now rewrite IH, od_set_keys.
Qed.

(** X16: the order of the bars is fixed by the log: among types of
    equal count the bars keep the order in which the types first occur
    in the log, which is the order of [counts]. *)
Theorem heatmap_ties_in_first_seen_order vs (c : Z) :
  map fst (heatmap_counts vs) = first_seen (map type vs) /\
  filter (fun b => snd b = c) (heatmap_bars vs)
  = filter (fun b => snd b = c) (heatmap_counts vs).
Proof.
  split.
  - unfold heatmap_counts, first_seen. now rewrite first_seen_loop.
  - apply sorted_by_count_filter.
Qed.

(** X25: with the severity map of the constructor the colour level of
    every bar, [severity / 5], lies between 1/5 and 1, inside the range
    of the colour map, whatever types the log holds; and there is one
    colour for each bar. *)
Theorem heatmap_colors_in_range (self : Instance) vs :
  generator self = __init__ ->
  Forall (fun q => (1 # 5 <= q)%Q /\ (q <= 1)%Q) (heatmap_colors self vs) /\
  length (heatmap_colors self vs) = length (heatmap_bars vs).
Proof.
  intros Hg. unfold heatmap_colors. split; [| apply length_map].
  apply Forall_map, Forall_forall. intros bar _. cbn zeta. rewrite Hg.
  pose proof (default_severity_bounds (fst bar)) as Hb.
  unfold severity_weight in Hb.
  set (severity := dict_get (severity_map __init__) (fst bar) 1) in *.
  split.
  - apply Qle_shift_div_l; [reflexivity |].
    unfold Qle. cbn. lia.
  - apply Qle_shift_div_r; [reflexivity |].
    unfold Qle. cbn. lia.
Qed.

Lemma heatmap_colors_in_range_witness :
  length (heatmap_colors sample_instance sample_log)
  = length (heatmap_bars sample_log).
Proof.
  apply (heatmap_colors_in_range sample_instance sample_log). reflexivity.
Defined.

(** *** The timeline *)

Lemma forallb_false {A} (g : A -> bool) (l : list A) :
  forallb g l = false <-> exists x, x ∈ l /\ g x = false.
Proof.
  induction l as [|x l IH]; cbn [forallb].
  - split; [discriminate |]. intros (x & Hx & _). now apply elem_of_nil in Hx.
  - rewrite andb_false_iff, IH. split.
    + intros [Hx | (y & Hy & Hg)].
      * exists x. split; [left | assumption].
      * exists y. split; [now right | assumption].
    + intros (y & Hy & Hg). apply elem_of_cons in Hy as [-> | Hy];
        [now left | right; eauto].
Qed.

(** X17: the timeline chart is produced exactly when the log is not
    empty, every time stamp of the log parses and the plot succeeds: a
    single time stamp that does not parse costs the whole chart.  When
    produced, it is saved under [timeline_<id>.png] in the image
    directory.  Its points carry, in log order, the times, the
    severities and the types of the timeline of the statistics. *)
Theorem timeline_chart_conditions (w : World) (self : Instance) vs
    (id : string) :
  (fst (_generate_timeline w self vs id) = None <->
   vs = [] \/ timeline_plot_ok w = false \/
   exists v, v ∈ vs /\ strptime_ok w (timestamp v) = false) /\
  (forall p, fst (_generate_timeline w self vs id) = Some p ->
     p = os_path_join (image_dir self) ("timeline_" +:+ id +:+ ".png") /\
     snd (_generate_timeline w self vs id) = [savefig p]) /\
  timeline_points self vs
  = map (fun e => (entry_time e, entry_severity e, entry_type e))
      (timeline (_calculate_stats (generator self) vs)).
Proof.
  split; [| split].
  - unfold _generate_timeline. destruct vs as [|v0 vs0]; [cbn; tauto |].
    set (vs := v0 :: vs0).
    destruct (forallb (fun v => strptime_ok w (timestamp v)) vs) eqn:Hall;
      destruct (timeline_plot_ok w) eqn:Hplot; cbn [andb fst]; split;
      intros H; try discriminate; try reflexivity; try tauto.
    + destruct H as [H | [H | (v & Hv & Hbad)]]; try discriminate.
      assert (forallb (fun v => strptime_ok w (timestamp v)) vs = false)
        as Hf by (apply forallb_false; eauto).
      congruence.
    + right. right. now apply forallb_false.
  - intros p. unfold _generate_timeline. destruct vs as [|v0 vs0];
      [discriminate |].
    destruct (forallb _ _ && timeline_plot_ok w); cbn [fst snd];
      [| discriminate].
    intros H. injection H as <-. now split.
  - destruct (calculate_stats_fields (generator self) vs)
      as (_ & _ & _ & -> & _).
    unfold timeline_points. rewrite map_map. reflexivity.
Qed.

Lemma timeline_chart_conditions_witness :
  fst (_generate_timeline (sample_world true true) sample_instance
         sample_log "STUDENT_001")
  = Some ["./reports/generated"; "images"; "timeline_STUDENT_001.png"] /\
  snd (_generate_timeline (sample_world true true) sample_instance
         sample_log "STUDENT_001")
  = [savefig ["./reports/generated"; "images"; "timeline_STUDENT_001.png"]].
Proof.
  split; [reflexivity |].
  apply (proj1 (proj2 (timeline_chart_conditions (sample_world true true)
                         sample_instance sample_log "STUDENT_001"))
           ["./reports/generated"; "images"; "timeline_STUDENT_001.png"]).
  reflexivity.
Defined.

(** *** The format test *)

Lemma ascii_lower_p (c : Ascii.ascii) :
  ascii_lower c = "p"%char -> c = "p"%char \/ c = "P"%char.
Proof.
  destruct c as [[|] [|] [|] [|] [|] [|] [|] [|]]; vm_compute; intros H;
    first [discriminate | left; reflexivity | right; reflexivity].
Qed.

Lemma ascii_lower_d (c : Ascii.ascii) :
  ascii_lower c = "d"%char -> c = "d"%char \/ c = "D"%char.
Proof.
  destruct c as [[|] [|] [|] [|] [|] [|] [|] [|]]; vm_compute; intros H;
    first [discriminate | left; reflexivity | right; reflexivity].
Qed.

Lemma ascii_lower_f (c : Ascii.ascii) :
  ascii_lower c = "f"%char -> c = "f"%char \/ c = "F"%char.
Proof.
  destruct c as [[|] [|] [|] [|] [|] [|] [|] [|]]; vm_compute; intros H;
    first [discriminate | left; reflexivity | right; reflexivity].
Qed.

(** X26: the format test of [generate_report] is blind to letter case
    and to nothing else: [output_format.lower() == 'pdf'] holds for the
    eight spellings of "pdf" in upper and lower case letters and for no
    other string. *)
Theorem pdf_format_spellings (fmt : string) :
  String.eqb (lower fmt) "pdf" = true <->
  fmt ∈ ["pdf"; "pdF"; "pDf"; "pDF"; "Pdf"; "PdF"; "PDf"; "PDF"].
Proof.
  rewrite String.eqb_eq. split.
  - destruct fmt as [|c1 [|c2 [|c3 [|c4 rest]]]]; cbn [lower];
      intros H; try discriminate.
    injection H as H1 H2 H3.
    apply ascii_lower_p in H1 as [-> | ->];
      apply ascii_lower_d in H2 as [-> | ->];
      apply ascii_lower_f in H3 as [-> | ->];
      rewrite !elem_of_cons; tauto.
  - intros H. repeat (apply elem_of_cons in H as [-> | H]; [reflexivity |]).
    now apply elem_of_nil in H.
Qed.

(** *** The document *)

Lemma chart_effects_only_charts (w : World) (self : Instance) vs
    (id : string) (e : Effect) :
  e ∈ chart_effects w self vs id -> is_chart_effect e = true.
Proof.
  unfold chart_effects, _generate_timeline, _generate_heatmap.
  destruct vs as [|v0 vs0]; [intros H; now apply elem_of_nil in H |].
  destruct (forallb _ _ && timeline_plot_ok w), (heatmap_plot_ok w);
    cbn [fst snd app]; intros H;
    repeat (apply elem_of_cons in H as [-> | H]; [reflexivity |]);
    now apply elem_of_nil in H.
Qed.

(** [generate_report] once the student has an id, as a chain of
    tests. *)
Lemma generate_report_chain (w : World) (self : Instance)
    (info : gmap string string) vs (fmt gen stamp id : string) :
  overflowed (_calculate_stats (generator self) vs) = false ->
  info !! "id" = Some id ->
  generate_report w self info vs fmt gen stamp =
  if negb (render_ok w && open_ok w) then
    (None, chart_effects w self vs id ++ [error_report])
  else if negb (write_ok w) then
    (None,
     chart_effects w self vs id ++
     [open_html (report_path self id stamp ".html"); error_report])
  else if pdf_produced w fmt then
    (Some (report_path self id stamp ".pdf"),
     (chart_effects w self vs id ++
      [open_html (report_path self id stamp ".html");
       write_html (report_path self id stamp ".html")
         (report_data_of w self info vs gen id);
       info_html (report_path self id stamp ".html")]) ++
     [write_pdf (report_path self id stamp ".pdf");
      info_pdf (report_path self id stamp ".pdf")])
  else
    (Some (report_path self id stamp ".html"),
     (chart_effects w self vs id ++
      [open_html (report_path self id stamp ".html");
       write_html (report_path self id stamp ".html")
         (report_data_of w self info vs gen id);
       info_html (report_path self id stamp ".html")]) ++
     (if String.eqb (lower fmt) "pdf" && pdfkit_available w
      then [warning_pdf] else [])).
Proof.
  intros Hov Hid. unfold generate_report, chart_effects, report_data_of,
    pdf_produced, report_path. cbn zeta. rewrite Hov, Hid.
  destruct (_generate_timeline w self vs id) as [timeline_image effects_t].
  destruct (_generate_heatmap w self vs id) as [heatmap_image effects_h].
  cbn [fst snd].
  destruct (render_ok w), (open_ok w), (write_ok w); cbn [negb andb];
    try reflexivity.
  destruct (String.eqb (lower fmt) "pdf"), (pdfkit_available w), (pdf_ok w);
    cbn [andb]; rewrite ?app_nil_r; reflexivity.
Qed.

Lemma chart_effect_not_write (e : Effect) :
  is_chart_effect e = true -> is_write e = false.
Proof. now destruct e. Qed.

Lemma chart_effects_no_write (w : World) (self : Instance) vs (id : string) :
  Forall (fun e => is_write e = false) (chart_effects w self vs id).
Proof.
  apply Forall_forall. intros e He.
  apply chart_effect_not_write. now apply chart_effects_only_charts in He.
Qed.

Lemma generate_report_no_id (w : World) (self : Instance)
    (info : gmap string string) vs (fmt gen stamp : string) :
  info !! "id" = None ->
  generate_report w self info vs fmt gen stamp = (None, [error_report]).
Proof.
  intros Hid. unfold generate_report. cbn zeta. rewrite Hid.
  now destruct (overflowed _).
Qed.

Lemma generate_report_overflow (w : World) (self : Instance)
    (info : gmap string string) vs (fmt gen stamp : string) :
  overflowed (_calculate_stats (generator self) vs) = true ->
  generate_report w self info vs fmt gen stamp = (None, [error_report]).
Proof. intros Hov. unfold generate_report. cbn zeta. now rewrite Hov. Qed.

(** Membership in a trace, clause by clause. *)
Ltac trace_cases H :=
  rewrite ?elem_of_app, ?elem_of_cons, ?elem_of_nil in H;
  repeat match type of H with
         | _ \/ _ => destruct H as [H | H]
         | False => destruct H
         end.

(** A page in the trace is the page of the log, written after the
    charts. *)
Lemma generate_report_written (w : World) (self : Instance)
    (info : gmap string string) vs (fmt gen stamp : string)
    (p : Path) (data : ReportData) :
  write_html p data ∈ snd (generate_report w self info vs fmt gen stamp) ->
  exists id : string,
    info !! "id" = Some id /\
    data = report_data_of w self info vs gen id /\
    (forall e, e ∈ chart_effects w self vs id ->
       e ∈ snd (generate_report w self info vs fmt gen stamp)).
Proof.
  intros Hin.
  destruct (overflowed (_calculate_stats (generator self) vs)) eqn:Hov.
  { rewrite (generate_report_overflow w self info vs fmt gen stamp Hov)
      in Hin.
    cbn [snd] in Hin. trace_cases Hin. discriminate. }
  destruct (info !! "id") as [id |] eqn:Hid.
  - exists id. split; [reflexivity |].
    rewrite (generate_report_chain w self info vs fmt gen stamp id Hov Hid)
      in Hin |- *.
    assert (write_html p data ∉ chart_effects w self vs id) as Hnc.
    { intros H. apply chart_effects_only_charts in H. discriminate. }
    destruct (negb (render_ok w && open_ok w)).
    { cbn [snd] in Hin. trace_cases Hin; [contradiction | discriminate]. }
    destruct (negb (write_ok w)).
    { cbn [snd] in Hin. trace_cases Hin;
        [contradiction | discriminate | discriminate]. }
    destruct (pdf_produced w fmt); cbn [snd] in Hin |- *.
    + split; [| intros e He; rewrite !elem_of_app; tauto].
      trace_cases Hin; try contradiction; try discriminate.
      now injection Hin.
    + split; [| intros e He; rewrite !elem_of_app; tauto].
      destruct (String.eqb (lower fmt) "pdf" && pdfkit_available w);
        trace_cases Hin; try contradiction; try discriminate;
        now injection Hin.
  - rewrite (generate_report_no_id w self info vs fmt gen stamp Hid) in Hin.
    cbn [snd] in Hin. trace_cases Hin. discriminate.
Qed.

(** X18: the fallback chain of the report.  [generate_report] returns
    nothing exactly when the statistics overflow, the student has no
    id, the template fails, the HTML file cannot be opened or the page
    cannot be written; it then ends on an error record, no writing of a
    page or of a PDF having returned, and the HTML file has been
    created exactly when it is the writing that failed.  Otherwise the
    HTML file is created and the page written, with the statistics of
    the log; the PDF path is returned, after pdfkit has written the
    PDF, exactly when the format asked is "pdf" in any letter case,
    pdfkit is available and its calls return; in every other case the
    HTML path is returned and no call of pdfkit has returned. *)
Theorem report_fallback_chain (w : World) (self : Instance)
    (info : gmap string string) vs (fmt gen stamp : string) :
  (fst (generate_report w self info vs fmt gen stamp) = None <->
   overflowed (_calculate_stats (generator self) vs) = true \/
   info !! "id" = None \/ render_ok w = false \/ open_ok w = false \/
   write_ok w = false) /\
  (fst (generate_report w self info vs fmt gen stamp) = None ->
   last (snd (generate_report w self info vs fmt gen stamp))
   = Some error_report /\
   Forall (fun e => is_write e = false)
     (snd (generate_report w self info vs fmt gen stamp)) /\
   (forall p,
      open_html p ∈ snd (generate_report w self info vs fmt gen stamp) <->
      exists id : string,
        overflowed (_calculate_stats (generator self) vs) = false /\
        info !! "id" = Some id /\ p = report_path self id stamp ".html" /\
        render_ok w = true /\ open_ok w = true /\ write_ok w = false)) /\
  (forall id : string,
     overflowed (_calculate_stats (generator self) vs) = false ->
     info !! "id" = Some id -> render_ok w = true -> open_ok w = true ->
     write_ok w = true ->
     open_html (report_path self id stamp ".html")
     ∈ snd (generate_report w self info vs fmt gen stamp) /\
     write_html (report_path self id stamp ".html")
       (report_data_of w self info vs gen id)
     ∈ snd (generate_report w self info vs fmt gen stamp) /\
     (pdf_produced w fmt = true ->
      fst (generate_report w self info vs fmt gen stamp)
      = Some (report_path self id stamp ".pdf") /\
      write_pdf (report_path self id stamp ".pdf")
      ∈ snd (generate_report w self info vs fmt gen stamp)) /\
     (pdf_produced w fmt = false ->
      fst (generate_report w self info vs fmt gen stamp)
      = Some (report_path self id stamp ".html") /\
      forall p, write_pdf p
                ∉ snd (generate_report w self info vs fmt gen stamp))).
Proof.
  destruct (overflowed (_calculate_stats (generator self) vs)) eqn:Hov.
  { rewrite (generate_report_overflow w self info vs fmt gen stamp Hov).
    cbn [fst snd]. split; [| split].
    - split; [now left | reflexivity].
    - intros _. split; [reflexivity |].
      split; [now repeat constructor |].
      intros p. split.
      + intros Hin. trace_cases Hin. discriminate.
      + intros (id' & Hov' & _). discriminate.
    - intros id' Hov'. discriminate. }
  destruct (info !! "id") as [id |] eqn:Hid.
  - rewrite (generate_report_chain w self info vs fmt gen stamp id Hov Hid).
    split; [| split].
    + destruct (render_ok w), (open_ok w), (write_ok w);
        cbn [negb andb fst];
        try (destruct (pdf_produced w fmt)); cbn [fst];
        split; intros H; try discriminate; try reflexivity;
        try tauto; destruct H as [H | [H | [H | [H | H]]]]; discriminate.
    + assert (forall p, open_html p ∉ chart_effects w self vs id) as Hnc.
      { intros p Hin. apply chart_effects_only_charts in Hin.
        discriminate. }
      destruct (render_ok w);
        [destruct (open_ok w); [destruct (write_ok w) |] |];
        cbn [negb andb fst snd].
      * destruct (pdf_produced w fmt); discriminate.
      * intros _. split.
        { rewrite last_app. reflexivity. }
        split.
        { apply Forall_app. split;
            [apply chart_effects_no_write | now repeat constructor]. }
        intros p. rewrite elem_of_app, !elem_of_cons, elem_of_nil. split.
        -- intros [Hin | [Hin | [Hin | []]]];
             [now apply Hnc in Hin | | discriminate].
           injection Hin as ->. exists id. now repeat split.
        -- intros (id' & _ & Hid' & -> & _). injection Hid' as <-.
           right. now left.
      * intros _. split; [apply last_snoc |]. split.
        { apply Forall_app. split;
            [apply chart_effects_no_write | now repeat constructor]. }
        intros p. rewrite elem_of_app, !elem_of_cons, elem_of_nil. split.
        -- intros [Hin | [Hin | []]];
             [now apply Hnc in Hin | discriminate].
        -- intros (id' & _ & _ & _ & _ & Ho & _). discriminate.
      * intros _. split; [apply last_snoc |]. split.
        { apply Forall_app. split;
            [apply chart_effects_no_write | now repeat constructor]. }
        intros p. rewrite elem_of_app, !elem_of_cons, elem_of_nil. split.
        -- intros [Hin | [Hin | []]];
             [now apply Hnc in Hin | discriminate].
        -- intros (id' & _ & _ & _ & Hr & _). discriminate.
    + intros id' _ Hid' Hr Ho Hw. injection Hid' as <-.
      rewrite Hr, Ho, Hw. cbn [negb andb].
      split; [| split; [| split]].
      * destruct (pdf_produced w fmt); cbn [snd];
          rewrite !elem_of_app, !elem_of_cons; tauto.
      * destruct (pdf_produced w fmt); cbn [snd];
          rewrite !elem_of_app, !elem_of_cons; tauto.
      * intros ->. cbn [fst snd]. split; [reflexivity |].
        rewrite !elem_of_app, !elem_of_cons. tauto.
      * intros ->. cbn [fst snd]. split; [reflexivity |].
        intros p Hin. rewrite !elem_of_app in Hin.
        destruct Hin as [[Hin | Hin] | Hin].
        -- apply chart_effects_only_charts in Hin. discriminate.
        -- repeat (apply elem_of_cons in Hin as [Hin | Hin];
                   [discriminate |]).
           now apply elem_of_nil in Hin.
        -- destruct (String.eqb (lower fmt) "pdf" && pdfkit_available w);
             repeat (apply elem_of_cons in Hin as [Hin | Hin];
                     [discriminate |]);
             now apply elem_of_nil in Hin.
  - rewrite (generate_report_no_id w self info vs fmt gen stamp Hid).
    cbn [fst snd]. split; [| split].
    + split; [now right; left | reflexivity].
    + intros _. split; [reflexivity |].
      split; [now repeat constructor |].
      intros p. split.
      * intros Hin. trace_cases Hin. discriminate.
      * intros (id' & _ & Hid' & _). discriminate.
    + intros id' _ Hid'. discriminate.
Qed.

Lemma report_fallback_chain_witness :
  fst (generate_report (sample_world true false) sample_instance
         sample_student sample_log "PDF" "2024-05-06 10:00:00"
         "20240506_100000")
  = Some (report_path sample_instance "STUDENT_001" "20240506_100000"
            ".html").
Proof.
  refine (proj1 (proj2 (proj2 (proj2 (proj2 (proj2
    (report_fallback_chain (sample_world true false) sample_instance
       sample_student sample_log "PDF" "2024-05-06 10:00:00"
       "20240506_100000")) "STUDENT_001" _ _ _ _ _))) _));
    reflexivity.
Defined.

Lemma outside_charts_app (l l' : list Effect) :
  outside_charts (l ++ l') = outside_charts l ++ outside_charts l'.
Proof. unfold outside_charts. now rewrite filter_app, map_app. Qed.

Lemma outside_charts_of_charts (w : World) (self : Instance) vs
    (id : string) :
  outside_charts (chart_effects w self vs id) = [].
Proof.
  pose proof (chart_effects_only_charts w self vs id) as H.
  unfold outside_charts.
  induction (chart_effects w self vs id) as [|e l IH]; [reflexivity |].
  rewrite filter_cons.
  destruct (decide (is_chart_effect e = false)) as [Hf | _].
  - rewrite (H e) in Hf by left. discriminate.
  - apply IH. intros e' He'. apply H. now right.
Qed.

(** The images a page refers to were saved. *)
Lemma chart_image_saved (w : World) (self : Instance) vs (id : string)
    (q : Path) :
  fst (_generate_timeline w self vs id) = Some q \/
  fst (_generate_heatmap w self vs id) = Some q ->
  savefig q ∈ chart_effects w self vs id.
Proof.
  unfold chart_effects, _generate_timeline, _generate_heatmap.
  destruct vs as [|v0 vs0]; [intros [H | H]; discriminate |].
  destruct (forallb _ _ && timeline_plot_ok w), (heatmap_plot_ok w);
    cbn [fst snd]; intros [H | H]; try discriminate;
    injection H as <-; rewrite elem_of_app, !elem_of_cons; tauto.
Qed.

(** X19: the charts never decide whether there is a report, nor what
    it says apart from its images.  Two worlds that differ only in what
    happens to the charts (time stamps that do not parse, plots that
    fail) return the same document and, the charts apart, make the same
    calls in the same order, with pages that differ at most in their
    image fields.  In each world the page written carries the images
    that world's charts produced, [has_images] tells whether there is
    one, and every image it refers to has been saved. *)
Theorem charts_never_fail_the_report (w w' : World) (self : Instance)
    (info : gmap string string) vs (fmt gen stamp : string) :
  render_ok w = render_ok w' ->
  open_ok w = open_ok w' ->
  write_ok w = write_ok w' ->
  pdfkit_available w = pdfkit_available w' ->
  pdf_ok w = pdf_ok w' ->
  fst (generate_report w self info vs fmt gen stamp)
  = fst (generate_report w' self info vs fmt gen stamp) /\
  outside_charts (snd (generate_report w self info vs fmt gen stamp))
  = outside_charts (snd (generate_report w' self info vs fmt gen stamp)) /\
  (forall p data,
     write_html p data ∈ snd (generate_report w self info vs fmt gen stamp) ->
     exists id : string,
       info !! "id" = Some id /\
       timeline_image data = fst (_generate_timeline w self vs id) /\
       heatmap_image data = fst (_generate_heatmap w self vs id) /\
       (has_images data = true <->
        is_Some (timeline_image data) \/ is_Some (heatmap_image data)) /\
       (forall q,
          timeline_image data = Some q \/ heatmap_image data = Some q ->
          savefig q ∈ snd (generate_report w self info vs fmt gen stamp))).
Proof.
  intros Hr Ho Hw Ha Hp.
  destruct (overflowed (_calculate_stats (generator self) vs)) eqn:Hov.
  { rewrite !generate_report_overflow by assumption.
    split; [reflexivity |]. split; [reflexivity |].
    intros p data Hin. cbn [snd] in Hin. trace_cases Hin. discriminate. }
  destruct (info !! "id") as [id |] eqn:Hid.
  - rewrite !(generate_report_chain _ self info vs fmt gen stamp id Hov Hid).
    unfold pdf_produced. rewrite Hr, Ho, Hw, Ha, Hp.
    split; [| split].
    + destruct (render_ok w'), (open_ok w'), (write_ok w');
        cbn [negb andb fst]; try reflexivity.
      now destruct (String.eqb (lower fmt) "pdf" && pdfkit_available w'
                    && pdf_ok w').
    + destruct (render_ok w'), (open_ok w'), (write_ok w');
        cbn [negb andb snd];
        try (destruct (String.eqb (lower fmt) "pdf" && pdfkit_available w'
                       && pdf_ok w'); cbn [snd]);
        rewrite !outside_charts_app, !outside_charts_of_charts;
        reflexivity.
    + intros p data Hin.
      rewrite <- Hr, <- Ho, <- Hw, <- Ha, <- Hp in Hin |- *.
      fold (pdf_produced w fmt) in Hin |- *.
      rewrite <- (generate_report_chain w self info vs fmt gen stamp id
                    Hov Hid) in Hin |- *.
      destruct (generate_report_written w self info vs fmt gen stamp p data
                  Hin) as (id' & Hid' & -> & Hsub).
      assert (id' = id) as -> by congruence.
      exists id. split; [reflexivity |].
      unfold report_data_of.
      cbn [timeline_image heatmap_image has_images].
      split; [reflexivity |]. split; [reflexivity |]. split.
      * destruct (fst (_generate_timeline w self vs id)),
          (fst (_generate_heatmap w self vs id));
          split; intros H; try reflexivity; try discriminate;
          try (left; now eexists); try (right; now eexists);
          destruct H as [[? H] | [? H]]; discriminate.
      * intros q Hq. apply Hsub. now apply chart_image_saved.
  - rewrite !generate_report_no_id by assumption.
    split; [reflexivity |]. split; [reflexivity |].
    intros p data Hin. cbn [snd] in Hin. trace_cases Hin. discriminate.
Qed.

Lemma charts_never_fail_the_report_witness :
  fst (generate_report (sample_world true true) sample_instance
         sample_student sample_log "pdf" "2024-05-06 10:00:00"
         "20240506_100000")
  = fst (generate_report (sample_world false true) sample_instance
           sample_student sample_log "pdf" "2024-05-06 10:00:00"
           "20240506_100000").
Proof.
  apply (charts_never_fail_the_report (sample_world true true)
           (sample_world false true)); reflexivity.
Defined.

(** X20: for an empty log no chart is attempted, neither saved nor
    warned about, and every page written shows no image and the
    statistics of nothing: zero total, no type, an empty timeline, zero
    severity score and zero average. *)
Theorem report_of_empty_log (w : World) (self : Instance)
    (info : gmap string string) (fmt gen stamp : string) :
  Forall (fun e => is_chart_effect e = false)
    (snd (generate_report w self info [] fmt gen stamp)) /\
  (forall p data,
     write_html p data ∈ snd (generate_report w self info [] fmt gen stamp) ->
     has_images data = false /\
     timeline_image data = None /\ heatmap_image data = None /\
     total (stats data) = 0 /\ by_type (stats data) = ∅ /\
     timeline (stats data) = [] /\ severity_score (stats data) = 0 /\
     average_severity (stats data) = PyInt 0).
Proof.
  split.
  - destruct (info !! "id") as [id |] eqn:Hid.
    + rewrite (generate_report_chain w self info [] fmt gen stamp id
                 eq_refl Hid).
      change (chart_effects w self [] id) with (@nil Effect).
      destruct (negb (render_ok w && open_ok w)); cbn [snd app];
        [now repeat constructor |].
      destruct (negb (write_ok w)); cbn [snd app];
        [now repeat constructor |].
      destruct (pdf_produced w fmt); cbn [snd app];
        [now repeat constructor |].
      destruct (String.eqb (lower fmt) "pdf" && pdfkit_available w);
        now repeat constructor.
    + rewrite (generate_report_no_id w self info [] fmt gen stamp Hid).
      now repeat constructor.
  - intros p data Hin.
    destruct (generate_report_written w self info [] fmt gen stamp p data
                Hin) as (id & _ & -> & _).
    repeat split.
Qed.

Lemma report_of_empty_log_witness :
  write_html
    (report_path sample_instance "STUDENT_001" "20240506_100000" ".html")
    (report_data_of (sample_world true true) sample_instance sample_student
       [] "2024-05-06 10:00:00" "STUDENT_001")
  ∈ snd (generate_report (sample_world true true) sample_instance
           sample_student [] "html" "2024-05-06 10:00:00" "20240506_100000")
  /\ has_images
       (report_data_of (sample_world true true) sample_instance
          sample_student [] "2024-05-06 10:00:00" "STUDENT_001") = false.
Proof.
  assert (write_html
            (report_path sample_instance "STUDENT_001" "20240506_100000"
               ".html")
            (report_data_of (sample_world true true) sample_instance
               sample_student [] "2024-05-06 10:00:00" "STUDENT_001")
          ∈ snd (generate_report (sample_world true true) sample_instance
                   sample_student [] "html" "2024-05-06 10:00:00"
                   "20240506_100000")) as Hin.
  { vm_compute. right. left. }
  split; [exact Hin |].
  exact (proj1 (proj2 (report_of_empty_log (sample_world true true)
                         sample_instance sample_student "html"
                         "2024-05-06 10:00:00" "20240506_100000")
                  _ _ Hin)).
Defined.

End ReportCharts.

(** * Properties of the overlay *)

Section Overlay.

Import overlay.

Implicit Types (results : Shown) (draws : list Draw).

Lemma reason_texts_app draws draws' :
  reason_texts (draws ++ draws') = reason_texts draws ++ reason_texts draws'.
Proof. apply omap_app. Qed.

Lemma reason_texts_put_lines (items : list string) (y h : Z) (c : Color) :
  reason_texts (fst (put_lines items y h c)) = [].
Proof.
  revert y. induction items as [|item items IH]; intros y; [reflexivity |].
  cbn [put_lines]. specialize (IH (y + h)).
  destruct (put_lines items (y + h) h c) as [draws y']. exact IH.
Qed.

Lemma reason_texts_put_reasons (reasons : list string) (x y : Z) :
  reason_texts (put_reasons reasons x y) = map (fun r => "- " +:+ r) reasons.
Proof.
  revert y. induction reasons as [|r reasons IH]; intros y; [reflexivity |].
  cbn [put_reasons map]. rewrite <- (IH (y + 22)). reflexivity.
Qed.

Lemma display_reason_texts (to_pixels : Z -> Z) (frame_width : Z) results :
  reason_texts (display_detection_results to_pixels frame_width results)
  = if 50 <=? default 0 (cheating_probability results)
    then map (fun r => "- " +:+ r)
           (take 3 (default [] (cheating_reasons results)))
    else [].
Proof.
  unfold display_detection_results.
  match goal with
  | |- context [put_lines ?items 30 30 (0, 255, 0)] =>
      pose proof (reason_texts_put_lines items 30 30 (0, 255, 0)) as Hs;
      destruct (put_lines items 30 30 (0, 255, 0)) as [status_draws y1]
  end.
  match goal with
  | |- context [put_lines ?items y1 30 (0, 0, 255)] =>
      pose proof (reason_texts_put_lines items y1 30 (0, 0, 255)) as Ha;
      destruct (put_lines items y1 30 (0, 0, 255)) as [alert_draws y2]
  end.
  cbn [fst] in Hs, Ha.
  rewrite !reason_texts_app, Hs, Ha. cbn [app].
  destruct (default [] (cheating_reasons results)) as [|r0 reasons].
  - cbn. now destruct (50 <=? default 0 (cheating_probability results)).
  - destruct (50 <=? default 0 (cheating_probability results)).
    + change (reason_texts
                (put_reasons (take 3 (r0 :: reasons)) 10 (y2 + 10 + 20 + 25))
              ++ [] = map (fun r => "- " +:+ r) (take 3 (r0 :: reasons))).
      now rewrite reason_texts_put_reasons, app_nil_r.
    + reflexivity.
Qed.

(** X21: the overlay explains the risk with the reasons it is given,
    and only from a probability of 50: the reason lines drawn are the
    first three reasons, in order, each after a dash, when the
    probability is at least 50, and none otherwise; so never more than
    three lines, and none for a missing or empty list of reasons. *)
Theorem overlay_reason_lines (to_pixels : Z -> Z) (frame_width : Z) results :
  reason_texts (display_detection_results to_pixels frame_width results)
  = (if 50 <=? default 0 (cheating_probability results)
     then map (fun r => "- " +:+ r)
            (take 3 (default [] (cheating_reasons results)))
     else []) /\
  (length (reason_texts
             (display_detection_results to_pixels frame_width results))
   <= 3)%nat /\
  (default [] (cheating_reasons results) = [] ->
   reason_texts (display_detection_results to_pixels frame_width results)
   = []).
Proof.
  rewrite display_reason_texts.
  split; [reflexivity |]. split.
  - destruct (50 <=? default 0 (cheating_probability results));
      [| cbn; lia].
    rewrite length_map, length_take. lia.
  - intros ->. now destruct (50 <=? default 0 (cheating_probability results)).
Qed.

Lemma overlay_reason_lines_witness :
  reason_texts (display_detection_results (fun p => 3 * p) 640
                  {| signals := frame_calm; eye_ratio := 0.3%Q;
                     cheating_probability := Some 80;
                     cheating_reasons := None |}) = [].
Proof.
  apply (overlay_reason_lines (fun p => 3 * p) 640
           {| signals := frame_calm; eye_ratio := 0.3%Q;
              cheating_probability := Some 80;
              cheating_reasons := None |}).
  reflexivity.
Defined.

(** X22: what [main] shows for a frame.  With the rolling average and
    the reasons of the frame as [update] returns them, reason lines are
    drawn exactly when the average is at least 50 and the frame itself
    has a non-zero score, so a frame without signals is shown without
    explanation however high the average; and at most three lines are
    drawn, in scoring order, so that with the face absent, several
    faces and an object all reported, mouth movement and gaze are never
    shown. *)
Theorem overlay_of_scored_frame (to_pixels : Z -> Z) (frame_width : Z)
    (self : cheating_probability.CheatingProbabilityCalculator)
    (r : Results) (score : Z) (reasons : list string) (eye : Q) (avg : Z) :
  cheating_probability.weights self = cheating_probability.default_weights ->
  cheating_probability.compute_frame_score self r = inr (score, reasons) ->
  (reason_texts (display_detection_results to_pixels frame_width
                   (shown_by_main r eye avg reasons)) = [] <->
   avg < 50 \/ score = 0) /\
  (length (reason_texts (display_detection_results to_pixels frame_width
                           (shown_by_main r eye avg reasons))) <= 3)%nat /\
  (50 <= avg -> face_present r = false -> multiple_faces r = true ->
   objects_detected r = true ->
   reason_texts (display_detection_results to_pixels frame_width
                   (shown_by_main r eye avg reasons))
   = ["- Face not visible"; "- Multiple faces detected";
      "- Suspicious object detected"]).
Proof.
  intros Hw Hc.
  destruct default_weights_lookup as (Lf & Lm & Lo & Lt & Lg).
  rewrite <- Hw in Lf, Lm, Lo, Lt, Lg.
  rewrite (compute_frame_score_sum self r _ _ _ _ _ Lf Lm Lo Lt Lg) in Hc.
  injection Hc as <- <-.
  rewrite display_reason_texts.
  cbn [shown_by_main cheating_probability cheating_reasons default
       from_option id].
  unfold contributes, explains.
  destruct (Z.leb_spec 50 avg) as [Havg | Havg];
    destruct (face_present r), (multiple_faces r), (objects_detected r),
      (mouth_moving r), (gaze_away r); cbn;
    repeat split; intros; try discriminate; try lia; try reflexivity;
    try (left; lia); try (right; lia);
    try match goal with H : _ \/ _ |- _ => destruct H; lia end.
Qed.

Lemma overlay_of_scored_frame_witness :
  reason_texts (display_detection_results (fun p => 3 * p) 640
                  (shown_by_main frame_all_signals 0.3%Q 100
                     ["Face not visible"; "Multiple faces detected";
                      "Suspicious object detected";
                      "Mouth movement detected";
                      "Looking away from screen"]))
  = ["- Face not visible"; "- Multiple faces detected";
     "- Suspicious object detected"].
Proof.
  apply (overlay_of_scored_frame (fun p => 3 * p) 640
           (cheating_probability.__init__ 30) frame_all_signals 100
           ["Face not visible"; "Multiple faces detected";
            "Suspicious object detected"; "Mouth movement detected";
            "Looking away from screen"] 0.3%Q 100);
    first [reflexivity | lia].
Defined.

(** X23: the layout of the overlay.  The last call draws the time
    stamp at the top right, 260 pixels from the right edge; before it
    come the four status lines, one line for each of the two alerts
    that holds, the two rectangles of the bar, the probability and,
    when shown, the header and at most three reasons.  These texts are
    drawn top down from height 30, each at least 22 pixels below the
    one before, so that no two of them overlap. *)
Theorem overlay_layout (to_pixels : Z -> Z) (frame_width : Z) results :
  exists body : list Draw,
    display_detection_results to_pixels frame_width results
    = body ++ [putText (timestamp (signals results))
                 (frame_width - 260, 30) 0.7%Q (255, 255, 255) 2] /\
    StronglySorted (fun a b => a + 22 <= b) (omap text_height body) /\
    head (omap text_height body) = Some 30 /\
    length body
    = (7 + (if multiple_faces (signals results) then 1 else 0)
         + (if objects_detected (signals results) then 1 else 0)
         + match default [] (cheating_reasons results) with
           | [] => 0
           | reasons =>
               if (50 <=? default 0 (cheating_probability results))%Z
               then 1 + Nat.min 3 (length reasons) else 0
           end)%nat.
Proof.
  exists (removelast
            (display_detection_results to_pixels frame_width results)).
  unfold display_detection_results.
  destruct (multiple_faces (signals results)),
    (objects_detected (signals results));
    cbn [put_lines app];
    destruct (default [] (cheating_reasons results))
      as [|r1 [|r2 [|r3 rest]]];
    destruct (50 <=? default 0 (cheating_probability results));
    cbn [take put_reasons app removelast omap list_omap text_height snd
         head length Nat.min Nat.add];
    (split; [reflexivity |]);
    (split;
     [repeat first [apply SSorted_nil | apply SSorted_cons
                   | apply Forall_nil_2 | apply Forall_cons_2];
      cbn [snd]; lia |]);
    split; reflexivity.
Qed.

End Overlay.

(** * The background unit of an alert *)

Section BackgroundUnit.

Import alert_system.

(** Membership in a trace, decided by computation. *)
Lemma elem_of_bool (x : AudioEvent) (l : list AudioEvent) (b : bool) :
  bool_decide (x ∈ l) = b -> (x ∈ l <-> b = true).
Proof. intros <-. symmetry. apply bool_decide_eq_true. Qed.

Lemma last_bool (x : AudioEvent) (l : list AudioEvent) :
  implb (bool_decide (x ∈ l)) (bool_decide (last l = Some x)) = true ->
  x ∈ l -> last l = Some x.
Proof.
  intros H Hin. apply (bool_decide_eq_true_2 _) in Hin.
  rewrite Hin in H. now apply bool_decide_eq_true in H.
Qed.

(** X24: the exit paths of the background unit.  A unit for a type
    without a message does nothing.  A unit for a type with a message
    makes it audible once when every call up to [play()] returns and
    not at all otherwise; it prints one warning when a call of the
    [try] block raises and none otherwise, a failing removal included;
    it creates its temporary file exactly when [gTTS] and
    [NamedTemporaryFile] return; it removes the file exactly when it
    created it, reaches its end, the file still exists and [os.remove]
    returns, and passes over the removal that raises; and a removal,
    done or failed, is the last thing it does.  A unit whose waiting
    loop never ends leaves its file. *)
Theorem background_unit_exit_paths (self : AlertSystem) (T : string)
    (env : AudioEnv) :
  (alerts self !! T = None -> _play_audio self T env = []) /\
  (forall text : string,
     alerts self !! T = Some text ->
     emission self env T
     = (if starts_playback env then [Played text] else []) /\
     length (filter (fun e => e = WarningPrinted) (_play_audio self T env))
     = (if raises env then 1 else 0)%nat /\
     (TempFileCreated ∈ _play_audio self T env <-> creates_file env = true) /\
     (TempFileRemoved ∈ _play_audio self T env <->
      creates_file env && terminates env && file_exists env && remove_ok env
      = true) /\
     (RemovalFailed ∈ _play_audio self T env <->
      creates_file env && terminates env && file_exists env
      && negb (remove_ok env) = true) /\
     (forall e,
        e = TempFileRemoved \/ e = RemovalFailed ->
        e ∈ _play_audio self T env ->
        last (_play_audio self T env) = Some e)).
Proof.
  split; [apply play_audio_unknown |].
  intros text Hm. split.
  { destruct (starts_playback env) eqn:Hs;
      [now apply emission_plays | now apply emission_fails]. }
  unfold _play_audio, cleanup, raises, terminates, creates_file,
    starts_playback.
  rewrite Hm. destruct env as [g t sv l p w f r].
  cbn [gtts_ok tempfile_ok save_ok load_ok play_ok wait file_exists
       remove_ok].
  split; [| split; [| split; [| split]]];
    [ | apply elem_of_bool | apply elem_of_bool | apply elem_of_bool
      | intros e [-> | ->]; apply last_bool ];
    destruct g, t, sv, l, p, w, f, r; vm_compute; reflexivity.
Qed.

Lemma background_unit_exit_paths_witness :
  last (_play_audio (__init__ 5 true) "FACE_DISAPPEARED"
          {| gtts_ok := true; tempfile_ok := true; save_ok := false;
             load_ok := true; play_ok := true; wait := WaitEnds;
             file_exists := true; remove_ok := false |})
  = Some RemovalFailed.
Proof.
  refine (proj2 (proj2 (proj2 (proj2 (proj2 (proj2
    (background_unit_exit_paths (__init__ 5 true) "FACE_DISAPPEARED" _)
    "Please look at the screen" eq_refl))))) RemovalFailed _ _).
  - now right.
  - vm_compute. right. right. left.
Defined.

End BackgroundUnit.
